(** * Resume screening pipeline: keyword matcher and two-stage screener

    A shallow embedding of [keyword_matcher.py] and [resume_screener.py].

    Python [str] values are modelled as Rocq [string]s read as sequences of
    code points: the character [ascii_of_nat n] is the code point [n], for
    [n] below 256 (ASCII and the Latin-1 supplement).  The character classes
    below ([is_space], [is_word], [lower_char], [is_int_space]) are Python's
    own tables on these 256 code points, on which [str.lower] acts character
    by character.  The external collaborators of the code (the spaCy
    pipeline [nlp], [json.loads] and the generative model) are interfaces,
    given as type classes. *)

From Stdlib Require Import ZArith QArith Lia Ascii String List Bool.
From Stdlib Require Import Floats.SpecFloat.
From Stdlib Require Import Sorting.Sorted.
From stdpp Require Import base list strings.

Local Open Scope string_scope.
Local Open Scope nat_scope.

(** ** Python string primitives *)

Module PyStr.

(** [str.isspace], the class [str.split] and [str.strip] use: TAB..CR,
    FS..US, the space, NEL (133) and the no-break space (160). *)
Definition is_space (c : ascii) : bool :=
  let n := nat_of_ascii c in
  (Nat.leb 9 n && Nat.leb n 13) || (Nat.leb 28 n && Nat.leb n 32)
  || Nat.eqb n 133 || Nat.eqb n 160.

(** The regular expression class [\w] of a [str] pattern: the underscore
    and the alphanumeric characters, which are the ASCII letters and digits,
    the two ordinal indicators (170, 186), the superscript digits (178, 179,
    185), the micro sign (181), the three fractions (188..190) and the
    letters from 192 on, that is all of 192..255 but the multiplication and
    the division sign (215, 247). *)
Definition is_word (c : ascii) : bool :=
  let n := nat_of_ascii c in
  (Nat.leb 48 n && Nat.leb n 57) || (Nat.leb 65 n && Nat.leb n 90)
  || (Nat.leb 97 n && Nat.leb n 122) || Nat.eqb n 95
  || Nat.eqb n 170 || Nat.eqb n 178 || Nat.eqb n 179 || Nat.eqb n 181
  || Nat.eqb n 185 || Nat.eqb n 186 || (Nat.leb 188 n && Nat.leb n 190)
  || (Nat.leb 192 n && negb (Nat.eqb n 215) && negb (Nat.eqb n 247)).

(** The characters [str.lower] changes: the capital letters A..Z and
    192..222 without the multiplication sign; each goes to the character
    32 places up. *)
Definition is_upper (c : ascii) : bool :=
  let n := nat_of_ascii c in
  (Nat.leb 65 n && Nat.leb n 90)
  || (Nat.leb 192 n && Nat.leb n 222 && negb (Nat.eqb n 215)).

Definition lower_char (c : ascii) : ascii :=
  if is_upper c then ascii_of_nat (nat_of_ascii c + 32) else c.

(** [s.lower()] *)
Fixpoint lower (s : string) : string :=
  match s with
  | EmptyString => EmptyString
  | String c r => String (lower_char c) (lower r)
  end.

Definition is_empty (s : string) : bool :=
  match s with EmptyString => true | String _ _ => false end.

(** Removal of the leading, then of the trailing characters of a class. *)
Fixpoint lstrip_by (sp : ascii -> bool) (s : string) : string :=
  match s with
  | EmptyString => EmptyString
  | String c r => if sp c then lstrip_by sp r else s
  end.

Fixpoint rstrip_by (sp : ascii -> bool) (s : string) : string :=
  match s with
  | EmptyString => EmptyString
  | String c r =>
      let r' := rstrip_by sp r in
      if sp c && is_empty r' then EmptyString else String c r'
  end.

Definition strip_by (sp : ascii -> bool) (s : string) : string :=
  rstrip_by sp (lstrip_by sp s).

(** [s.strip()] *)
Definition strip (s : string) : string := strip_by is_space s.

(** [s.split()]: the maximal runs of non-whitespace characters, in order.
    [cur] is the run being read. *)
Fixpoint split_from (cur : string) (s : string) : list string :=
  match s with
  | EmptyString => if is_empty cur then [] else [cur]
  | String c r =>
      if is_space c
      then (if is_empty cur then split_from EmptyString r
            else cur :: split_from EmptyString r)
      else split_from (cur ++ String c EmptyString) r
  end.

Definition split (s : string) : list string := split_from EmptyString s.

(** [sep.join(l)] *)
Fixpoint join (sep : string) (l : list string) : string :=
  match l with
  | [] => EmptyString
  | [x] => x
  | x :: r => x ++ sep ++ join sep r
  end.

(** *** [re.search(r'\b' + re.escape(p) + r'\b', t)]

    [re.escape] makes the pattern match [p] literally, so the search
    succeeds iff [p] occurs in [t] at a position [i] with a word boundary
    at [i] and one at [i + len(p)]. *)

Definition word_at (t : string) (j : nat) : bool :=
  match String.get j t with
  | Some c => is_word c
  | None => false
  end.

(** [\b] at index [j] of [t]: exactly one of the characters before and
    after the index is a word character (outside the text counts as a
    non-word character). *)
Definition boundary (t : string) (j : nat) : bool :=
  xorb (match j with O => false | S j' => word_at t j' end) (word_at t j).

Definition match_at (p t : string) (i : nat) : bool :=
  boundary t i
  && String.eqb (String.substring i (String.length p) t) p
  && boundary t (i + String.length p).

Definition search_word (p t : string) : bool :=
  existsb (match_at p t) (seq 0 (S (String.length t))).

End PyStr.

(** ** Python numbers: [int * float] and [int < float]

    Python floats are IEEE 754 binary64 values; they are modelled by the
    [spec_float] operations at precision 53 and maximal exponent 1024. *)

Module PyFloat.

Definition prec : Z := 53.
Definition emax : Z := 1024.

(** [float(i)], the conversion done by [i * x] before multiplying. *)
Definition of_int (i : Z) : spec_float := binary_normalize prec emax i 0 false.

(** The float literals [0.3] and [0.6]. *)
Definition lit_0_3 : spec_float := S754_finite false 5404319552844595 (-54).
Definition lit_0_6 : spec_float := S754_finite false 5404319552844595 (-53).

(** [i * x] for an int [i] and a float [x]. *)
Definition int_mul (i : Z) (x : spec_float) : spec_float :=
  SFmul prec emax (of_int i) x.

(** [i < x] for an int [i] and a float [x]: Python compares the exact
    mathematical values, without rounding [i]. *)
Definition int_lt (i : Z) (x : spec_float) : bool :=
  match x with
  | S754_zero _ => (i <? 0)%Z
  | S754_infinity s => negb s
  | S754_nan => false
  | S754_finite s m e =>
      let v := if s then Zneg m else Zpos m in
      if (0 <=? e)%Z then (i <? v * 2 ^ e)%Z else (i * 2 ^ (- e) <? v)%Z
  end.

(** [i >= x] for an int [i] and a float [x]. *)
Definition int_ge (i : Z) (x : spec_float) : bool :=
  match x with
  | S754_zero _ => (0 <=? i)%Z
  | S754_infinity s => s
  | S754_nan => false
  | S754_finite s m e =>
      let v := if s then Zneg m else Zpos m in
      if (0 <=? e)%Z then (v * 2 ^ e <=? i)%Z else (v <=? i * 2 ^ (- e))%Z
  end.

(** The integer part of a float, by truncation toward zero; NaN and the
    infinities have none. *)
Definition trunc (x : spec_float) : option Z :=
  match x with
  | S754_zero _ => Some 0%Z
  | S754_infinity _ => None
  | S754_nan => None
  | S754_finite s m e =>
      let a := if (0 <=? e)%Z then (Zpos m * 2 ^ e)%Z else (Zpos m / 2 ^ (- e))%Z in
      Some (if s then (- a)%Z else a)
  end.

End PyFloat.

(** ** Exceptions *)

(** The exception classes the handlers of the code tell apart, and
    [OtherException] for the rest of [Exception].  [JSONDecodeError] is a
    subclass of [ValueError]: a handler for [ValueError] catches it too. *)
Inductive exn_class :=
  | ValueError | JSONDecodeError | TypeError | OverflowError | AttributeError
  | RecursionError | OtherException.

(** An exception: its class and [str(e)]. *)
Record exn := Exn { exn_class_of : exn_class; exn_msg : string }.

Inductive result (A : Type) :=
  | Ok (a : A)
  | Raise (e : exn).
Arguments Ok {A} a.
Arguments Raise {A} e.

Definition bind {A B} (r : result A) (k : A -> result B) : result B :=
  match r with
  | Ok a => k a
  | Raise e => Raise e
  end.

Notation "'let!' x ':=' r 'in' k" := (bind r (fun x => k))
  (at level 10, x name, r at level 100, k at level 200).

Definition is_ok {A} (r : result A) : Prop := exists a, r = Ok a.

(** ** keyword_matcher.py *)

(** A spaCy token, with the three attributes the code reads. *)
Record Token := { lemma_ : string; is_stop : bool; is_punct : bool }.

(** The loaded pipeline [nlp = spacy.load("en_core_web_sm")]. *)
Class NLP := { nlp : string -> result (list Token) }.

Definition EMPTY_PROCESSED_STRING : string := "EMPTY_PROCESSED_STRING".

Section KeywordMatcher.
Context `{NLP}.

Definition clean_tokens (doc : list Token) : list string :=
  map lemma_ (List.filter (fun token => negb (is_stop token) && negb (is_punct token)) doc).

Definition preprocess_text (text : string) : result string :=
  let! doc := nlp (PyStr.lower text) in
  let processed_text := PyStr.strip (PyStr.join " " (clean_tokens doc)) in
  Ok (if PyStr.is_empty processed_text then EMPTY_PROCESSED_STRING else processed_text).

(** The two branches of the loop body that compute [processed_keyword]. *)
Definition processed_keyword (original_keyword : string) : result string :=
  if Nat.ltb 1 (length (PyStr.split original_keyword))
  then preprocess_text original_keyword
  else Ok (PyStr.strip (PyStr.lower original_keyword)).

(** The guard [if not processed_keyword or processed_keyword == "EMPTY_PROCESSED_STRING": continue]. *)
Definition skipped (processed : string) : bool :=
  PyStr.is_empty processed || String.eqb processed EMPTY_PROCESSED_STRING.

(** The loop over [keywords]; the list built by [keywords_found.append]. *)
Fixpoint keywords_found (processed_resume : string) (keywords : list string)
  : result (list string) :=
  match keywords with
  | [] => Ok []
  | original_keyword :: rest =>
      let! processed := processed_keyword original_keyword in
      let! found := keywords_found processed_resume rest in
      Ok (if skipped processed then found
          else if PyStr.search_word processed processed_resume
               then original_keyword :: found
               else found)
  end.

(** The final [if]/[elif] chain, on [len(keywords_found)] and [len(keywords)]. *)
Definition initial_decision_of (found total : nat) : string :=
  if Nat.eqb found 0 then "FAIL - No keywords matched"
  else if PyFloat.int_lt (Z.of_nat found) (PyFloat.int_mul (Z.of_nat total) PyFloat.lit_0_3)
  then "WEAK - Low keyword match rate"
  else if PyFloat.int_ge (Z.of_nat found) (PyFloat.int_mul (Z.of_nat total) PyFloat.lit_0_6)
  then "STRONG - High keyword match rate"
  else "MODERATE - Moderate keyword match rate".

Definition match_keywords (resume_text : string) (keywords : list string)
  : result (list string * string) :=
  let! processed_resume := preprocess_text resume_text in
  let! found := keywords_found processed_resume keywords in
  Ok (found, initial_decision_of (length found) (length keywords)).

(** Predicates of the statements below: the pipeline raises on no text;
    a keyword counts as a hit against the processed resume [pr]. *)
Definition nlp_total : Prop := forall text, is_ok (nlp text).

Definition hit (pr kw : string) : Prop :=
  exists p, processed_keyword kw = Ok p
            /\ skipped p = false
            /\ PyStr.search_word p pr = true.

End KeywordMatcher.

(** ** Values decoded from JSON *)

(** A decoded value; [JObj] is a dict, given by its items in order. *)
#[warnings="-register-all"]
Inductive json :=
  | JNull
  | JBool (b : bool)
  | JInt (z : Z)
  | JFloat (x : spec_float)
  | JStr (s : string)
  | JList (l : list json)
  | JObj (kv : list (string * json)).

(** [json.loads]: the decoded value, or the exception the call raises.  A
    text that is not JSON raises [JSONDecodeError]; the call has other
    faults too, such as [RecursionError] on a deeply nested text and
    [ValueError] on an integer literal of more than 4300 digits. *)
Class JSONDecoder := { json_loads : string -> result json }.

Module PyVal.

(** [type(v).__name__] *)
Definition type_name (v : json) : string :=
  match v with
  | JNull => "NoneType"
  | JBool _ => "bool"
  | JInt _ => "int"
  | JFloat _ => "float"
  | JStr _ => "str"
  | JList _ => "list"
  | JObj _ => "dict"
  end.

Fixpoint lookup (kv : list (string * json)) (key : string) : option json :=
  match kv with
  | [] => None
  | (k, v) :: rest => if String.eqb k key then Some v else lookup rest key
  end.

(** [d.get(key, default)] on a dict. *)
Definition dict_get (kv : list (string * json)) (key : string) (default : json) : json :=
  match lookup kv key with Some x => x | None => default end.

(** [v.get(key, default)]: only a dict has the method. *)
Definition get (v : json) (key : string) (default : json) : result json :=
  match v with
  | JObj kv => Ok (dict_get kv key default)
  | _ => Raise (Exn AttributeError ("'" ++ type_name v ++ "' object has no attribute 'get'"))
  end.

Definition digit_of (c : ascii) : option Z :=
  let n := nat_of_ascii c in
  if Nat.leb 48 n && Nat.leb n 57 then Some (Z.of_nat (n - 48)) else None.

(** Decimal digits with single underscores between digits only;
    [prev_digit] tells whether the previous character was a digit. *)
Fixpoint parse_digits (acc : Z) (prev_digit : bool) (s : string) : option Z :=
  match s with
  | EmptyString => if prev_digit then Some acc else None
  | String c r =>
      match digit_of c with
      | Some d => parse_digits (10 * acc + d)%Z true r
      | None =>
          if Ascii.eqb c "_" && prev_digit then parse_digits acc false r else None
      end
  end.

(** The whitespace [int] accepts around the literal: TAB..CR, the space,
    NEL and the no-break space (not FS..US, unlike [str.strip]). *)
Definition is_int_space (c : ascii) : bool :=
  let n := nat_of_ascii c in
  (Nat.leb 9 n && Nat.leb n 13) || Nat.eqb n 32 || Nat.eqb n 133 || Nat.eqb n 160.

Fixpoint count_digits (s : string) : nat :=
  match s with
  | EmptyString => 0
  | String c r => (match digit_of c with Some _ => 1 | None => 0 end) + count_digits r
  end.

(** [sys.get_int_max_str_digits()], the default of Python 3.11. *)
Definition int_max_str_digits : nat := 4300.

Definition parse_unsigned (s : string) : option Z :=
  if Nat.leb (count_digits s) int_max_str_digits then parse_digits 0 false s else None.

(** [int(s)] for a string, base 10: surrounding whitespace, an optional
    sign, then the digits; [None] stands for [ValueError]. *)
Definition int_of_str (s : string) : option Z :=
  match PyStr.strip_by is_int_space s with
  | String "+" r => parse_unsigned r
  | String "-" r => option_map Z.opp (parse_unsigned r)
  | t => parse_unsigned t
  end.

(** [int(v)] *)
Definition int (v : json) : result Z :=
  match v with
  | JBool b => Ok (if b then 1 else 0)%Z
  | JInt z => Ok z
  | JFloat x =>
      match PyFloat.trunc x, x with
      | Some z, _ => Ok z
      | None, S754_nan => Raise (Exn ValueError "cannot convert float NaN to integer")
      | None, _ => Raise (Exn OverflowError "cannot convert float infinity to integer")
      end
  | JStr s =>
      match int_of_str s with
      | Some z => Ok z
      | None => Raise (Exn ValueError ("invalid literal for int() with base 10: '" ++ s ++ "'"))
      end
  | JNull | JList _ | JObj _ =>
      Raise (Exn TypeError
               ("int() argument must be a string, a bytes-like object or a real number, not '"
                ++ type_name v ++ "'"))
  end.

End PyVal.

(** ** resume_screener.py *)

(** [ResumeScreeningState].  The four fields filled from the model's answer
    hold whatever JSON value the answer carried: nothing checks them against
    the declared types. *)
Record ResumeScreeningState := {
  all_keywords : list string;
  resume_text : string;
  job_description_text : string;
  matching_keywords : list string;
  initial_decision : string;
  decision : json;
  evaluation_summary : json;
  requirements_met : json;
  requirements_missing : json;
  overall_score : option Z;
  error : string
}.

Inductive state_key :=
  | K_all_keywords | K_resume_text | K_job_description_text
  | K_matching_keywords | K_initial_decision
  | K_decision | K_evaluation_summary | K_requirements_met | K_requirements_missing
  | K_overall_score | K_error.

(** One [key: value] entry of a dict over the state's keys, such as the
    dict a node returns. *)
Inductive entry :=
  | Set_all_keywords (v : list string)
  | Set_resume_text (v : string)
  | Set_job_description_text (v : string)
  | Set_matching_keywords (v : list string)
  | Set_initial_decision (v : string)
  | Set_decision (v : json)
  | Set_evaluation_summary (v : json)
  | Set_requirements_met (v : json)
  | Set_requirements_missing (v : json)
  | Set_overall_score (v : option Z)
  | Set_error (v : string).

(** The dict a node returns, entries in the order of the dict display. *)
Definition update := list entry.

Definition entry_key (w : entry) : state_key :=
  match w with
  | Set_all_keywords _ => K_all_keywords
  | Set_resume_text _ => K_resume_text
  | Set_job_description_text _ => K_job_description_text
  | Set_matching_keywords _ => K_matching_keywords
  | Set_initial_decision _ => K_initial_decision
  | Set_decision _ => K_decision
  | Set_evaluation_summary _ => K_evaluation_summary
  | Set_requirements_met _ => K_requirements_met
  | Set_requirements_missing _ => K_requirements_missing
  | Set_overall_score _ => K_overall_score
  | Set_error _ => K_error
  end.

Definition keys (u : update) : list state_key := map entry_key u.

Definition apply_entry (s : ResumeScreeningState) (w : entry) : ResumeScreeningState :=
  let '(Build_ResumeScreeningState ak rt jd mk ind dec es rm rmi sc err) := s in
  match w with
  | Set_all_keywords v => Build_ResumeScreeningState v rt jd mk ind dec es rm rmi sc err
  | Set_resume_text v => Build_ResumeScreeningState ak v jd mk ind dec es rm rmi sc err
  | Set_job_description_text v => Build_ResumeScreeningState ak rt v mk ind dec es rm rmi sc err
  | Set_matching_keywords v => Build_ResumeScreeningState ak rt jd v ind dec es rm rmi sc err
  | Set_initial_decision v => Build_ResumeScreeningState ak rt jd mk v dec es rm rmi sc err
  | Set_decision v => Build_ResumeScreeningState ak rt jd mk ind v es rm rmi sc err
  | Set_evaluation_summary v => Build_ResumeScreeningState ak rt jd mk ind dec v rm rmi sc err
  | Set_requirements_met v => Build_ResumeScreeningState ak rt jd mk ind dec es v rmi sc err
  | Set_requirements_missing v => Build_ResumeScreeningState ak rt jd mk ind dec es rm v sc err
  | Set_overall_score v => Build_ResumeScreeningState ak rt jd mk ind dec es rm rmi v err
  | Set_error v => Build_ResumeScreeningState ak rt jd mk ind dec es rm rmi sc v
  end.

(** How the compiled graph folds a node's returned dict into the state:
    each returned key overwrites the state's value, the others are kept. *)
Definition apply_update (s : ResumeScreeningState) (u : update) : ResumeScreeningState :=
  fold_left apply_entry u s.

(** The evaluation prompt, given by the values the f-string interpolates
    (its fixed instruction text is left out). *)
Record Prompt := {
  prompt_total_keywords : nat;
  prompt_matching_keywords : list string;
  prompt_initial_decision : string;
  prompt_resume_text : string;
  prompt_job_description_text : string
}.

(** [self.model.generate_content(prompt, ...)] followed by [response.text]:
    the text of the answer, or the exception raised. *)
Class Model := { generate_content : Prompt -> result string }.

(** The dict returned by [screen]. *)
Record ScreeningResult := {
  r_decision : json;
  r_matching_keywords : list string;
  r_evaluation_summary : json;
  r_requirements_met : json;
  r_requirements_missing : json;
  r_overall_score : option Z;
  r_initial_decision : string;
  r_total_keywords : nat;
  r_resume_filename : string
}.

Section ResumeScreener.
Context `{NLP} `{JSONDecoder} `{Model}.

(** The test [if "error" in state and state["error"]]: the key is always
    present, the string is truthy when it is not empty. *)
Definition error_set (state : ResumeScreeningState) : bool :=
  negb (PyStr.is_empty (error state)).

Definition match_keywords_node (state : ResumeScreeningState) : update :=
  if error_set state then []
  else
    match match_keywords (resume_text state) (all_keywords state) with
    | Ok (matching_keywords, initial_decision) =>
        [Set_matching_keywords matching_keywords; Set_initial_decision initial_decision]
    | Raise e => [Set_error (exn_msg e)]
    end.

Definition evaluation_prompt (state : ResumeScreeningState) : Prompt :=
  {| prompt_total_keywords := length (all_keywords state);
     prompt_matching_keywords := matching_keywords state;
     prompt_initial_decision := initial_decision state;
     prompt_resume_text := resume_text state;
     prompt_job_description_text := job_description_text state |}.

(** The inner [try: overall_score = int(overall_score)
    except (ValueError, TypeError): overall_score = None]. *)
Definition coerce_overall_score (v : json) : result (option Z) :=
  match PyVal.int v with
  | Ok z => Ok (Some z)
  | Raise e =>
      match exn_class_of e with
      | ValueError | JSONDecodeError | TypeError => Ok None
      | _ => Raise e
      end
  end.

(** The [except json.JSONDecodeError] branch. *)
Definition fallback_evaluation : update :=
  [Set_decision (JStr "Not Shortlisted");
   Set_evaluation_summary (JStr "Failed to get a structured evaluation from the AI model.");
   Set_requirements_met (JList []);
   Set_requirements_missing (JList []);
   Set_overall_score None].

(** The body of the inner [try], from [json.loads(response.text)] to the
    score, with the dict the node then returns. *)
Definition parse_evaluation (response_text : string) : result update :=
  let! evaluation_result := json_loads response_text in
  let! decision := PyVal.get evaluation_result "decision" (JStr "Error: No Decision Provided") in
  let! evaluation_summary :=
    PyVal.get evaluation_result "evaluation_summary" (JStr "Error: No summary provided") in
  let! criteria_breakdown := PyVal.get evaluation_result "criteria_breakdown" (JObj []) in
  let! requirements_met := PyVal.get criteria_breakdown "requirements_met" (JList []) in
  let! requirements_missing := PyVal.get criteria_breakdown "requirements_missing" (JList []) in
  let! overall_score := PyVal.get evaluation_result "overall_score" JNull in
  let! overall_score := coerce_overall_score overall_score in
  Ok [Set_decision decision;
      Set_evaluation_summary evaluation_summary;
      Set_requirements_met requirements_met;
      Set_requirements_missing requirements_missing;
      Set_overall_score overall_score].

(** The inner [try] with its handler: [except json.JSONDecodeError] catches
    that class only, any other exception goes on to the outer handler. *)
Definition read_evaluation (response_text : string) : result update :=
  match parse_evaluation response_text with
  | Ok u => Ok u
  | Raise e =>
      match exn_class_of e with
      | JSONDecodeError => Ok fallback_evaluation
      | _ => Raise e
      end
  end.

(** The node returns its dict; the second component lists the prompts sent
    to the model during the call. *)
Definition evaluate_candidate_node (state : ResumeScreeningState) : update * list Prompt :=
  if error_set state then ([], [])
  else
    let evaluation_prompt := evaluation_prompt state in
    (match (let! response_text := generate_content evaluation_prompt in
            read_evaluation response_text) with
     | Ok u => u
     | Raise e => [Set_error (exn_msg e)]
     end, [evaluation_prompt]).

(** [self.graph.invoke]: START -> match_keywords -> evaluate_candidate -> END. *)
Definition graph_invoke (initial_state : ResumeScreeningState)
  : ResumeScreeningState * list Prompt :=
  let state1 := apply_update initial_state (match_keywords_node initial_state) in
  let '(u, calls) := evaluate_candidate_node state1 in
  (apply_update state1 u, calls).

Definition initial_state_of (all_keywords : list string) (resume_text job_description_text : string)
  : ResumeScreeningState :=
  {| all_keywords := all_keywords;
     resume_text := resume_text;
     job_description_text := job_description_text;
     matching_keywords := [];
     initial_decision := EmptyString;
     decision := JStr EmptyString;
     evaluation_summary := JStr EmptyString;
     requirements_met := JList [];
     requirements_missing := JList [];
     overall_score := None;
     error := EmptyString |}.

(** The dict built from the final state when no error is reported. *)
Definition result_of_state (final_state : ResumeScreeningState) (resume_filename : string)
  : ScreeningResult :=
  {| r_decision := decision final_state;
     r_matching_keywords := matching_keywords final_state;
     r_evaluation_summary := evaluation_summary final_state;
     r_requirements_met := requirements_met final_state;
     r_requirements_missing := requirements_missing final_state;
     r_overall_score := overall_score final_state;
     r_initial_decision := initial_decision final_state;
     r_total_keywords := length (all_keywords final_state);
     r_resume_filename := resume_filename |}.

(** The dict built by the [except] handler of [screen]; [msg] is [str(e)]. *)
Definition error_result (msg : string) (all_keywords : list string) (resume_filename : string)
  : ScreeningResult :=
  {| r_decision := JStr "Error";
     r_matching_keywords := [];
     r_evaluation_summary := JStr msg;
     r_requirements_met := JList [];
     r_requirements_missing := JList [];
     r_overall_score := None;
     r_initial_decision := "ERROR";
     r_total_keywords := length all_keywords;
     r_resume_filename := resume_filename |}.

(** [screen] with the prompts it had sent to the model. *)
Definition screen_run (all_keywords : list string)
    (resume_text job_description_text resume_filename : string)
  : ScreeningResult * list Prompt :=
  let initial_state := initial_state_of all_keywords resume_text job_description_text in
  let '(final_state, calls) := graph_invoke initial_state in
  (if error_set final_state
   then error_result (error final_state) all_keywords resume_filename
   else result_of_state final_state resume_filename,
   calls).

Definition screen (all_keywords : list string)
    (resume_text job_description_text resume_filename : string) : ScreeningResult :=
  fst (screen_run all_keywords resume_text job_description_text resume_filename).

End ResumeScreener.

(** ** Stand-ins for the external collaborators, used in the examples *)

Module Demo.

Definition lemma_of (w : string) : string :=
  if String.eqb w "running" then "run"
  else if String.eqb w "ran" then "run"
  else if String.eqb w "tests" then "test"
  else w.

Definition stop_word (w : string) : bool :=
  existsb (String.eqb w) ["the"; "a"; "an"; "of"; "and"; "in"; "with"].

Fixpoint no_word_char (w : string) : bool :=
  match w with
  | EmptyString => true
  | String c r => negb (PyStr.is_word c) && no_word_char r
  end.

Definition token_of (w : string) : Token :=
  {| lemma_ := lemma_of w; is_stop := stop_word w; is_punct := no_word_char w |}.

(** A pipeline that tokenizes at whitespace and knows a few lemmas and
    stop words. *)
Definition nlp_words : NLP := {| nlp text := Ok (map token_of (PyStr.split text)) |}.

(** A pipeline that raises [e] on every text. *)
Definition nlp_raising (e : exn) : NLP := {| nlp _ := Raise e |}.

(** A model that answers every prompt with [text]. *)
Definition model_answering (text : string) : Model := {| generate_content _ := Ok text |}.

(** A model whose call raises [e]. *)
Definition model_raising (e : exn) : Model := {| generate_content _ := Raise e |}.

Definition dq : string := String (ascii_of_nat 34) EmptyString.
Definition quoted (s : string) : string := dq ++ s ++ dq.

(** Response texts of the examples. *)
Definition text_empty_object : string := "{}".
Definition text_shortlisted : string :=
  "{" ++ quoted "decision" ++ ": " ++ quoted "Shortlisted" ++ ", "
      ++ quoted "evaluation_summary" ++ ": " ++ quoted "Good fit" ++ ", "
      ++ quoted "overall_score" ++ ": 85}".
Definition text_score (digits : string) : string :=
  "{" ++ quoted "decision" ++ ": " ++ quoted "Shortlisted" ++ ", "
      ++ quoted "overall_score" ++ ": " ++ digits ++ "}".
Definition text_not_json : string := "I cannot evaluate this candidate.".

(** Characters outside ASCII used in the examples: the no-break space and
    the letter e with an acute accent, small and capital. *)
Definition no_break_space : string := String (ascii_of_nat 160) EmptyString.
Definition e_acute : string := String (ascii_of_nat 233) EmptyString.
Definition capital_e_acute : string := String (ascii_of_nat 201) EmptyString.

(** The message of [json.loads] on a text that starts with no JSON value. *)
Definition not_json : exn :=
  Exn JSONDecodeError "Expecting value: line 1 column 1 (char 0)".

(** [json.loads] on the response texts above; any other text is taken
    as undecodable. *)
Definition loads_table : JSONDecoder :=
  {| json_loads s :=
       if String.eqb s text_empty_object then Ok (JObj [])
       else if String.eqb s text_shortlisted then
         Ok (JObj [("decision", JStr "Shortlisted");
                   ("evaluation_summary", JStr "Good fit");
                   ("overall_score", JInt 85)])
       else if String.eqb s (text_score "150") then
         Ok (JObj [("decision", JStr "Shortlisted"); ("overall_score", JInt 150)])
       else if String.eqb s (text_score "-5") then
         Ok (JObj [("decision", JStr "Shortlisted"); ("overall_score", JInt (-5))])
       else if String.eqb s (text_score "Infinity") then
         Ok (JObj [("decision", JStr "Shortlisted");
                   ("overall_score", JFloat (S754_infinity false))])
       else Raise not_json |}.

End Demo.

(** ** Definitions used in the statements *)

(** *** The spec's reading of the verdict and of a phrase keyword *)

Inductive Verdict := FAIL | WEAK | MODERATE | STRONG.

(** The string the code returns for each verdict. *)
Definition verdict_string (v : Verdict) : string :=
  match v with
  | FAIL => "FAIL - No keywords matched"
  | WEAK => "WEAK - Low keyword match rate"
  | MODERATE => "MODERATE - Moderate keyword match rate"
  | STRONG => "STRONG - High keyword match rate"
  end.

(** The classification as the spec words it, on the exact ratio
    [matched / total]; an empty keyword list has no ratio and gives FAIL. *)
Definition spec_verdict (matched total : nat) : Verdict :=
  if Nat.eqb total 0 then FAIL
  else
    let ratio : Q := Qmake (Z.of_nat matched) (Pos.of_nat total) in
    if Qeq_bool ratio 0 then FAIL
    else if Qle_bool (3 # 10) ratio
         then (if Qle_bool (6 # 10) ratio then STRONG else MODERATE)
         else WEAK.

(** "The keyword contains whitespace", as the spec words the phrase test. *)
Fixpoint contains_whitespace (s : string) : bool :=
  match s with
  | EmptyString => false
  | String c r => PyStr.is_space c || contains_whitespace r
  end.

(** *** Views of the state *)

(** The fields a run receives, and the fields the matcher stage writes. *)
Definition inputs_of (s : ResumeScreeningState) : list string * string * string :=
  (all_keywords s, resume_text s, job_description_text s).

Definition matcher_outputs (s : ResumeScreeningState) : list string * string :=
  (matching_keywords s, initial_decision s).

(** The state after the matcher stage of a run whose matcher returned. *)
Definition matched_state (K : list string) (R jd : string) (found : list string) (dec : string)
  : ResumeScreeningState :=
  {| all_keywords := K; resume_text := R; job_description_text := jd;
     matching_keywords := found; initial_decision := dec;
     decision := JStr EmptyString; evaluation_summary := JStr EmptyString;
     requirements_met := JList []; requirements_missing := JList [];
     overall_score := None; error := EmptyString |}.

(** The keys of the state by role: the inputs of a run, the outputs of the
    matcher stage, the outputs of the evaluation stage. *)
Definition input_keys : list state_key :=
  [K_all_keywords; K_resume_text; K_job_description_text].
Definition matcher_keys : list state_key :=
  [K_matching_keywords; K_initial_decision].
Definition evaluator_keys : list state_key :=
  [K_decision; K_evaluation_summary; K_requirements_met; K_requirements_missing;
   K_overall_score].

(** The dict [read_evaluation] builds from the five values it has read. *)
Definition evaluation_update (d s met missing : json) (score : option Z) : update :=
  [Set_decision d; Set_evaluation_summary s; Set_requirements_met met;
   Set_requirements_missing missing; Set_overall_score score].

(** The body of the outer [try] of the evaluation node, past its guard:
    the call of the model, then the reading of its answer. *)
Definition adjudication `{JSONDecoder} `{Model} (state : ResumeScreeningState)
  : result update :=
  let! response_text := generate_content (evaluation_prompt state) in
  read_evaluation response_text.

(** What a run does once its matcher has returned [found] and [dec]: the
    model is called exactly once, with the prompt of the state the matcher
    left; an answer read without fault gives the record assembled from the
    five values read, the matcher's outputs and the inputs; an exception of
    the call or of the reading, with a message that is not empty, gives the
    Error record with that message. *)
Definition adjudicated_once `{NLP} `{JSONDecoder} `{Model}
    (K : list string) (R jd fn : string) (found : list string) (dec : string) : Prop :=
  let state := matched_state K R jd found dec in
  snd (screen_run K R jd fn) = [evaluation_prompt state]
  /\ (forall u, adjudication state = Ok u ->
        exists d s met missing score,
          u = evaluation_update d s met missing score
          /\ screen K R jd fn
             = {| r_decision := d; r_matching_keywords := found;
                  r_evaluation_summary := s;
                  r_requirements_met := met; r_requirements_missing := missing;
                  r_overall_score := score; r_initial_decision := dec;
                  r_total_keywords := length K; r_resume_filename := fn |})
  /\ (forall e, adjudication state = Raise e -> exn_msg e <> EmptyString ->
        screen K R jd fn = error_result (exn_msg e) K fn).

(** *** Auxiliary notions of the proofs *)

(** The code points below 256 of a class of characters. *)
Definition code_points (class : ascii -> bool) : list nat :=
  List.filter (fun n => class (ascii_of_nat n)) (seq 0 256).

(** No character of the string is a capital letter. *)
Fixpoint no_upper (s : string) : bool :=
  match s with
  | EmptyString => true
  | String c r => negb (PyStr.is_upper c) && no_upper r
  end.

(** The mantissa that round-to-nearest, ties-to-even keeps when [M] loses its
    [S k] low bits. *)
Definition rounded (M : Z) (k : nat) : Z :=
  round_nearest_even (M / 2 ^ Z.of_nat (S k))%Z
    (loc_of_shr_record
       (Build_shr_record (M / 2 ^ Z.of_nat (S k))%Z
          (Z.odd (M / 2 ^ Z.of_nat k)) (negb (M mod 2 ^ Z.of_nat k =? 0)%Z))).

(** ** parser.py and app.py *)

Module PySeq.

(** [s.split(sep)] for a one-character separator: the pieces between the
    separators, empty pieces included; never an empty list. *)
Fixpoint split_sep_from (sep : ascii) (cur s : string) : list string :=
  match s with
  | EmptyString => [cur]
  | String c r =>
      if Ascii.eqb c sep then cur :: split_sep_from sep EmptyString r
      else split_sep_from sep (cur ++ String c EmptyString) r
  end.

Definition split_sep (sep : ascii) (s : string) : list string :=
  split_sep_from sep EmptyString s.

(** [d == "text"] for a decoded value [d] and a string literal. *)
Definition eq_str (d : json) (text : string) : bool :=
  match d with
  | JStr s => String.eqb s text
  | _ => false
  end.

(** Tuples [(a, b)] of ints under Python's ordering [x <= y]. *)
Definition pair_le (x y : Z * Z) : bool :=
  (fst x <? fst y)%Z || ((fst x =? fst y)%Z && (snd x <=? snd y)%Z).

(** [l.sort(key=key)]: the sort is stable, so its result is the one of any
    stable sort; it is given here by insertion from the right, each
    element going before the first element whose key is not smaller. *)
Fixpoint insert_by {A} (key : A -> Z * Z) (x : A) (l : list A) : list A :=
  match l with
  | [] => [x]
  | y :: r => if pair_le (key x) (key y) then x :: y :: r else y :: insert_by key x r
  end.

Fixpoint sort_by {A} (key : A -> Z * Z) (l : list A) : list A :=
  match l with
  | [] => []
  | x :: r => insert_by key x (sort_by key r)
  end.

End PySeq.

Definition newline : string := String (ascii_of_nat 10) EmptyString.

(** pdfplumber and docx2txt: [pdf_page_texts f] stands for opening [f] and
    calling [extract_text()] on each page in turn. *)
Class Extraction := {
  pdf_page_texts : string -> result (list string);
  docx2txt_process : string -> result string
}.

(** An uploaded file: its name and its bytes. *)
Record UploadedFile := { file_name : string; file_bytes : string }.

(** [st.session_state.screening_stats] *)
Record ScreeningStats := { total_screened : nat; shortlisted : nat }.

Section Parser.
Context `{Extraction}.

Definition extract_text_from_pdf (pdf_file_object : string) : result string :=
  let! pages := pdf_page_texts pdf_file_object in
  Ok (fold_left (fun text page => text ++ page ++ newline) pages EmptyString).

Definition extract_text_from_docx (docx_file_object : string) : result string :=
  docx2txt_process docx_file_object.

End Parser.

Section App.
Context `{NLP} `{JSONDecoder} `{Model} `{Extraction}.

(** The block "Parse user keywords" of [main]. *)
Definition parse_user_keywords (user_keywords_input : string) : list string :=
  if negb (PyStr.is_empty (PyStr.strip user_keywords_input))
  then map PyStr.strip
         (List.filter (fun kw => negb (PyStr.is_empty (PyStr.strip kw)))
            (PySeq.split_sep "," user_keywords_input))
  else [].

(** [can_screen], as a truth value; [uploaded] is the number of uploaded
    files and [screener_ready] tells that the screener is not [None]. *)
Definition can_screen (job_description : string) (uploaded : nat) (screener_ready : bool)
    (current_ai_keywords user_keywords : list string) : bool :=
  negb (PyStr.is_empty (PyStr.strip job_description))
  && negb (Nat.eqb uploaded 0)
  && screener_ready
  && (negb (Nat.eqb (length current_ai_keywords) 0)
      || negb (Nat.eqb (length user_keywords) 0)).

(** [list(set(l))]: some list without duplicates that has the elements of
    [l]; the order is the set's own. *)
Definition list_of_set (l out : list string) : Prop :=
  NoDup out /\ forall x, In x out <-> In x l.

(** [uploaded_file.name.lower().split('.')[-1]] *)
Definition file_extension (name : string) : string :=
  List.last (PySeq.split_sep "." (PyStr.lower name)) EmptyString.

(** The [try] part of the loop body up to the resume text. *)
Definition resume_text_of (uploaded_file : UploadedFile) : result string :=
  let file_extension := file_extension (file_name uploaded_file) in
  if String.eqb file_extension "pdf" then extract_text_from_pdf (file_bytes uploaded_file)
  else if String.eqb file_extension "docx" then extract_text_from_docx (file_bytes uploaded_file)
  else Raise (Exn ValueError ("Unsupported file format: " ++ file_extension)).

(** One turn of the loop over the uploaded files: the result appended, the
    statistics after the turn, and the prompts sent to the model. *)
Definition screen_file (all_keywords : list string) (job_description : string)
    (stats : ScreeningStats) (uploaded_file : UploadedFile)
  : ScreeningResult * ScreeningStats * list Prompt :=
  match resume_text_of uploaded_file with
  | Ok resume_text =>
      let '(result, calls) :=
        screen_run all_keywords resume_text job_description (file_name uploaded_file) in
      (result,
       {| total_screened := total_screened stats + 1;
          shortlisted := if PySeq.eq_str (r_decision result) "Shortlisted"
                         then shortlisted stats + 1 else shortlisted stats |},
       calls)
  | Raise e =>
      (error_result ("Error processing file: " ++ exn_msg e) all_keywords
         (file_name uploaded_file),
       stats, [])
  end.

(** The loop over the uploaded files. *)
Fixpoint screen_files (all_keywords : list string) (job_description : string)
    (stats : ScreeningStats) (uploaded_files : list UploadedFile)
  : list ScreeningResult * ScreeningStats * list Prompt :=
  match uploaded_files with
  | [] => ([], stats, [])
  | uploaded_file :: rest =>
      let '(result, stats1, calls1) :=
        screen_file all_keywords job_description stats uploaded_file in
      let '(results, stats2, calls2) :=
        screen_files all_keywords job_description stats1 rest in
      (result :: results, stats2, (calls1 ++ calls2)%list)
  end.

End App.

(** [x.get("overall_score", 0) or 0] *)
Definition score_or_zero (r : ScreeningResult) : Z :=
  match r_overall_score r with
  | Some z => z
  | None => 0%Z
  end.

Definition is_shortlisted (r : ScreeningResult) : bool :=
  PySeq.eq_str (r_decision r) "Shortlisted".

(** The [key] of [results.sort]. *)
Definition display_key (r : ScreeningResult) : Z * Z :=
  (if is_shortlisted r then 0%Z else 1%Z, (- score_or_zero r)%Z).

(** [results.sort(key=...)] *)
Definition sort_results (results : list ScreeningResult) : list ScreeningResult :=
  PySeq.sort_by display_key results.

(** [shortlisted_count] of the summary statistics. *)
Definition shortlisted_count (results : list ScreeningResult) : nat :=
  length (List.filter is_shortlisted results).

(** The colour [display_result_card] picks for the initial decision. *)
Definition initial_color (r : ScreeningResult) : string :=
  if String.eqb (r_initial_decision r) "STRONG" then "#28a745"
  else if String.eqb (r_initial_decision r) "WEAK" then "#ffc107"
  else "#dc3545".

(** *** Further stand-ins and notions of the statements *)

(** The pages' texts in order, each followed by a newline. *)
Fixpoint pages_text (pages : list string) : string :=
  match pages with
  | [] => EmptyString
  | page :: rest => page ++ newline ++ pages_text rest
  end.

(** [a] may stand before [b] in a list sorted by [key]. *)
Definition key_le {A} (key : A -> Z * Z) (a b : A) : Prop :=
  PySeq.pair_le (key a) (key b) = true.

(** The elements of a given key. *)
Definition with_key {A} (key : A -> Z * Z) (k : Z * Z) (a : A) : bool :=
  (fst (key a) =? fst k)%Z && (snd (key a) =? snd k)%Z.

Module DemoMore.

(** [json.loads] given by a table of texts and their values. *)
Definition loads_of (table : list (string * json)) : JSONDecoder :=
  {| json_loads s :=
       match PyVal.lookup table s with
       | Some v => Ok v
       | None => Raise Demo.not_json
       end |}.

(** A text of [n] opening brackets. *)
Fixpoint brackets (n : nat) : string :=
  match n with
  | O => EmptyString
  | S m => String "[" (brackets m)
  end.

(** A text of [n] digits 1. *)
Fixpoint ones (n : nat) : string :=
  match n with
  | O => EmptyString
  | S m => String "1" (ones m)
  end.

(** Two texts on which [json.loads] raises another exception than
    [JSONDecodeError], with the exceptions CPython 3.11 raises. *)
Definition text_nested : string := brackets 3000.
Definition text_long_score : string := Demo.text_score (ones 4301).

Definition nested_too_deep : exn :=
  Exn RecursionError
    "maximum recursion depth exceeded while decoding a JSON array from a unicode string".

Definition too_many_digits : exn :=
  Exn ValueError
    ("Exceeds the limit (4300 digits) for integer string conversion: "
     ++ "value has 4301 digits; use sys.set_int_max_str_digits() to increase the limit").

Definition loads_faulty : JSONDecoder :=
  {| json_loads s :=
       if String.eqb s text_nested then Raise nested_too_deep
       else if String.eqb s text_long_score then Raise too_many_digits
       else @json_loads Demo.loads_table s |}.

(** An extraction that finds the given pages in every PDF. *)
Definition extraction_of (pages : list string) : Extraction :=
  {| pdf_page_texts _ := Ok pages; docx2txt_process _ := Ok (PyStr.join " " pages) |}.

End DemoMore.

(** The rank of a verdict, from FAIL up to STRONG. *)
Definition verdict_rank (v : Verdict) : nat :=
  match v with FAIL => 0 | WEAK => 1 | MODERATE => 2 | STRONG => 3 end.

Definition first_char (s : string) : option ascii :=
  match s with EmptyString => None | String c _ => Some c end.

Fixpoint last_char (s : string) : option ascii :=
  match s with
  | EmptyString => None
  | String c EmptyString => Some c
  | String _ r => last_char r
  end.

Definition is_word_opt (c : option ascii) : bool :=
  match c with Some c => PyStr.is_word c | None => false end.

(** The character before index [i] of [t] is a word character. *)
Definition word_before (t : string) (i : nat) : bool :=
  match i with O => false | S j => PyStr.word_at t j end.

Fixpoint has_char (c : ascii) (s : string) : bool :=
  match s with
  | EmptyString => false
  | String a r => Ascii.eqb a c || has_char c r
  end.

(** A keyword as [parse_user_keywords] returns them: not empty, without
    surrounding whitespace, without a comma. *)
Definition clean_keyword (kw : string) : Prop :=
  kw <> EmptyString /\ PyStr.strip kw = kw /\ has_char "," kw = false.

(** * Properties *)

(** ** Binary64 products with the two thresholds *)

Section Binary64.
Local Open Scope Z_scope.


Lemma digits2_size p : digits2_pos p = Pos.size p.
Proof. induction p; simpl; congruence. Qed.

Lemma digits2_bounds p :
  2 ^ (Zpos (digits2_pos p) - 1) <= Zpos p < 2 ^ Zpos (digits2_pos p).
Proof.
  rewrite digits2_size.
  assert (Hl : Zpos (Pos.size p) = Z.log2 (Zpos p) + 1).
  { destruct p; cbn [Z.log2 Pos.size]; rewrite ?Pos2Z.inj_succ; lia. }
  rewrite Hl. replace (Z.log2 (Zpos p) + 1 - 1) with (Z.log2 (Zpos p)) by lia.
  pose proof (Z.log2_spec (Zpos p) ltac:(lia)). lia.
Qed.

(** the digit count is determined by the bounds *)
Lemma digits2_unique p d :
  2 ^ (d - 1) <= Zpos p < 2 ^ d -> 0 < d -> Zpos (digits2_pos p) = d.
Proof.
  intros [Hlo Hhi] Hd. pose proof (digits2_bounds p) as [Hl Hh].
  destruct (Z.lt_trichotomy (Zpos (digits2_pos p)) d) as [Hlt | [Heq | Hgt]]; [| exact Heq |].
  - exfalso. assert (2 ^ Zpos (digits2_pos p) <= 2 ^ (d - 1)) by (apply Z.pow_le_mono_r; lia). lia.
  - exfalso. assert (2 ^ d <= 2 ^ (Zpos (digits2_pos p) - 1)) by (apply Z.pow_le_mono_r; lia). lia.
Qed.

Lemma iter_pos_nat {A} (f : A -> A) p x :
  SpecFloat.iter_pos f p x = Nat.iter (Pos.to_nat p) f x.
Proof.
  revert x. induction p as [p IH | p IH |]; intros x.
  - rewrite Pos2Nat.inj_xI. cbn [SpecFloat.iter_pos]. rewrite !IH.
    replace (S (2 * Pos.to_nat p))%nat with (Pos.to_nat p + S (Pos.to_nat p))%nat by lia.
    now rewrite Nat.iter_add, Nat.iter_succ_r.
  - rewrite Pos2Nat.inj_xO. cbn [SpecFloat.iter_pos]. rewrite !IH.
    replace (2 * Pos.to_nat p)%nat with (Pos.to_nat p + Pos.to_nat p)%nat by lia.
    now rewrite Nat.iter_add.
  - reflexivity.
Qed.

Lemma shr_1_nonneg m r s :
  0 <= m -> shr_1 (Build_shr_record m r s) = Build_shr_record (m / 2) (Z.odd m) (r || s).
Proof.
  intros Hm. destruct m as [|p|p]; [reflexivity | | lia].
  destruct p as [p|p|]; unfold shr_1.
  - f_equal. rewrite Pos2Z.inj_xI. symmetry.
    rewrite (Z.mul_comm 2), Z.div_add_l by lia. reflexivity.
  - f_equal. rewrite Pos2Z.inj_xO. symmetry.
    rewrite (Z.mul_comm 2), Z.div_mul by lia. reflexivity.
  - reflexivity.
Qed.

Lemma shr_iter M k :
  0 <= M ->
  Nat.iter (S k) shr_1 (Build_shr_record M false false)
  = Build_shr_record (M / 2 ^ Z.of_nat (S k))
      (Z.odd (M / 2 ^ Z.of_nat k))
      (negb (M mod 2 ^ Z.of_nat k =? 0)).
Proof.
  intros HM. induction k as [|k IH].
  - unfold Nat.iter; cbn [nat_rect]. rewrite shr_1_nonneg by lia. f_equal.
    + now rewrite Z.div_1_r.
    + now rewrite Z.mod_1_r.
  - rewrite Nat.iter_succ, IH.
    assert (Hp : 0 < 2 ^ Z.of_nat k) by (apply Z.pow_pos_nonneg; lia).
    assert (Hp' : 0 < 2 ^ Z.of_nat (S k)) by (apply Z.pow_pos_nonneg; lia).
    rewrite shr_1_nonneg by (apply Z.div_pos; lia).
    assert (Hs : 2 ^ Z.of_nat (S k) = 2 ^ Z.of_nat k * 2)
      by (rewrite Nat2Z.inj_succ, Z.pow_succ_r; lia).
    f_equal.
    + rewrite Z.div_div by lia.
      f_equal. rewrite (Nat2Z.inj_succ (S k)), Z.pow_succ_r by lia. lia.
    + rewrite Hs. rewrite Z.rem_mul_r by lia.
      rewrite Zodd_mod.
      destruct (Z.eqb_spec (M / 2 ^ Z.of_nat k mod 2) 1) as [E|E];
        destruct (Z.eqb_spec (M mod 2 ^ Z.of_nat k) 0) as [F|F]; simpl;
        symmetry; try (apply Z.eqb_neq); try (apply Z.eqb_eq);
        pose proof (Z.mod_pos_bound M (2 ^ Z.of_nat k) Hp);
        pose proof (Z.mod_pos_bound (M / 2 ^ Z.of_nat k) 2 ltac:(lia)); nia.
Qed.


Lemma rounded_close M k :
  0 <= M ->
  M / 2 ^ Z.of_nat (S k) <= rounded M k <= M / 2 ^ Z.of_nat (S k) + 1
  /\ Z.abs (rounded M k * 2 ^ Z.of_nat (S k) - M) <= 2 ^ Z.of_nat k.
Proof.
  intros HM. unfold rounded.
  assert (Hp : 0 < 2 ^ Z.of_nat k) by (apply Z.pow_pos_nonneg; lia).
  assert (Hs : 2 ^ Z.of_nat (S k) = 2 ^ Z.of_nat k * 2)
    by (rewrite Nat2Z.inj_succ, Z.pow_succ_r; lia).
  pose proof (Z.div_mod M (2 ^ Z.of_nat (S k)) ltac:(lia)) as Hdm.
  assert (Hrem : M mod 2 ^ Z.of_nat (S k)
                 = M mod 2 ^ Z.of_nat k + 2 ^ Z.of_nat k * ((M / 2 ^ Z.of_nat k) mod 2))
    by (rewrite Hs; apply Z.rem_mul_r; lia).
  pose proof (Z.mod_pos_bound M (2 ^ Z.of_nat k) Hp) as Hb1.
  pose proof (Z.mod_pos_bound (M / 2 ^ Z.of_nat k) 2 ltac:(lia)) as Hb2.
  rewrite Zodd_mod.
  set (q := M / 2 ^ Z.of_nat (S k)) in *.
  set (t := M mod 2 ^ Z.of_nat k) in *.
  set (b := (M / 2 ^ Z.of_nat k) mod 2) in *.
  destruct (Z.eqb_spec b 1) as [E|E]; destruct (Z.eqb_spec t 0) as [F|F];
    cbn [negb loc_of_shr_record round_nearest_even].
  - destruct (Z.even q); split; try lia; nia.
  - split; [lia | nia].
  - split; [lia | nia].
  - split; [lia | nia].
Qed.

Lemma shr_fexp_53 m e :
  Zpos (digits2_pos m) = 53 -> -1074 <= e ->
  shr_fexp 53 1024 (Zpos m) e loc_Exact = (Build_shr_record (Zpos m) false false, e).
Proof.
  intros Hd He. unfold shr_fexp, fexp, emin, Zdigits2. rewrite Hd.
  replace (Z.max (53 + e - 53) (3 - 1024 - 53) - e) with 0 by lia.
  reflexivity.
Qed.

Lemma shr_fexp_shift m e k :
  Zpos (digits2_pos m) = 53 + Z.of_nat (S k) -> -1074 <= e + Z.of_nat (S k) ->
  shr_fexp 53 1024 (Zpos m) e loc_Exact
  = (Build_shr_record (Zpos m / 2 ^ Z.of_nat (S k))
       (Z.odd (Zpos m / 2 ^ Z.of_nat k)) (negb (Zpos m mod 2 ^ Z.of_nat k =? 0)),
     e + Z.of_nat (S k)).
Proof.
  intros Hd He. unfold shr_fexp, fexp, emin, Zdigits2. rewrite Hd.
  replace (Z.max (53 + Z.of_nat (S k) + e - 53) (3 - 1024 - 53) - e)
    with (Zpos (Pos.of_succ_nat k)) by lia.
  unfold shr, shr_record_of_loc. rewrite iter_pos_nat, SuccNat2Pos.id_succ.
  rewrite shr_iter by lia. reflexivity.
Qed.

Lemma round_aux_exact m e :
  Zpos (digits2_pos m) = 53 -> -1074 <= e <= 971 ->
  binary_round_aux 53 1024 false (Zpos m) e loc_Exact = S754_finite false m e.
Proof.
  intros Hd He. unfold binary_round_aux.
  rewrite shr_fexp_53 by lia.
  cbn [shr_m loc_of_shr_record round_nearest_even].
  rewrite shr_fexp_53 by lia. cbn [shr_m].
  replace (e <=? 1024 - 53) with true by (symmetry; apply Z.leb_le; lia).
  reflexivity.
Qed.

(** rounding a product mantissa of [53 + S k] digits: the result is a
    finite float whose value, in units of [2^e], is a multiple [V] of
    [2^(S k)] within [2^k] of the exact mantissa. *)
Lemma round_aux_shift m e k :
  Zpos (digits2_pos m) = 53 + Z.of_nat (S k) ->
  -1074 <= e + Z.of_nat (S k) -> e + Z.of_nat (S k) + 1 <= 971 ->
  exists m' e' V,
    binary_round_aux 53 1024 false (Zpos m) e loc_Exact = S754_finite false m' e'
    /\ e <= e'
    /\ Zpos m' * 2 ^ (e' - e) = V
    /\ (exists c, V = c * 2 ^ Z.of_nat (S k))
    /\ Z.abs (V - Zpos m) <= 2 ^ Z.of_nat k.
Proof.
  intros Hd Hlo Hhi. unfold binary_round_aux.
  rewrite (shr_fexp_shift m e k Hd Hlo).
  cbn [shr_m]. fold (rounded (Zpos m) k).
  destruct (rounded_close (Zpos m) k ltac:(lia)) as [[Hq1 Hq2] Hcl].
  pose proof (digits2_bounds m) as [Hb1 Hb2]. rewrite Hd in Hb1, Hb2.
  assert (Hp : 0 < 2 ^ Z.of_nat (S k)) by (apply Z.pow_pos_nonneg; lia).
  assert (Hq : 2 ^ 52 <= Zpos m / 2 ^ Z.of_nat (S k) < 2 ^ 53).
  { replace (53 + Z.of_nat (S k) - 1) with (52 + Z.of_nat (S k)) in Hb1 by lia.
    rewrite Z.pow_add_r in Hb1, Hb2 by lia. split.
    - apply Z.div_le_lower_bound; lia.
    - apply Z.div_lt_upper_bound; lia. }
  set (q := rounded (Zpos m) k) in *.
  destruct q as [|qp|qp] eqn:Eq; [lia | | lia].
  destruct (Z.eq_dec (Zpos qp) (2 ^ 53)) as [Htop | Hnot].
  - (* the carry reaches 2^53: one more shift *)
    assert (Hdq : Zpos (digits2_pos qp) = 53 + Z.of_nat 1)
      by (apply digits2_unique; [rewrite Htop; simpl; lia | lia]).
    rewrite (shr_fexp_shift qp _ 0 Hdq) by lia. cbn [shr_m].
    rewrite Htop. change (2 ^ 53 / 2 ^ Z.of_nat 1) with (Zpos (2 ^ 52)%positive).
    replace (e + Z.of_nat (S k) + Z.of_nat 1 <=? 1024 - 53) with true
      by (symmetry; apply Z.leb_le; lia).
    exists (2 ^ 52)%positive, (e + Z.of_nat (S k) + Z.of_nat 1), (Zpos qp * 2 ^ Z.of_nat (S k)).
    split; [reflexivity |]. split; [lia |]. split.
    + replace (e + Z.of_nat (S k) + Z.of_nat 1 - e) with (1 + Z.of_nat (S k)) by lia.
      rewrite Z.pow_add_r by lia. rewrite Htop. lia.
    + split; [eexists; reflexivity | exact Hcl].
  - assert (Hdq : Zpos (digits2_pos qp) = 53)
      by (apply digits2_unique; [simpl; lia | lia]).
    rewrite shr_fexp_53 by lia. cbn [shr_m].
    replace (e + Z.of_nat (S k) <=? 1024 - 53) with true
      by (symmetry; apply Z.leb_le; lia).
    exists qp, (e + Z.of_nat (S k)), (Zpos qp * 2 ^ Z.of_nat (S k)).
    split; [reflexivity |]. split; [lia |]. split.
    + f_equal. f_equal. lia.
    + split; [eexists; reflexivity | exact Hcl].
Qed.


Lemma iter_xO p d : Zpos (Pos.iter xO p d) = Zpos p * 2 ^ Zpos d.
Proof.
  induction d as [|d IH] using Pos.peano_ind.
  - simpl. lia.
  - rewrite Pos.iter_succ, Pos2Z.inj_xO, IH, Pos2Z.inj_succ, Z.pow_succ_r by lia. lia.
Qed.

(** [float(n)] is exact below [2^53]: a 53-digit mantissa [n * 2^a]. *)
Lemma of_int_exact n :
  0 < n < 2 ^ 53 ->
  exists mz a,
    PyFloat.of_int n = S754_finite false mz (- a)
    /\ 0 <= a <= 52
    /\ Zpos mz = n * 2 ^ a
    /\ Zpos (digits2_pos mz) = 53.
Proof.
  intros [Hn0 Hn]. destruct n as [|p|p]; [lia | | lia].
  unfold PyFloat.of_int, binary_normalize, binary_round.
  pose proof (digits2_bounds p) as [Hb1 Hb2].
  assert (Hd : 0 < Zpos (digits2_pos p) <= 53).
  { split; [lia |].
    destruct (Z.le_gt_cases (Zpos (digits2_pos p)) 53) as [?|Hgt]; [assumption | exfalso].
    assert (2 ^ 53 <= 2 ^ (Zpos (digits2_pos p) - 1)) by (apply Z.pow_le_mono_r; lia). lia. }
  unfold fexp, emin, PyFloat.prec, PyFloat.emax.
  replace (Z.max (Zpos (digits2_pos p) + 0 - 53) (3 - 1024 - 53))
    with (Zpos (digits2_pos p) - 53) by lia.
  unfold shl_align.
  destruct (Zpos (digits2_pos p) - 53 - 0) as [|d|d] eqn:Ed; [| lia |].
  - rewrite round_aux_exact by lia.
    exists p, 0. split; [reflexivity |]. split; [lia |]. split; [lia | lia].
  - assert (Hmz : Zpos (Pos.iter xO p d) = Zpos p * 2 ^ Zpos d) by apply iter_xO.
    assert (Hdz : Zpos (digits2_pos (Pos.iter xO p d)) = 53).
    { apply digits2_unique; [| lia]. rewrite Hmz.
      replace 53 with (Zpos (digits2_pos p) + Zpos d) at 2 by lia.
      replace (53 - 1) with (Zpos (digits2_pos p) - 1 + Zpos d) by lia.
      rewrite !Z.pow_add_r by lia.
      assert (0 < 2 ^ Zpos d) by (apply Z.pow_pos_nonneg; lia). nia. }
    rewrite round_aux_exact by lia.
    exists (Pos.iter xO p d), (Zpos d).
    split; [f_equal; lia |]. split; [lia |]. split; [exact Hmz | exact Hdz].
Qed.

Lemma int_lt_scaled i m' e' e V :
  e <= e' -> e <= 0 -> Zpos m' * 2 ^ (e' - e) = V ->
  PyFloat.int_lt i (S754_finite false m' e') = (i * 2 ^ (- e) <? V).
Proof.
  intros He He0 HV. unfold PyFloat.int_lt.
  destruct (Z.leb_spec 0 e') as [Hpos | Hneg].
  - assert (Hsplit : 2 ^ (e' - e) = 2 ^ e' * 2 ^ (- e))
      by (rewrite <- Z.pow_add_r by lia; f_equal; lia).
    assert (0 < 2 ^ (- e)) by (apply Z.pow_pos_nonneg; lia).
    rewrite <- HV, Hsplit.
    destruct (Z.ltb_spec i (Zpos m' * 2 ^ e'));
      symmetry; [apply Z.ltb_lt | apply Z.ltb_ge]; nia.
  - assert (Hsplit : 2 ^ (- e) = 2 ^ (- e') * 2 ^ (e' - e))
      by (rewrite <- Z.pow_add_r by lia; f_equal; lia).
    assert (0 < 2 ^ (e' - e)) by (apply Z.pow_pos_nonneg; lia).
    rewrite <- HV, Hsplit.
    destruct (Z.ltb_spec (i * 2 ^ (- e')) (Zpos m'));
      symmetry; [apply Z.ltb_lt | apply Z.ltb_ge]; nia.
Qed.

Lemma int_ge_scaled i m' e' e V :
  e <= e' -> e <= 0 -> Zpos m' * 2 ^ (e' - e) = V ->
  PyFloat.int_ge i (S754_finite false m' e') = (V <=? i * 2 ^ (- e)).
Proof.
  intros He He0 HV. unfold PyFloat.int_ge.
  destruct (Z.leb_spec 0 e') as [Hpos | Hneg].
  - assert (Hsplit : 2 ^ (e' - e) = 2 ^ e' * 2 ^ (- e))
      by (rewrite <- Z.pow_add_r by lia; f_equal; lia).
    assert (0 < 2 ^ (- e)) by (apply Z.pow_pos_nonneg; lia).
    rewrite <- HV, Hsplit.
    destruct (Z.leb_spec (Zpos m' * 2 ^ e') i);
      symmetry; [apply Z.leb_le | apply Z.leb_gt]; nia.
  - assert (Hsplit : 2 ^ (- e) = 2 ^ (- e') * 2 ^ (e' - e))
      by (rewrite <- Z.pow_add_r by lia; f_equal; lia).
    assert (0 < 2 ^ (e' - e)) by (apply Z.pow_pos_nonneg; lia).
    rewrite <- HV, Hsplit.
    destruct (Z.leb_spec (Zpos m') (i * 2 ^ (- e')));
      symmetry; [apply Z.leb_le | apply Z.leb_gt]; nia.
Qed.


(** [n * c] for a positive int [n] below [2^53] and a positive normal
    float [c = M * 2^(-ec)]: the product, in units of [2^(-(a + ec))], is a
    multiple [V] of [2^(S k)] within [2^k] of the exact [n * 2^a * M]. *)
Lemma int_mul_finite n M ec :
  0 < n < 2 ^ 53 -> Zpos (digits2_pos M) = 53 -> 0 <= ec <= 60 ->
  exists a m' e' V k,
    0 <= a <= 52 /\ (k = 51%nat \/ k = 52%nat)
    /\ PyFloat.int_mul n (S754_finite false M (- ec)) = S754_finite false m' e'
    /\ (forall i, PyFloat.int_lt i (S754_finite false m' e') = (i * 2 ^ (a + ec) <? V))
    /\ (forall i, PyFloat.int_ge i (S754_finite false m' e') = (V <=? i * 2 ^ (a + ec)))
    /\ (exists c, V = c * 2 ^ Z.of_nat (S k))
    /\ Z.abs (V - n * 2 ^ a * Zpos M) <= 2 ^ Z.of_nat k
    /\ 2 ^ 52 <= n * 2 ^ a < 2 ^ 53.
Proof.
  intros Hn HM Hec.
  destruct (of_int_exact n Hn) as (mz & a & Hof & Ha & Hmz & Hdz).
  pose proof (digits2_bounds mz) as Hbz. rewrite Hdz in Hbz.
  pose proof (digits2_bounds M) as HbM. rewrite HM in HbM.
  change (2 ^ (53 - 1)) with 4503599627370496 in Hbz, HbM.
  change (2 ^ 53) with 9007199254740992 in Hbz, HbM.
  assert (Hprod : 2 ^ 104 <= Zpos (mz * M) < 2 ^ 106).
  { rewrite Pos2Z.inj_mul.
    change (2 ^ 104) with (4503599627370496 * 4503599627370496).
    change (2 ^ 106) with (9007199254740992 * 9007199254740992). nia. }
  assert (Hk : exists k, (k = 51%nat \/ k = 52%nat)
                         /\ Zpos (digits2_pos (mz * M)) = 53 + Z.of_nat (S k)).
  { destruct (Z.lt_ge_cases (Zpos (mz * M)) (2 ^ 105)) as [Hlt | Hge].
    - exists 51%nat. split; [auto |]. apply digits2_unique; [| lia].
      change (53 + Z.of_nat 52 - 1) with 104. change (53 + Z.of_nat 52) with 105. lia.
    - exists 52%nat. split; [auto |]. apply digits2_unique; [| lia].
      change (53 + Z.of_nat 53 - 1) with 105. change (53 + Z.of_nat 53) with 106. lia. }
  destruct Hk as (k & Hk & Hdk).
  assert (Hkz : 52 <= Z.of_nat (S k) <= 53) by (destruct Hk; subst k; simpl; lia).
  destruct (round_aux_shift (mz * M) (- a + - ec) k Hdk ltac:(lia) ltac:(lia))
    as (m' & e' & V & Hr & He' & HV & Hmult & Hcl).
  exists a, m', e', V, k.
  split; [exact Ha |]. split; [exact Hk |]. split.
  { unfold PyFloat.int_mul. rewrite Hof. exact Hr. }
  split.
  { intros i. rewrite (int_lt_scaled i m' e' (- a + - ec) V) by (lia || assumption).
    f_equal. f_equal. f_equal. lia. }
  split.
  { intros i. rewrite (int_ge_scaled i m' e' (- a + - ec) V) by (lia || assumption).
    f_equal. f_equal. f_equal. lia. }
  split; [exact Hmult |]. split.
  - rewrite Pos2Z.inj_mul, Hmz in Hcl. exact Hcl.
  - rewrite <- Hmz. change (2 ^ 52) with 4503599627370496.
    change (2 ^ 53) with 9007199254740992. lia.
Qed.

(** [found < total * 0.3] is the exact test [found / total < 3/10]. *)
Lemma lt_three_tenths n i :
  0 < n <= 2 ^ 50 -> 0 <= i ->
  PyFloat.int_lt i (PyFloat.int_mul n PyFloat.lit_0_3) = (10 * i <? 3 * n).
Proof.
  intros Hn Hi.
  assert (Hn53 : 0 < n < 2 ^ 53).
  { split; [lia |]. apply Z.le_lt_trans with (2 ^ 50); [lia | reflexivity]. }
  destruct (int_mul_finite n 5404319552844595 54 Hn53 eq_refl ltac:(lia))
    as (a & m' & e' & V & k & Ha & Hk & Hmul & Hlt & _ & [c Hc] & Hcl & HX).
  change PyFloat.lit_0_3 with (S754_finite false 5404319552844595 (Z.opp 54)).
  rewrite Hmul, Hlt.
  rewrite Z.pow_add_r by lia.
  assert (HA : 0 < 2 ^ a) by (apply Z.pow_pos_nonneg; lia).
  set (A := 2 ^ a) in *.
  assert (Hn50 : n <= 1125899906842624) by (change 1125899906842624 with (2 ^ 50); lia).
  change (2 ^ 52) with 4503599627370496 in HX.
  change (2 ^ 53) with 9007199254740992 in HX.
  change (2 ^ 54) with 18014398509481984.
  assert (HnA : n * A <= 1125899906842624 * A) by nia.
  destruct (Z.ltb_spec (10 * i) (3 * n)) as [Hlt10 | Hge10].
  - assert (HiA : 10 * (i * A) <= 3 * (n * A) - A) by nia.
    apply Z.ltb_lt.
    destruct Hk as [-> | ->].
    + change (2 ^ Z.of_nat 51) with 2251799813685248 in Hcl. lia.
    + change (2 ^ Z.of_nat 52) with 4503599627370496 in Hcl. lia.
  - assert (HiA : 3 * (n * A) <= 10 * (i * A)) by nia.
    apply Z.ltb_ge.
    destruct Hk as [-> | ->].
    + change (2 ^ Z.of_nat 51) with 2251799813685248 in Hcl.
      change (2 ^ Z.of_nat 52) with 4503599627370496 in Hc. lia.
    + change (2 ^ Z.of_nat 52) with 4503599627370496 in Hcl.
      change (2 ^ Z.of_nat 53) with 9007199254740992 in Hc. lia.
Qed.

(** [found >= total * 0.6] is the exact test [found / total >= 6/10]. *)
Lemma ge_six_tenths n i :
  0 < n <= 2 ^ 50 -> 0 <= i ->
  PyFloat.int_ge i (PyFloat.int_mul n PyFloat.lit_0_6) = (3 * n <=? 5 * i).
Proof.
  intros Hn Hi.
  assert (Hn53 : 0 < n < 2 ^ 53).
  { split; [lia |]. apply Z.le_lt_trans with (2 ^ 50); [lia | reflexivity]. }
  destruct (int_mul_finite n 5404319552844595 53 Hn53 eq_refl ltac:(lia))
    as (a & m' & e' & V & k & Ha & Hk & Hmul & _ & Hge & [c Hc] & Hcl & HX).
  change PyFloat.lit_0_6 with (S754_finite false 5404319552844595 (Z.opp 53)).
  rewrite Hmul, Hge.
  rewrite Z.pow_add_r by lia.
  assert (HA : 0 < 2 ^ a) by (apply Z.pow_pos_nonneg; lia).
  set (A := 2 ^ a) in *.
  assert (Hn50 : n <= 1125899906842624) by (change 1125899906842624 with (2 ^ 50); lia).
  change (2 ^ 52) with 4503599627370496 in HX.
  change (2 ^ 53) with 9007199254740992 in HX.
  change (2 ^ 53) with 9007199254740992.
  assert (HnA : n * A <= 1125899906842624 * A) by nia.
  destruct (Z.leb_spec (3 * n) (5 * i)) as [Hle | Hgt].
  - assert (HiA : 3 * (n * A) <= 5 * (i * A)) by nia.
    apply Z.leb_le.
    destruct Hk as [-> | ->].
    + change (2 ^ Z.of_nat 51) with 2251799813685248 in Hcl.
      change (2 ^ Z.of_nat 52) with 4503599627370496 in Hc. lia.
    + change (2 ^ Z.of_nat 52) with 4503599627370496 in Hcl.
      change (2 ^ Z.of_nat 53) with 9007199254740992 in Hc. lia.
  - assert (HiA : 5 * (i * A) <= 3 * (n * A) - A) by nia.
    apply Z.leb_gt.
    destruct Hk as [-> | ->].
    + change (2 ^ Z.of_nat 51) with 2251799813685248 in Hcl. lia.
    + change (2 ^ Z.of_nat 52) with 4503599627370496 in Hcl. lia.
Qed.

End Binary64.

(** ** Sanity checks of the primitives *)


Example lower_ex : PyStr.lower "OAuth2 .NET" = "oauth2 .net".
Proof. reflexivity. Qed.
Example strip_ex : PyStr.strip "  a b  " = "a b".
Proof. reflexivity. Qed.
Example split_ex : PyStr.split "  software   development " = ["software"; "development"].
Proof. reflexivity. Qed.
Example search_ex1 : PyStr.search_word "java" "java developer" = true.
Proof. reflexivity. Qed.
Example search_ex2 : PyStr.search_word "java" "javascript developer" = false.
Proof. reflexivity. Qed.
Example search_ex3 : PyStr.search_word ".net" "asp.net core" = true.
Proof. reflexivity. Qed.
Example search_ex4 : PyStr.search_word ".net" "c# .net core" = false.
Proof. reflexivity. Qed.

(** The four character classes on the 256 code points, as CPython gives
    them ([chr(n).isspace()], [re.match(r'\w', chr(n))],
    [chr(n).lower() != chr(n)], [int(chr(n) + '5')]), and the lower-case
    forms of the capital letters. *)
Example character_tables :
  code_points PyStr.is_space = (seq 9 5 ++ seq 28 5 ++ [133; 160])%list
  /\ code_points PyStr.is_word
     = (seq 48 10 ++ seq 65 26 ++ [95] ++ seq 97 26
        ++ [170; 178; 179; 181; 185; 186; 188; 189; 190]
        ++ seq 192 23 ++ seq 216 31 ++ seq 248 8)%list
  /\ code_points PyStr.is_upper = (seq 65 26 ++ seq 192 23 ++ seq 216 7)%list
  /\ code_points PyVal.is_int_space = (seq 9 5 ++ [32; 133; 160])%list
  /\ map (fun n => nat_of_ascii (PyStr.lower_char (ascii_of_nat n)))
       (code_points PyStr.is_upper)
     = (seq 97 26 ++ seq 224 23 ++ seq 248 7)%list.
Proof. repeat split; vm_compute; reflexivity. Qed.

(** Text outside ASCII: the no-break space separates tokens and is
    stripped, capital letters with accents are lowered, and letters with
    accents are word characters. *)
Example latin1_ex :
  PyStr.split ("Running" ++ Demo.no_break_space ++ "Tests") = ["Running"; "Tests"]
  /\ PyStr.strip (Demo.no_break_space ++ "java" ++ String (ascii_of_nat 133) EmptyString)
     = "java"
  /\ PyStr.lower (Demo.capital_e_acute ++ "COLE") = Demo.e_acute ++ "cole"
  /\ PyStr.search_word (Demo.e_acute ++ "cole") (Demo.e_acute ++ "cole polytechnique") = true
  /\ PyStr.search_word "caf" ("caf" ++ Demo.e_acute) = false
  /\ PyStr.search_word Demo.e_acute Demo.e_acute = true
  /\ PyStr.search_word "java" ("java" ++ Demo.no_break_space ++ "developer") = true
  /\ PyVal.int_of_str (Demo.no_break_space ++ "85" ++ String (ascii_of_nat 133) EmptyString)
     = Some 85%Z
  /\ PyVal.int_of_str (String (ascii_of_nat 28) "85") = None.
Proof. repeat split; vm_compute; reflexivity. Qed.

(** Products computed by CPython, as mantissa and exponent. *)
Example int_mul_ex :
  map (fun n => PyFloat.int_mul n PyFloat.lit_0_3) [1; 7; 10; 13; 100; 333; 1000003]%Z
  = [S754_finite false 5404319552844595 (-54); S754_finite false 4728779608739021 (-51);
     S754_finite false 6755399441055744 (-51); S754_finite false 8782019273372467 (-51);
     S754_finite false 8444249301319680 (-48); S754_finite false 7029837543348633 (-46);
     S754_finite false 5153976217082265 (-34)]
  /\ map (fun n => PyFloat.int_mul n PyFloat.lit_0_6) [1; 7; 10; 13; 100; 333; 1000003]%Z
     = [S754_finite false 5404319552844595 (-53); S754_finite false 4728779608739021 (-50);
        S754_finite false 6755399441055744 (-50); S754_finite false 8782019273372467 (-50);
        S754_finite false 8444249301319680 (-47); S754_finite false 7029837543348633 (-45);
        S754_finite false 5153976217082265 (-33)].
Proof. split; vm_compute; reflexivity. Qed.

(** The two literals are the binary64 values nearest to 3/10 and 6/10:
    they differ from them by less than half a unit in the last place. *)
Example literals_nearest :
  (Z.abs (10 * 5404319552844595 - 3 * 2 ^ 54) * 2 < 10)%Z
  /\ (Z.abs (10 * 5404319552844595 - 6 * 2 ^ 53) * 2 < 10)%Z.
Proof. split; vm_compute; reflexivity. Qed.

Example int_of_str_ex :
  map PyVal.int_of_str [" 8_5 "; "007"; "-0"; "+7"; "1_000"; "_1"; "1_"; "1__0"; "+ 5"; EmptyString; "0x10"]
  = [Some 85; Some 7; Some 0; Some 7; Some 1000; None; None; None; None; None; None]%Z.
Proof. vm_compute. reflexivity. Qed.

Example decision_ex : map (fun m => initial_decision_of m 10) [0; 2; 3; 5; 6]
  = ["FAIL - No keywords matched"; "WEAK - Low keyword match rate";
     "MODERATE - Moderate keyword match rate"; "MODERATE - Moderate keyword match rate";
     "STRONG - High keyword match rate"].
Proof. vm_compute. reflexivity. Qed.

(** ** Keyword matcher: which keywords are returned *)

Section MatcherFacts.
Context `{NLP}.

Lemma bind_ok {A B} (r : result A) (k : A -> result B) (b : B) :
  (let! a := r in k a) = Ok b -> exists a, r = Ok a /\ k a = Ok b.
Proof. destruct r as [a|e]; simpl; [eauto | discriminate]. Qed.

Lemma preprocess_text_total text : nlp_total -> is_ok (preprocess_text text).
Proof.
  intros Ht. unfold preprocess_text.
  destruct (Ht (PyStr.lower text)) as [doc ->]. simpl. eexists; reflexivity.
Qed.

Lemma processed_keyword_total kw : nlp_total -> is_ok (processed_keyword kw).
Proof.
  intros Ht. unfold processed_keyword.
  destruct (Nat.ltb _ _); [now apply preprocess_text_total | eexists; reflexivity].
Qed.

Lemma keywords_found_total pr K : nlp_total -> is_ok (keywords_found pr K).
Proof.
  intros Ht. induction K as [|kw K IH]; simpl.
  - eexists; reflexivity.
  - destruct (processed_keyword_total kw Ht) as [p ->].
    destruct IH as [found ->]. simpl. eexists; reflexivity.
Qed.

Lemma match_keywords_total R K : nlp_total -> is_ok (match_keywords R K).
Proof.
  intros Ht. unfold match_keywords.
  destruct (preprocess_text_total R Ht) as [pr ->]. simpl.
  destruct (keywords_found_total pr K Ht) as [found ->]. simpl.
  eexists; reflexivity.
Qed.

(** What [match_keywords] returns, in terms of its two loops. *)
Lemma match_keywords_ok R K found dec :
  match_keywords R K = Ok (found, dec) ->
  exists pr, preprocess_text R = Ok pr
             /\ keywords_found pr K = Ok found
             /\ dec = initial_decision_of (length found) (length K).
Proof.
  unfold match_keywords. intros Hm.
  apply bind_ok in Hm as (pr & Hpr & Hm).
  apply bind_ok in Hm as (f & Hf & Hm).
  injection Hm as <- <-. eauto.
Qed.

Lemma keywords_found_sublist pr K found :
  keywords_found pr K = Ok found ->
  found `sublist_of` K /\ Forall (hit pr) found.
Proof.
  revert found. induction K as [|kw K IH]; simpl; intros found Hf.
  - injection Hf as <-. split; constructor.
  - apply bind_ok in Hf as (p & Hp & Hf).
    apply bind_ok in Hf as (f & Hrec & Hf).
    injection Hf as <-. destruct (IH f Hrec) as [Hs Hh].
    destruct (skipped p) eqn:Hsk.
    + split; [now apply sublist_cons | exact Hh].
    + destruct (PyStr.search_word p pr) eqn:Hw.
      * split; [now apply sublist_skip |].
        constructor; [exists p; auto | exact Hh].
      * split; [now apply sublist_cons | exact Hh].
Qed.

(** A skipped keyword contributes neither a match nor an error. *)
Lemma keywords_found_skip pr kw K p :
  processed_keyword kw = Ok p -> skipped p = true ->
  keywords_found pr (kw :: K) = keywords_found pr K.
Proof.
  intros Hp Hs. simpl. rewrite Hp. simpl.
  destruct (keywords_found pr K); simpl; [now rewrite Hs | reflexivity].
Qed.

End MatcherFacts.

(** C2. The list returned by [match_keywords] is made of elements of the
    original keyword list, in the order of that list: it is a sublist of
    [keywords], each element being an original keyword whose processed form
    was found in the processed resume.  The function returns whenever the
    pipeline raises on no text. *)
Theorem match_keywords_original_elements_in_order `{NLP} (R : string) (K : list string) :
  (nlp_total -> is_ok (match_keywords R K))
  /\ (forall found dec, match_keywords R K = Ok (found, dec) ->
        found `sublist_of` K
        /\ (forall kw, In kw found -> In kw K)
        /\ exists pr, preprocess_text R = Ok pr /\ Forall (hit pr) found).
Proof.
  split; [apply match_keywords_total |].
  intros found dec Hm.
  apply match_keywords_ok in Hm as (pr & Hpr & Hf & _).
  apply keywords_found_sublist in Hf as [Hs Hh].
  split; [exact Hs | split].
  - intros kw Hin. apply list_elem_of_In. eapply sublist_submseteq in Hs.
    eapply elem_of_submseteq; [apply list_elem_of_In; exact Hin | exact Hs].
  - exists pr. auto.
Qed.

Lemma match_keywords_original_elements_in_order_witness :
  @match_keywords Demo.nlp_words "Ran the tests in Java and Python"
    ["Java"; "Rust"; "running tests"; "PYTHON "]
  = Ok (["Java"; "running tests"; "PYTHON "], "STRONG - High keyword match rate")
  /\ ["Java"; "running tests"; "PYTHON "] `sublist_of` ["Java"; "Rust"; "running tests"; "PYTHON "].
Proof.
  split; [vm_compute; reflexivity |].
  eapply (proj2 (@match_keywords_original_elements_in_order Demo.nlp_words
                   "Ran the tests in Java and Python"
                   ["Java"; "Rust"; "running tests"; "PYTHON "])).
  vm_compute. reflexivity.
Defined.

(** ** Keyword matcher: the phrase / atomic branch *)

(** C7, as stated, fails: a keyword that contains whitespace but holds a
    single token (here a trailing space) takes the atomic branch and is not
    lemmatized. *)
Lemma whitespace_keyword_not_normalized :
  ~ (forall (N : NLP) (kw : string),
       contains_whitespace kw = true ->
       @processed_keyword N kw = @preprocess_text N kw).
Proof.
  intros Hc.
  specialize (Hc Demo.nlp_words "Tests " eq_refl).
  vm_compute in Hc. discriminate Hc.
Qed.

Example whitespace_keyword_values :
  contains_whitespace "Tests " = true
  /\ PyStr.split "Tests " = ["Tests"]
  /\ @processed_keyword Demo.nlp_words "Tests " = Ok "tests"
  /\ @preprocess_text Demo.nlp_words "Tests " = Ok "test".
Proof. repeat split; vm_compute; reflexivity. Qed.

(** A no-break space separates tokens like any whitespace: the keyword
    takes the phrase branch and is lemmatized. *)
Example no_break_space_keyword :
  contains_whitespace ("Running" ++ Demo.no_break_space ++ "Tests") = true
  /\ @processed_keyword Demo.nlp_words ("Running" ++ Demo.no_break_space ++ "Tests")
     = Ok "run test".
Proof. split; vm_compute; reflexivity. Qed.

Lemma append_assoc_char cur c r : (cur ++ String c EmptyString) ++ r = cur ++ String c r.
Proof.
  induction cur as [|a cur IH]; [reflexivity |].
  change (String a ((cur ++ String c EmptyString) ++ r) = String a (cur ++ String c r)).
  now rewrite IH.
Qed.

(** Without whitespace there is at most one token: the whole string. *)
Lemma split_from_no_whitespace s cur :
  contains_whitespace s = false ->
  PyStr.split_from cur s = if PyStr.is_empty (cur ++ s) then [] else [cur ++ s].
Proof.
  revert cur. induction s as [|c r IH]; intros cur Hs; simpl.
  - replace (cur ++ EmptyString) with cur; [reflexivity |].
    induction cur as [|a cur IH]; [reflexivity |].
    change (String a cur = String a (cur ++ EmptyString)). now rewrite <- IH.
  - simpl in Hs. apply orb_false_elim in Hs as [Hc Hr].
    rewrite Hc, (IH _ Hr), append_assoc_char. reflexivity.
Qed.

Lemma phrase_contains_whitespace kw :
  1 < length (PyStr.split kw) -> contains_whitespace kw = true.
Proof.
  intros Hl. destruct (contains_whitespace kw) eqn:Hw; [reflexivity | exfalso].
  unfold PyStr.split in Hl. rewrite (split_from_no_whitespace kw EmptyString Hw) in Hl.
  destruct (PyStr.is_empty (EmptyString ++ kw)); simpl in Hl; lia.
Qed.

(** C7, amended.  The branch is taken on the number of whitespace-separated
    tokens: a keyword with more than one token (which always contains
    whitespace) is normalized by [preprocess_text]; any other keyword is
    only lowercased and trimmed, whatever the pipeline is; and a keyword
    whose processed form is empty or the sentinel leaves the loop's result
    as if it were not in the list. *)
Theorem processed_keyword_branches `{NLP} (kw : string) :
  (1 < length (PyStr.split kw) ->
     contains_whitespace kw = true /\ processed_keyword kw = preprocess_text kw)
  /\ (length (PyStr.split kw) <= 1 ->
        processed_keyword kw = Ok (PyStr.strip (PyStr.lower kw)))
  /\ (forall p pr K,
        processed_keyword kw = Ok p ->
        p = EmptyString \/ p = EMPTY_PROCESSED_STRING ->
        keywords_found pr (kw :: K) = keywords_found pr K).
Proof.
  unfold processed_keyword. split; [|split].
  - intros Hl. split; [now apply phrase_contains_whitespace |].
    apply Nat.ltb_lt in Hl. now rewrite Hl.
  - intros Hl. apply Nat.ltb_ge in Hl. now rewrite Hl.
  - intros p pr K Hp Hs. eapply keywords_found_skip; [exact Hp |].
    destruct Hs as [-> | ->]; reflexivity.
Qed.

Lemma processed_keyword_branches_witness :
  @processed_keyword Demo.nlp_words "running tests" = Ok "run test"
  /\ @processed_keyword Demo.nlp_words " OAuth2 " = Ok "oauth2"
  /\ @keywords_found Demo.nlp_words "run test" ["the of"; "running tests"]
     = @keywords_found Demo.nlp_words "run test" ["running tests"].
Proof.
  split; [|split].
  - rewrite (proj2 (proj1 (@processed_keyword_branches Demo.nlp_words "running tests")
                             ltac:(vm_compute; lia))).
    vm_compute. reflexivity.
  - rewrite (proj1 (proj2 (@processed_keyword_branches Demo.nlp_words " OAuth2 ")));
      [vm_compute; reflexivity | vm_compute; lia].
  - apply (proj2 (proj2 (@processed_keyword_branches Demo.nlp_words "the of"))
             EMPTY_PROCESSED_STRING);
      [vm_compute; reflexivity | right; reflexivity].
Defined.

(** ** Keyword matcher: the sentinel of an empty normalization *)

Section Sentinel.

Lemma lower_char_not_upper c : PyStr.is_upper (PyStr.lower_char c) = false.
Proof. destruct c as [[] [] [] [] [] [] [] []]; reflexivity. Qed.

Lemma lower_no_upper s : no_upper (PyStr.lower s) = true.
Proof. induction s as [|c r IH]; simpl; [reflexivity |]. now rewrite lower_char_not_upper, IH. Qed.

Lemma lstrip_no_upper sp s : no_upper s = true -> no_upper (PyStr.lstrip_by sp s) = true.
Proof.
  induction s as [|c r IH]; simpl; [auto |]. intros Hn.
  destruct (sp c); [| exact Hn].
  apply IH. now apply andb_prop in Hn as [_ ?].
Qed.

Lemma rstrip_no_upper sp s : no_upper s = true -> no_upper (PyStr.rstrip_by sp s) = true.
Proof.
  induction s as [|c r IH]; simpl; [auto |]. intros Hn.
  apply andb_prop in Hn as [Hc Hr].
  destruct (sp c && PyStr.is_empty (PyStr.rstrip_by sp r)); [reflexivity |].
  simpl. now rewrite Hc, IH.
Qed.

(** An atomic keyword's processed form has no capital letter, so it is
    never the sentinel. *)
Lemma atomic_form_not_sentinel kw :
  PyStr.strip (PyStr.lower kw) <> EMPTY_PROCESSED_STRING.
Proof.
  intros He.
  assert (Hn : no_upper (PyStr.strip (PyStr.lower kw)) = true)
    by (apply rstrip_no_upper, lstrip_no_upper, lower_no_upper).
  rewrite He in Hn. discriminate Hn.
Qed.

(** In the sentinel, made of word characters only, the boundaries are its
    two ends. *)
Lemma boundary_sentinel j :
  PyStr.boundary EMPTY_PROCESSED_STRING j = true -> j = 0 \/ j = 22.
Proof.
  do 24 (destruct j as [|j]; [vm_compute; intros Hb; (discriminate Hb || auto) |]).
  vm_compute. discriminate.
Qed.

Lemma is_empty_length s : String.length s = 0 -> s = EmptyString.
Proof. destruct s; [reflexivity | discriminate]. Qed.

(** The word-bounded search in the sentinel finds only the empty string
    and the sentinel itself. *)
Lemma search_word_sentinel p :
  PyStr.search_word p EMPTY_PROCESSED_STRING = true ->
  p = EmptyString \/ p = EMPTY_PROCESSED_STRING.
Proof.
  unfold PyStr.search_word. intros Hs.
  apply existsb_exists in Hs as (i & _ & Hm).
  unfold PyStr.match_at in Hm.
  apply andb_prop in Hm as [Hm Hb2]. apply andb_prop in Hm as [Hb1 He].
  apply String.eqb_eq in He.
  apply boundary_sentinel in Hb1. apply boundary_sentinel in Hb2.
  destruct Hb1 as [-> | ->].
  - destruct Hb2 as [Hl | Hl]; simpl in Hl.
    + left. now apply is_empty_length.
    + right. rewrite Hl in He. symmetry. exact He.
  - left. apply is_empty_length. lia.
Qed.

Context `{NLP}.

Lemma keywords_found_sentinel K found :
  keywords_found EMPTY_PROCESSED_STRING K = Ok found -> found = [].
Proof.
  revert found. induction K as [|kw K IH]; simpl; intros found Hf.
  - now injection Hf.
  - apply bind_ok in Hf as (p & Hp & Hf).
    apply bind_ok in Hf as (f & Hrec & Hf).
    injection Hf as <-. rewrite (IH f Hrec).
    destruct (skipped p) eqn:Hsk; [reflexivity |].
    destruct (PyStr.search_word p EMPTY_PROCESSED_STRING) eqn:Hw; [| reflexivity].
    exfalso. unfold skipped in Hsk. apply orb_false_elim in Hsk as [He Hq].
    apply search_word_sentinel in Hw as [-> | ->]; [discriminate He |].
    now rewrite String.eqb_refl in Hq.
Qed.

End Sentinel.

(** C8. When the resume's normalization is empty (its clean tokens join and
    strip to the empty string), [preprocess_text] returns the sentinel; no
    processed keyword that passes the skip guard is found in the sentinel,
    and an atomic keyword's processed form never equals it; hence
    [match_keywords] returns no matched keyword and the FAIL verdict, for
    every keyword list on which the pipeline does not raise. *)
Theorem empty_normalization_matches_nothing `{NLP} (R : string) (doc : list Token) :
  nlp (PyStr.lower R) = Ok doc ->
  PyStr.strip (PyStr.join " " (clean_tokens doc)) = EmptyString ->
  preprocess_text R = Ok EMPTY_PROCESSED_STRING
  /\ (forall kw, PyStr.strip (PyStr.lower kw) <> EMPTY_PROCESSED_STRING)
  /\ (forall p, skipped p = false -> PyStr.search_word p EMPTY_PROCESSED_STRING = false)
  /\ (forall K, Forall (fun kw => is_ok (processed_keyword kw)) K ->
        match_keywords R K = Ok ([], "FAIL - No keywords matched"))
  /\ (forall K found dec, match_keywords R K = Ok (found, dec) -> found = []).
Proof.
  intros Hdoc Hempty.
  assert (Hpr : preprocess_text R = Ok EMPTY_PROCESSED_STRING).
  { unfold preprocess_text. rewrite Hdoc. simpl. now rewrite Hempty. }
  split; [exact Hpr |]. split; [apply atomic_form_not_sentinel |].
  split; [| split].
  - intros p Hsk. destruct (PyStr.search_word p EMPTY_PROCESSED_STRING) eqn:Hw; [| reflexivity].
    unfold skipped in Hsk. apply orb_false_elim in Hsk as [He Hq].
    apply search_word_sentinel in Hw as [-> | ->]; [discriminate He |].
    now rewrite String.eqb_refl in Hq.
  - intros K HK. unfold match_keywords. rewrite Hpr. simpl.
    assert (Hok : is_ok (keywords_found EMPTY_PROCESSED_STRING K)).
    { induction HK as [|kw K [p Hp] _ IH]; simpl; [eexists; reflexivity |].
      rewrite Hp. destruct IH as [f ->]. simpl. eexists; reflexivity. }
    destruct Hok as [f Hf]. rewrite Hf.
    rewrite (keywords_found_sentinel K f Hf). reflexivity.
  - intros K found dec Hm. apply match_keywords_ok in Hm as (pr & Hpr' & Hf & _).
    rewrite Hpr in Hpr'. injection Hpr' as <-.
    now apply keywords_found_sentinel in Hf.
Qed.

Lemma empty_normalization_matches_nothing_witness :
  @match_keywords Demo.nlp_words "... --- !!! the of"
    ["EMPTY_PROCESSED_STRING"; "empty"; "the of"; "string"; "processed string"]
  = Ok ([], "FAIL - No keywords matched").
Proof.
  refine (proj1 (proj2 (proj2 (proj2
    (@empty_normalization_matches_nothing Demo.nlp_words "... --- !!! the of"
       (map Demo.token_of ["..."; "---"; "!!!"; "the"; "of"]) _ _))))
    ["EMPTY_PROCESSED_STRING"; "empty"; "the of"; "string"; "processed string"] _).
  - vm_compute. reflexivity.
  - vm_compute. reflexivity.
  - repeat constructor; eexists; vm_compute; reflexivity.
Defined.

(** ** Keyword matcher: the preliminary verdict *)

(** The [if]/[elif] chain on floats computes the spec's classification of
    the exact ratio. *)
Lemma initial_decision_of_spec (found total : nat) :
  found <= total -> (Z.of_nat total <= 2 ^ 50)%Z ->
  initial_decision_of found total = verdict_string (spec_verdict found total).
Proof.
  intros Hle Hbound. unfold initial_decision_of, spec_verdict.
  destruct found as [|m].
  - simpl Nat.eqb. cbv iota. destruct total as [|n]; [reflexivity |].
    simpl Nat.eqb. cbv iota.
    replace (Qeq_bool (Z.of_nat 0 # Pos.of_nat (S n)) 0) with true; [reflexivity |].
    symmetry. apply Qeq_bool_iff. reflexivity.
  - destruct total as [|n]; [lia |].
    simpl Nat.eqb. cbv iota.
    rewrite lt_three_tenths, ge_six_tenths by lia.
    assert (Hp : Zpos (Pos.of_nat (S n)) = Z.of_nat (S n))
      by (rewrite <- positive_nat_Z, Nat2Pos.id by lia; reflexivity).
    destruct (Qeq_bool (Z.of_nat (S m) # Pos.of_nat (S n)) 0) eqn:Ez.
    { apply Qeq_bool_iff in Ez. unfold Qeq in Ez. cbn [Qnum Qden] in Ez. lia. }
    unfold Qle_bool. cbn [Qnum Qden]. rewrite Hp.
    set (a := Z.of_nat (S m)) in *. set (b := Z.of_nat (S n)) in *.
    destruct (Z.ltb_spec (10 * a) (3 * b)); destruct (Z.leb_spec (3 * b) (5 * a));
      destruct (Z.leb_spec (3 * b) (a * 10)); destruct (Z.leb_spec (6 * b) (a * 10));
      try reflexivity; lia.
Qed.

(** C1. The verdict returned by [match_keywords] is the string of exactly
    one of FAIL, WEAK, MODERATE, STRONG, namely the spec's classification of
    the ratio [|matched| / |K|] (0 gives FAIL, below 0.3 WEAK, from 0.3 and
    below 0.6 MODERATE, from 0.6 STRONG), for every keyword list of at most
    2^50 entries; at |K| = 10 the verdicts for 0, 2, 3, 5 and 6 matches are
    FAIL, WEAK, MODERATE, MODERATE and STRONG; and the empty keyword list
    gives no match and FAIL.  The function returns whenever the pipeline
    raises on no text. *)
Theorem preliminary_verdict_classification `{NLP} (R : string) (K : list string) :
  (nlp_total -> is_ok (match_keywords R K))
  /\ ((Z.of_nat (length K) <= 2 ^ 50)%Z ->
      forall found dec, match_keywords R K = Ok (found, dec) ->
        dec = verdict_string (spec_verdict (length found) (length K)))
  /\ (map (fun m => initial_decision_of m 10) [0; 2; 3; 5; 6]
      = map verdict_string [FAIL; WEAK; MODERATE; MODERATE; STRONG]
      /\ map (fun m => spec_verdict m 10) [0; 2; 3; 5; 6]
         = [FAIL; WEAK; MODERATE; MODERATE; STRONG])
  /\ (is_ok (preprocess_text R) ->
      match_keywords R [] = Ok ([], verdict_string FAIL)).
Proof.
  split; [apply match_keywords_total |]. split; [| split].
  - intros Hbound found dec Hm.
    apply match_keywords_ok in Hm as (pr & _ & Hf & ->).
    apply keywords_found_sublist in Hf as [Hs _].
    apply initial_decision_of_spec; [now apply sublist_length | exact Hbound].
  - split; vm_compute; reflexivity.
  - intros [pr Hpr]. unfold match_keywords. rewrite Hpr. reflexivity.
Qed.

Lemma preliminary_verdict_classification_witness :
  @match_keywords Demo.nlp_words "Java and Python, with Rust"
    ["java"; "python"; "rust"; "go"; "kotlin"; "scala"; "swift"; "ruby"; "perl"; "lua"]
  = Ok (["java"; "python"; "rust"], verdict_string MODERATE)
  /\ @match_keywords Demo.nlp_words EmptyString [] = Ok ([], verdict_string FAIL).
Proof.
  pose (K := ["java"; "python"; "rust"; "go"; "kotlin"; "scala"; "swift"; "ruby"; "perl"; "lua"]).
  pose proof (@preliminary_verdict_classification Demo.nlp_words
                "Java and Python, with Rust" K) as (_ & Hv & _ & _).
  pose proof (@preliminary_verdict_classification Demo.nlp_words EmptyString [])
    as (_ & _ & _ & He).
  split.
  - assert (Hrun : @match_keywords Demo.nlp_words "Java and Python, with Rust" K
                   = Ok (["java"; "python"; "rust"], initial_decision_of 3 10))
      by (vm_compute; reflexivity).
    fold K. rewrite Hrun.
    rewrite (Hv ltac:(vm_compute; discriminate) _ _ Hrun). reflexivity.
  - apply He. eexists. vm_compute. reflexivity.
Defined.

(** ** Screener: how updates act on the state *)

Section UpdateFacts.

Lemma apply_entry_inputs s w :
  ~ In (entry_key w) input_keys -> inputs_of (apply_entry s w) = inputs_of s.
Proof.
  destruct s, w; simpl; intros Hk; try reflexivity; exfalso; apply Hk; auto.
Qed.

(** A dict with no input key leaves the inputs of the run as they are. *)
Lemma apply_update_inputs s u :
  Forall (fun k => ~ In k input_keys) (keys u) ->
  inputs_of (apply_update s u) = inputs_of s.
Proof.
  unfold apply_update, keys. revert s.
  induction u as [|w u IH]; intros s Hu; [reflexivity |].
  apply Forall_cons in Hu as [Hw Hu].
  simpl. now rewrite IH, apply_entry_inputs.
Qed.

Lemma apply_entry_matcher_outputs s w :
  ~ In (entry_key w) matcher_keys ->
  matcher_outputs (apply_entry s w) = matcher_outputs s.
Proof.
  destruct s, w; simpl; intros Hk; try reflexivity; exfalso; apply Hk; auto.
Qed.

(** A dict with no matcher key leaves the matcher's outputs as they are. *)
Lemma apply_update_matcher_outputs s u :
  Forall (fun k => ~ In k matcher_keys) (keys u) ->
  matcher_outputs (apply_update s u) = matcher_outputs s.
Proof.
  unfold apply_update, keys. revert s.
  induction u as [|w u IH]; intros s Hu; [reflexivity |].
  apply Forall_cons in Hu as [Hw Hu].
  simpl. now rewrite IH, apply_entry_matcher_outputs.
Qed.

End UpdateFacts.

(** ** Screener: the two nodes and the run *)

Section ScreenerFacts.
Context `{NLP} `{JSONDecoder} `{Model}.

(** What [read_evaluation] returns when it returns. *)
Lemma read_evaluation_shape text u :
  read_evaluation text = Ok u ->
  exists d s met missing score, u = evaluation_update d s met missing score.
Proof.
  unfold read_evaluation. destruct (parse_evaluation text) as [u0 | e] eqn:Hp.
  - intros Hr. injection Hr as <-. unfold parse_evaluation in Hp.
    apply bind_ok in Hp as (v & _ & Hr).
    apply bind_ok in Hr as (d & _ & Hr). apply bind_ok in Hr as (s & _ & Hr).
    apply bind_ok in Hr as (cb & _ & Hr). apply bind_ok in Hr as (met & _ & Hr).
    apply bind_ok in Hr as (mis & _ & Hr). apply bind_ok in Hr as (sc0 & _ & Hr).
    apply bind_ok in Hr as (sc & _ & Hr). injection Hr as <-.
    now exists d, s, met, mis, sc.
  - destruct (exn_class_of e); intros Hr; try discriminate Hr.
    injection Hr as <-. now eexists _, _, _, _, _.
Qed.

(** A decoded object whose [criteria_breakdown] is an object (or absent)
    and whose score passes the coercion is read key by key. *)
Lemma read_evaluation_object text kv cb score :
  json_loads text = Ok (JObj kv) ->
  PyVal.dict_get kv "criteria_breakdown" (JObj []) = JObj cb ->
  coerce_overall_score (PyVal.dict_get kv "overall_score" JNull) = Ok score ->
  read_evaluation text
  = Ok (evaluation_update
          (PyVal.dict_get kv "decision" (JStr "Error: No Decision Provided"))
          (PyVal.dict_get kv "evaluation_summary" (JStr "Error: No summary provided"))
          (PyVal.dict_get cb "requirements_met" (JList []))
          (PyVal.dict_get cb "requirements_missing" (JList []))
          score).
Proof.
  intros Hj Hcb Hsc. unfold read_evaluation, parse_evaluation.
  rewrite Hj. simpl. rewrite Hcb. simpl. now rewrite Hsc.
Qed.

(** The two ways [json.loads] can fail: [JSONDecodeError] is caught by the
    inner handler, any other exception is not. *)
Lemma read_evaluation_decode_error text e :
  json_loads text = Raise e -> exn_class_of e = JSONDecodeError ->
  read_evaluation text = Ok fallback_evaluation.
Proof.
  intros Hj Hc. unfold read_evaluation, parse_evaluation. rewrite Hj. simpl.
  now rewrite Hc.
Qed.

Lemma read_evaluation_loads_fault text e :
  json_loads text = Raise e -> exn_class_of e <> JSONDecodeError ->
  read_evaluation text = Raise e.
Proof.
  intros Hj Hc. unfold read_evaluation, parse_evaluation. rewrite Hj. simpl.
  destruct (exn_class_of e); try reflexivity. now contradict Hc.
Qed.

Lemma match_stage_ok K R jd found dec :
  match_keywords R K = Ok (found, dec) ->
  apply_update (initial_state_of K R jd) (match_keywords_node (initial_state_of K R jd))
  = matched_state K R jd found dec.
Proof. intros Hm. unfold match_keywords_node. simpl. rewrite Hm. reflexivity. Qed.

(** A run in which both stages succeed returns the assembled record and
    has called the model once. *)
Lemma screen_run_success K R jd fn found dec text d s met missing score :
  match_keywords R K = Ok (found, dec) ->
  generate_content (evaluation_prompt (matched_state K R jd found dec)) = Ok text ->
  read_evaluation text = Ok (evaluation_update d s met missing score) ->
  screen_run K R jd fn
  = ({| r_decision := d; r_matching_keywords := found; r_evaluation_summary := s;
        r_requirements_met := met; r_requirements_missing := missing;
        r_overall_score := score; r_initial_decision := dec;
        r_total_keywords := length K; r_resume_filename := fn |},
     [evaluation_prompt (matched_state K R jd found dec)]).
Proof.
  intros Hm Hg Hr. unfold screen_run, graph_invoke.
  rewrite (match_stage_ok K R jd found dec Hm).
  unfold evaluate_candidate_node. simpl error_set. cbv iota.
  rewrite Hg. simpl bind. rewrite Hr. reflexivity.
Qed.

(** A run whose evaluation stage reports the error message [msg]. *)
Lemma screen_run_evaluation_error K R jd fn found dec msg :
  match_keywords R K = Ok (found, dec) ->
  fst (evaluate_candidate_node (matched_state K R jd found dec)) = [Set_error msg] ->
  screen_run K R jd fn
  = (if PyStr.is_empty msg
     then result_of_state (matched_state K R jd found dec) fn
     else error_result msg K fn,
     snd (evaluate_candidate_node (matched_state K R jd found dec))).
Proof.
  intros Hm He. unfold screen_run, graph_invoke.
  rewrite (match_stage_ok K R jd found dec Hm).
  destruct (evaluate_candidate_node (matched_state K R jd found dec)) as [u' calls].
  simpl in He. subst u'. unfold error_set. simpl.
  destruct (PyStr.is_empty msg) eqn:Em; simpl; [| reflexivity].
  destruct msg; [reflexivity | discriminate].
Qed.

(** Every run whose matcher returned is adjudicated once. *)
Lemma screen_run_adjudicated K R jd fn found dec :
  match_keywords R K = Ok (found, dec) ->
  adjudicated_once K R jd fn found dec.
Proof.
  intros Hm. unfold adjudicated_once, adjudication. cbv zeta.
  split; [| split].
  - unfold screen_run, graph_invoke.
    rewrite (match_stage_ok K R jd found dec Hm).
    destruct (evaluate_candidate_node (matched_state K R jd found dec)) as [u calls] eqn:He.
    unfold evaluate_candidate_node in He. simpl error_set in He. cbv iota in He.
    injection He as _ <-. reflexivity.
  - intros u Hu.
    destruct (generate_content (evaluation_prompt (matched_state K R jd found dec)))
      as [text | e] eqn:Hg; simpl in Hu; [| discriminate Hu].
    destruct (read_evaluation_shape text u Hu) as (d & s & met & mis & sc & ->).
    exists d, s, met, mis, sc. split; [reflexivity |].
    unfold screen. now rewrite (screen_run_success K R jd fn found dec text _ _ _ _ _ Hm Hg Hu).
  - intros e He Hne.
    assert (Hnode : fst (evaluate_candidate_node (matched_state K R jd found dec))
                    = [Set_error (exn_msg e)]).
    { unfold evaluate_candidate_node. simpl error_set. cbv iota. simpl fst. now rewrite He. }
    unfold screen.
    rewrite (screen_run_evaluation_error K R jd fn found dec (exn_msg e) Hm Hnode).
    destruct (exn_msg e); [contradiction | reflexivity].
Qed.

End ScreenerFacts.

(** ** Adjudication: malformed responses *)

(** C3, as stated, fails for a response that parses but lacks the required
    keys: the answer [{}] gives the per-key defaults, not the fixed fallback. *)
Lemma missing_keys_not_fallback :
  @screen Demo.nlp_words Demo.loads_table (Demo.model_answering Demo.text_empty_object)
    ["java"] "Java developer" "Java role" "cv.pdf"
  = {| r_decision := JStr "Error: No Decision Provided";
       r_matching_keywords := ["java"];
       r_evaluation_summary := JStr "Error: No summary provided";
       r_requirements_met := JList [];
       r_requirements_missing := JList [];
       r_overall_score := None;
       r_initial_decision := "STRONG - High keyword match rate";
       r_total_keywords := 1;
       r_resume_filename := "cv.pdf" |}
  /\ r_decision (@screen Demo.nlp_words Demo.loads_table
                   (Demo.model_answering Demo.text_empty_object)
                   ["java"] "Java developer" "Java role" "cv.pdf")
     <> JStr "Not Shortlisted".
Proof. split; [vm_compute; reflexivity | vm_compute; discriminate]. Qed.

(** C3, amended.  In a run whose matcher returned and whose model answered:
    if [json.loads] rejects the answer with [JSONDecodeError], the node
    returns the fixed fallback (decision "Not Shortlisted", the failure
    summary, empty requirement lists, null score) and the run's result
    carries it, with no error; if the answer decodes to a JSON object, every
    absent key takes its own default (decision "Error: No Decision
    Provided", summary "Error: No summary provided", empty criteria, null
    score) and the run's result carries these values, again with no error;
    an exception of [json.loads] of any other class is not caught by the
    fallback handler: the node returns the [error] entry, and the run ends
    in the Error record when the message is not empty. *)
Theorem malformed_response_outcome `{NLP} `{JSONDecoder} `{Model}
    (K : list string) (R jd fn : string) (found : list string) (dec text : string) :
  match_keywords R K = Ok (found, dec) ->
  generate_content (evaluation_prompt (matched_state K R jd found dec)) = Ok text ->
  (forall e,
     json_loads text = Raise e -> exn_class_of e = JSONDecodeError ->
     fst (evaluate_candidate_node (matched_state K R jd found dec)) = fallback_evaluation
     /\ screen K R jd fn
        = {| r_decision := JStr "Not Shortlisted";
             r_matching_keywords := found;
             r_evaluation_summary :=
               JStr "Failed to get a structured evaluation from the AI model.";
             r_requirements_met := JList [];
             r_requirements_missing := JList [];
             r_overall_score := None;
             r_initial_decision := dec;
             r_total_keywords := length K;
             r_resume_filename := fn |})
  /\ (forall kv cb score,
        json_loads text = Ok (JObj kv) ->
        PyVal.dict_get kv "criteria_breakdown" (JObj []) = JObj cb ->
        coerce_overall_score (PyVal.dict_get kv "overall_score" JNull) = Ok score ->
        screen K R jd fn
        = {| r_decision := PyVal.dict_get kv "decision" (JStr "Error: No Decision Provided");
             r_matching_keywords := found;
             r_evaluation_summary :=
               PyVal.dict_get kv "evaluation_summary" (JStr "Error: No summary provided");
             r_requirements_met := PyVal.dict_get cb "requirements_met" (JList []);
             r_requirements_missing := PyVal.dict_get cb "requirements_missing" (JList []);
             r_overall_score := score;
             r_initial_decision := dec;
             r_total_keywords := length K;
             r_resume_filename := fn |})
  /\ (forall kv,
        json_loads text = Ok (JObj kv) ->
        PyVal.lookup kv "decision" = None ->
        PyVal.lookup kv "evaluation_summary" = None ->
        PyVal.lookup kv "criteria_breakdown" = None ->
        PyVal.lookup kv "overall_score" = None ->
        fst (evaluate_candidate_node (matched_state K R jd found dec))
        = evaluation_update (JStr "Error: No Decision Provided")
            (JStr "Error: No summary provided") (JList []) (JList []) None)
  /\ (forall e,
        json_loads text = Raise e -> exn_class_of e <> JSONDecodeError ->
        fst (evaluate_candidate_node (matched_state K R jd found dec)) = [Set_error (exn_msg e)]
        /\ (exn_msg e <> EmptyString -> screen K R jd fn = error_result (exn_msg e) K fn)).
Proof.
  intros Hm Hg. split; [| split; [| split]].
  - intros e Hj Hc.
    pose proof (read_evaluation_decode_error text e Hj Hc) as Hr.
    split.
    + unfold evaluate_candidate_node. simpl error_set. cbv iota.
      rewrite Hg. simpl bind. now rewrite Hr.
    + unfold screen. now rewrite (screen_run_success K R jd fn found dec text _ _ _ _ _ Hm Hg Hr).
  - intros kv cb score Hj Hcb Hsc.
    pose proof (read_evaluation_object text kv cb score Hj Hcb Hsc) as Hr.
    unfold screen. now rewrite (screen_run_success K R jd fn found dec text _ _ _ _ _ Hm Hg Hr).
  - intros kv Hj Hd Hs Hc Ho.
    unfold evaluate_candidate_node. simpl error_set. cbv iota.
    rewrite Hg. simpl bind.
    rewrite (read_evaluation_object text kv [] None Hj).
    + unfold PyVal.dict_get. rewrite Hd, Hs. reflexivity.
    + unfold PyVal.dict_get. now rewrite Hc.
    + unfold PyVal.dict_get. now rewrite Ho.
  - intros e Hj Hc.
    pose proof (read_evaluation_loads_fault text e Hj Hc) as Hr.
    assert (He : fst (evaluate_candidate_node (matched_state K R jd found dec))
                 = [Set_error (exn_msg e)]).
    { unfold evaluate_candidate_node. simpl error_set. cbv iota.
      rewrite Hg. simpl bind. now rewrite Hr. }
    split; [exact He |]. intros Hne. unfold screen.
    rewrite (screen_run_evaluation_error K R jd fn found dec (exn_msg e) Hm He).
    destruct (exn_msg e); [contradiction | reflexivity].
Qed.

Lemma malformed_response_outcome_witness :
  @screen Demo.nlp_words Demo.loads_table (Demo.model_answering Demo.text_not_json)
    ["java"; "rust"] "Java developer" "Java role" "cv.pdf"
  = {| r_decision := JStr "Not Shortlisted";
       r_matching_keywords := ["java"];
       r_evaluation_summary := JStr "Failed to get a structured evaluation from the AI model.";
       r_requirements_met := JList [];
       r_requirements_missing := JList [];
       r_overall_score := None;
       r_initial_decision := "MODERATE - Moderate keyword match rate";
       r_total_keywords := 2;
       r_resume_filename := "cv.pdf" |}.
Proof.
  refine (proj2 (proj1 (@malformed_response_outcome Demo.nlp_words Demo.loads_table
            (Demo.model_answering Demo.text_not_json)
            ["java"; "rust"] "Java developer" "Java role" "cv.pdf"
            ["java"] "MODERATE - Moderate keyword match rate" Demo.text_not_json _ _)
            Demo.not_json _ _)).
  - vm_compute. reflexivity.
  - reflexivity.
  - vm_compute. reflexivity.
  - reflexivity.
Defined.

(** The faults of [json.loads] that are not [JSONDecodeError], on a text of
    3000 opening brackets and on a score of 4301 digits: both runs end in
    the Error record. *)
Example loads_faults_fail_the_run :
  @screen Demo.nlp_words DemoMore.loads_faulty (Demo.model_answering DemoMore.text_nested)
    ["java"] "Java developer" "Java role" "cv.pdf"
  = error_result (exn_msg DemoMore.nested_too_deep) ["java"] "cv.pdf"
  /\ @screen Demo.nlp_words DemoMore.loads_faulty (Demo.model_answering DemoMore.text_long_score)
       ["java"] "Java developer" "Java role" "cv.pdf"
     = error_result (exn_msg DemoMore.too_many_digits) ["java"] "cv.pdf".
Proof. split; vm_compute; reflexivity. Qed.

(** ** Adjudication: the overall score *)

(** C4, as stated, fails on out-of-range scores: the answers 150 and -5 are
    stored as they are. *)
Lemma out_of_range_score_is_kept :
  r_overall_score
    (@screen Demo.nlp_words Demo.loads_table (Demo.model_answering (Demo.text_score "150"))
       ["java"] "Java developer" "Java role" "cv.pdf") = Some 150%Z
  /\ r_overall_score
       (@screen Demo.nlp_words Demo.loads_table (Demo.model_answering (Demo.text_score "-5"))
          ["java"] "Java developer" "Java role" "cv.pdf") = Some (-5)%Z.
Proof. split; vm_compute; reflexivity. Qed.

Lemma int_of_non_numeric (v : json) :
  v = JNull \/ (exists l, v = JList l) \/ (exists kv, v = JObj kv)
  \/ (exists s, v = JStr s /\ PyVal.int_of_str s = None) \/ v = JFloat S754_nan ->
  exists e, PyVal.int v = Raise e
            /\ (exn_class_of e = ValueError \/ exn_class_of e = TypeError).
Proof.
  intros [-> | [[l ->] | [[kv ->] | [(s & -> & Hs) | ->]]]]; simpl;
    try rewrite Hs; eexists; split; try reflexivity; simpl; auto.
Qed.

(** C4, amended.  For a response that [json.loads] decodes to an object,
    the stored [overall_score] is null or a Python int, with no range check:
    an integer score is stored as it is (150 and -5 included), and in
    general the stored value is [int(v)] whenever that conversion succeeds;
    a value on which [int] raises [ValueError] or [TypeError] (null, a list,
    an object, a string that is not an integer literal, NaN) is stored as
    null; and in both cases the adjudication is not failed by the score:
    the node returns its five fields (the criteria being absent or an
    object). *)
Theorem overall_score_coercion `{JSONDecoder} (v : json) :
  (forall z, PyVal.int v = Ok z -> coerce_overall_score v = Ok (Some z))
  /\ (forall z, v = JInt z -> coerce_overall_score v = Ok (Some z))
  /\ (v = JNull \/ (exists l, v = JList l) \/ (exists kv, v = JObj kv)
      \/ (exists s, v = JStr s /\ PyVal.int_of_str s = None) \/ v = JFloat S754_nan ->
      coerce_overall_score v = Ok None)
  /\ (forall score, coerce_overall_score v = Ok score ->
        score = None \/ exists z, PyVal.int v = Ok z /\ score = Some z)
  /\ (forall text kv cb score,
        json_loads text = Ok (JObj kv) ->
        PyVal.dict_get kv "criteria_breakdown" (JObj []) = JObj cb ->
        PyVal.dict_get kv "overall_score" JNull = v ->
        coerce_overall_score v = Ok score ->
        read_evaluation text
        = Ok (evaluation_update
                (PyVal.dict_get kv "decision" (JStr "Error: No Decision Provided"))
                (PyVal.dict_get kv "evaluation_summary" (JStr "Error: No summary provided"))
                (PyVal.dict_get cb "requirements_met" (JList []))
                (PyVal.dict_get cb "requirements_missing" (JList []))
                score)).
Proof.
  split; [| split; [| split; [| split]]].
  - intros z Hz. unfold coerce_overall_score. now rewrite Hz.
  - intros z ->. reflexivity.
  - intros Hv. destruct (int_of_non_numeric v Hv) as (e & He & Hc).
    unfold coerce_overall_score. rewrite He.
    destruct Hc as [-> | ->]; reflexivity.
  - intros score. unfold coerce_overall_score.
    destruct (PyVal.int v) as [z | e].
    + intros Hs. injection Hs as <-. right. now exists z.
    + destruct (exn_class_of e); intros Hs; try discriminate Hs;
        injection Hs as <-; now left.
  - intros text kv cb score Hj Hcb Hv Hs. subst v.
    now apply read_evaluation_object.
Qed.

Lemma overall_score_coercion_witness :
  coerce_overall_score (JStr " 8_5 ") = Ok (Some 85%Z)
  /\ coerce_overall_score (JInt 150) = Ok (Some 150%Z)
  /\ coerce_overall_score (JStr "eighty") = Ok None
  /\ @read_evaluation Demo.loads_table (Demo.text_score "150")
     = Ok (evaluation_update (JStr "Shortlisted") (JStr "Error: No summary provided")
             (JList []) (JList []) (Some 150%Z)).
Proof.
  split; [| split; [| split]].
  - apply (proj1 (@overall_score_coercion Demo.loads_table (JStr " 8_5 "))).
    vm_compute. reflexivity.
  - apply (proj1 (proj2 (@overall_score_coercion Demo.loads_table (JInt 150))) 150%Z).
    reflexivity.
  - apply (proj1 (proj2 (proj2 (@overall_score_coercion Demo.loads_table (JStr "eighty"))))).
    right; right; right; left. exists "eighty". split; [reflexivity | vm_compute; reflexivity].
  - apply (proj2 (proj2 (proj2 (proj2 (@overall_score_coercion Demo.loads_table (JInt 150)))))
             (Demo.text_score "150")
             [("decision", JStr "Shortlisted"); ("overall_score", JInt 150)] []);
      vm_compute; reflexivity.
Defined.

(** An infinite score is the one value on which the coercion lets an
    exception through: [int] raises [OverflowError], which only the outer
    handler catches, so the run ends in the Error record. *)
Example infinite_score_fails_the_run :
  @screen Demo.nlp_words Demo.loads_table (Demo.model_answering (Demo.text_score "Infinity"))
    ["java"] "Java developer" "Java role" "cv.pdf"
  = error_result "cannot convert float infinity to integer" ["java"] "cv.pdf".
Proof. vm_compute. reflexivity. Qed.

(** ** Screening: empty inputs *)

(** C5, as stated, fails: with an empty keyword list, or with an empty
    resume text, the run is adjudicated as usual and may come out
    Shortlisted. *)
Lemma empty_input_is_adjudicated :
  r_decision
    (@screen Demo.nlp_words Demo.loads_table (Demo.model_answering Demo.text_shortlisted)
       [] "Java developer" "Java role" "cv.pdf") = JStr "Shortlisted"
  /\ r_decision
       (@screen Demo.nlp_words Demo.loads_table (Demo.model_answering Demo.text_shortlisted)
          ["java"] EmptyString "Java role" "cv.pdf") = JStr "Shortlisted".
Proof. split; vm_compute; reflexivity. Qed.

(** C5, amended.  An empty keyword list or an empty resume text is not
    treated as an input error: [screen] runs both stages as for any input.
    With an empty keyword list the matcher returns no match and the FAIL
    verdict whenever the resume is normalized without fault; with an empty
    resume text, a matcher that returns has found no keyword and says FAIL
    whenever the pipeline yields no token for the empty text.  In either
    case, once the matcher has returned, the model is called exactly once,
    whatever it answers; when its answer is read without fault the record
    carries the decision and the other fields read from that answer, and
    when the call or the reading raises an exception whose message is not
    empty the record is the Error record with that message. *)
Theorem empty_inputs_are_screened `{NLP} `{JSONDecoder} `{Model} (jd fn : string) :
  (forall R,
     is_ok (preprocess_text R) ->
     match_keywords R [] = Ok ([], "FAIL - No keywords matched")
     /\ adjudicated_once [] R jd fn [] "FAIL - No keywords matched")
  /\ (forall K found dec,
        match_keywords EmptyString K = Ok (found, dec) ->
        (nlp EmptyString = Ok [] -> found = [] /\ dec = "FAIL - No keywords matched")
        /\ adjudicated_once K EmptyString jd fn found dec).
Proof.
  split.
  - intros R [pr Hpr].
    assert (Hm : match_keywords R [] = Ok ([], "FAIL - No keywords matched"))
      by (unfold match_keywords; rewrite Hpr; reflexivity).
    split; [exact Hm | now apply screen_run_adjudicated].
  - intros K found dec Hm. split; [| now apply screen_run_adjudicated].
    intros Hdoc.
    apply match_keywords_ok in Hm as (pr & Hpr & Hf & Hdec).
    unfold preprocess_text in Hpr. simpl PyStr.lower in Hpr. rewrite Hdoc in Hpr.
    injection Hpr as <-.
    change (keywords_found EMPTY_PROCESSED_STRING K = Ok found) in Hf.
    apply keywords_found_sentinel in Hf. subst found.
    split; [reflexivity | exact Hdec].
Qed.

Lemma empty_inputs_are_screened_witness :
  @screen Demo.nlp_words Demo.loads_table (Demo.model_answering Demo.text_shortlisted)
    [] "Java developer" "Java role" "cv.pdf"
  = {| r_decision := JStr "Shortlisted"; r_matching_keywords := [];
       r_evaluation_summary := JStr "Good fit";
       r_requirements_met := JList []; r_requirements_missing := JList [];
       r_overall_score := Some 85%Z;
       r_initial_decision := "FAIL - No keywords matched";
       r_total_keywords := 0; r_resume_filename := "cv.pdf" |}
  /\ @match_keywords Demo.nlp_words EmptyString ["java"; "rust"]
     = Ok ([], "FAIL - No keywords matched").
Proof.
  split.
  - destruct (proj1 (@empty_inputs_are_screened Demo.nlp_words Demo.loads_table
                       (Demo.model_answering Demo.text_shortlisted) "Java role" "cv.pdf")
                "Java developer" ltac:(eexists; vm_compute; reflexivity))
      as (_ & _ & Hread & _).
    destruct (Hread (evaluation_update (JStr "Shortlisted") (JStr "Good fit")
                       (JList []) (JList []) (Some 85%Z))
                ltac:(vm_compute; reflexivity))
      as (d & s & met & mis & sc & Hu & Hs).
    injection Hu as <- <- <- <- <-. exact Hs.
  - destruct (@match_keywords Demo.nlp_words EmptyString ["java"; "rust"])
      as [[found dec] | e] eqn:Hm; [| vm_compute in Hm; discriminate Hm].
    destruct (proj1 (proj2 (@empty_inputs_are_screened Demo.nlp_words Demo.loads_table
                              (Demo.model_answering Demo.text_shortlisted)
                              "Java role" "cv.pdf")
                       ["java"; "rust"] found dec Hm) ltac:(reflexivity)) as [-> ->].
    reflexivity.
Defined.

(** ** Screening: failures of the model call *)

Section TransportFailure.
Context `{NLP} `{JSONDecoder} `{Model}.

(** A model call that raises with a non-empty message gives the Error
    record, whose summary is that message. *)
Lemma transport_failure_reported K R jd fn found dec e :
  match_keywords R K = Ok (found, dec) ->
  generate_content (evaluation_prompt (matched_state K R jd found dec)) = Raise e ->
  exn_msg e <> EmptyString ->
  screen K R jd fn = error_result (exn_msg e) K fn
  /\ r_decision (screen K R jd fn) = JStr "Error"
  /\ r_overall_score (screen K R jd fn) = None
  /\ r_evaluation_summary (screen K R jd fn) = JStr (exn_msg e).
Proof.
  intros Hm Hg Hne.
  assert (Hs : screen K R jd fn = error_result (exn_msg e) K fn).
  { unfold screen.
    rewrite (screen_run_evaluation_error K R jd fn found dec (exn_msg e) Hm).
    - destruct (exn_msg e); [contradiction | reflexivity].
    - unfold evaluate_candidate_node. simpl error_set. cbv iota. now rewrite Hg. }
  rewrite Hs. repeat split; reflexivity.
Qed.

End TransportFailure.

(** C6 at a failing input: the model call raises an exception whose message
    is empty.  The node stores the empty message under [error], [screen]
    takes the empty string for "no error", and the result is assembled from
    the untouched state: the decision and the summary are empty strings, not
    an Error record. *)
Theorem transport_failure_with_empty_message :
  @screen_run Demo.nlp_words Demo.loads_table (Demo.model_raising (Exn OtherException EmptyString))
    ["java"] "Java developer" "Java role" "cv.pdf"
  = ({| r_decision := JStr EmptyString; r_matching_keywords := ["java"];
        r_evaluation_summary := JStr EmptyString;
        r_requirements_met := JList []; r_requirements_missing := JList [];
        r_overall_score := None;
        r_initial_decision := "STRONG - High keyword match rate";
        r_total_keywords := 1; r_resume_filename := "cv.pdf" |},
     [{| prompt_total_keywords := 1; prompt_matching_keywords := ["java"];
         prompt_initial_decision := "STRONG - High keyword match rate";
         prompt_resume_text := "Java developer";
         prompt_job_description_text := "Java role" |}]).
Proof. vm_compute. reflexivity. Qed.

(** ** Pipeline: short-circuit on error *)

Section ErrorPath.
Context `{NLP} `{JSONDecoder} `{Model}.

Lemma match_stage_raise K R jd e :
  match_keywords R K = Raise e ->
  match_keywords_node (initial_state_of K R jd) = [Set_error (exn_msg e)].
Proof. intros Hm. unfold match_keywords_node. simpl. now rewrite Hm. Qed.

Lemma screen_run_error_set K R jd fn :
  error_set (fst (graph_invoke (initial_state_of K R jd))) = true ->
  screen K R jd fn
  = error_result (error (fst (graph_invoke (initial_state_of K R jd)))) K fn.
Proof.
  intros He. unfold screen, screen_run.
  destruct (graph_invoke (initial_state_of K R jd)) as [final calls].
  simpl in He |- *. now rewrite He.
Qed.

End ErrorPath.

(** An error message that is set (the [error] string is not empty) stops
    the work: both nodes return the empty dict and the evaluation node sends
    no prompt to the model; a failure of the matcher makes its node return
    the [error] entry alone, and when the message is not empty the whole run
    calls the model zero times; and whenever the error message is set in the
    final state, [screen] returns the Error record, with empty keyword and
    requirement lists and a null score. *)
Lemma error_stops_the_pipeline `{NLP} `{JSONDecoder} `{Model} :
  (forall state, error_set state = true ->
     match_keywords_node state = []
     /\ evaluate_candidate_node state = ([], []))
  /\ (forall state e, error_set state = false ->
        match_keywords (resume_text state) (all_keywords state) = Raise e ->
        match_keywords_node state = [Set_error (exn_msg e)])
  /\ (forall K R jd fn e,
        match_keywords R K = Raise e -> exn_msg e <> EmptyString ->
        screen_run K R jd fn = (error_result (exn_msg e) K fn, []))
  /\ (forall K R jd fn,
        error_set (fst (graph_invoke (initial_state_of K R jd))) = true ->
        r_decision (screen K R jd fn) = JStr "Error"
        /\ r_matching_keywords (screen K R jd fn) = []
        /\ r_requirements_met (screen K R jd fn) = JList []
        /\ r_requirements_missing (screen K R jd fn) = JList []
        /\ r_overall_score (screen K R jd fn) = None
        /\ r_initial_decision (screen K R jd fn) = "ERROR").
Proof.
  split; [| split; [| split]].
  - intros state He. unfold match_keywords_node, evaluate_candidate_node.
    now rewrite He.
  - intros state e He Hm. unfold match_keywords_node. now rewrite He, Hm.
  - intros K R jd fn e Hm Hne. unfold screen_run, graph_invoke.
    rewrite (match_stage_raise K R jd e Hm).
    unfold evaluate_candidate_node, error_set. simpl.
    destruct (exn_msg e) as [|c msg]; [contradiction | reflexivity].
  - intros K R jd fn He. rewrite (screen_run_error_set K R jd fn He).
    repeat split; reflexivity.
Qed.

Lemma error_stops_the_pipeline_witness :
  @screen_run (Demo.nlp_raising (Exn OtherException "pipeline not loaded"))
    Demo.loads_table (Demo.model_answering Demo.text_shortlisted)
    ["java"] "Java developer" "Java role" "cv.pdf"
  = ({| r_decision := JStr "Error"; r_matching_keywords := [];
        r_evaluation_summary := JStr "pipeline not loaded";
        r_requirements_met := JList []; r_requirements_missing := JList [];
        r_overall_score := None; r_initial_decision := "ERROR";
        r_total_keywords := 1; r_resume_filename := "cv.pdf" |}, []).
Proof.
  refine (proj1 (proj2 (proj2 (@error_stops_the_pipeline
            (Demo.nlp_raising (Exn OtherException "pipeline not loaded"))
            Demo.loads_table (Demo.model_answering Demo.text_shortlisted))))
            ["java"] "Java developer" "Java role" "cv.pdf"
            (Exn OtherException "pipeline not loaded") _ _).
  - vm_compute. reflexivity.
  - simpl. discriminate.
Defined.

(** C9 at a failing input: the pipeline raises an exception whose message
    is empty.  The matcher node stores the empty message under [error] and
    publishes nothing else, but the evaluation node tests the message by its
    truth value, takes the empty string for "no error" and calls the model;
    [screen] does the same, and the run comes out with the model's decision,
    no matched keyword and an empty initial decision instead of the Error
    record. *)
Theorem matcher_failure_with_empty_message :
  @match_keywords_node (Demo.nlp_raising (Exn OtherException EmptyString))
    (initial_state_of ["java"] "Java developer" "Java role")
  = [Set_error EmptyString]
  /\ @screen_run (Demo.nlp_raising (Exn OtherException EmptyString)) Demo.loads_table
       (Demo.model_answering Demo.text_shortlisted)
       ["java"] "Java developer" "Java role" "cv.pdf"
     = ({| r_decision := JStr "Shortlisted"; r_matching_keywords := [];
           r_evaluation_summary := JStr "Good fit";
           r_requirements_met := JList []; r_requirements_missing := JList [];
           r_overall_score := Some 85%Z;
           r_initial_decision := EmptyString;
           r_total_keywords := 1; r_resume_filename := "cv.pdf" |},
        [{| prompt_total_keywords := 1; prompt_matching_keywords := [];
            prompt_initial_decision := EmptyString;
            prompt_resume_text := "Java developer";
            prompt_job_description_text := "Java role" |}]).
Proof. split; vm_compute; reflexivity. Qed.

(** ** Pipeline: what each stage writes *)

(** Checks a concrete list of keys against a list of allowed keys. *)
Ltac keys_in :=
  repeat first [apply List.Forall_nil | apply List.Forall_cons; [simpl; auto 10 |]].

Section Frame.
Context `{NLP} `{JSONDecoder} `{Model}.

Lemma match_keywords_node_keys state :
  Forall (fun k => In k (matcher_keys ++ [K_error])) (keys (match_keywords_node state)).
Proof.
  unfold match_keywords_node.
  destruct (error_set state); [constructor |].
  destruct (match_keywords _ _) as [[found dec] | e]; simpl; keys_in.
Qed.

Lemma evaluate_candidate_node_keys state :
  Forall (fun k => In k (evaluator_keys ++ [K_error]))
    (keys (fst (evaluate_candidate_node state))).
Proof.
  unfold evaluate_candidate_node.
  destruct (error_set state); [constructor |]. simpl fst.
  destruct (generate_content _) as [text | e]; simpl bind; [| keys_in].
  destruct (read_evaluation text) as [u | e] eqn:Hr; [| keys_in].
  apply read_evaluation_shape in Hr as (d & s & met & mis & sc & ->).
  keys_in.
Qed.

Lemma keys_disjoint (allowed avoided : list state_key) (ks : list state_key) :
  Forall (fun k => In k allowed) ks ->
  (forall k, In k allowed -> ~ In k avoided) ->
  Forall (fun k => ~ In k avoided) ks.
Proof. intros Hk Hd. eapply Forall_impl; [exact Hk | exact Hd]. Qed.

End Frame.

(** C10. Each node's dict has only that node's keys ([matching_keywords]
    and [initial_decision] for the matcher, the five evaluation fields for
    the evaluator, and [error] for either); so neither stage changes the
    three input fields, the evaluation stage leaves [matching_keywords] and
    [initial_decision] as the matcher stage left them, the final state of a
    run still holds the run's inputs, and the result assembled from the final
    state reports the matcher's two fields unchanged. *)
Theorem stages_write_only_their_fields `{NLP} `{JSONDecoder} `{Model}
    (state : ResumeScreeningState) (K : list string) (R jd fn : string) :
  Forall (fun k => In k (matcher_keys ++ [K_error])) (keys (match_keywords_node state))
  /\ Forall (fun k => In k (evaluator_keys ++ [K_error]))
       (keys (fst (evaluate_candidate_node state)))
  /\ inputs_of (apply_update state (match_keywords_node state)) = inputs_of state
  /\ inputs_of (apply_update state (fst (evaluate_candidate_node state))) = inputs_of state
  /\ matcher_outputs (apply_update state (fst (evaluate_candidate_node state)))
     = matcher_outputs state
  /\ (let state0 := initial_state_of K R jd in
      let state1 := apply_update state0 (match_keywords_node state0) in
      let final_state := fst (graph_invoke state0) in
      inputs_of final_state = (K, R, jd)
      /\ matcher_outputs final_state = matcher_outputs state1
      /\ r_matching_keywords (result_of_state final_state fn) = matching_keywords state1
      /\ r_initial_decision (result_of_state final_state fn) = initial_decision state1
      /\ r_total_keywords (result_of_state final_state fn) = length K).
Proof.
  pose proof match_keywords_node_keys as Hmk.
  pose proof evaluate_candidate_node_keys as Hek.
  assert (Hm_in : forall s, Forall (fun k => ~ In k input_keys) (keys (match_keywords_node s))).
  { intros s. eapply keys_disjoint; [apply Hmk |].
    intros k Hk Hi. simpl in Hk, Hi.
    repeat (destruct Hk as [<- | Hk]; [repeat (destruct Hi as [Hi | Hi]; try discriminate Hi); auto |]).
    exact Hk. }
  assert (He_in : forall s, Forall (fun k => ~ In k input_keys)
                              (keys (fst (evaluate_candidate_node s)))).
  { intros s. eapply keys_disjoint; [apply Hek |].
    intros k Hk Hi. simpl in Hk, Hi.
    repeat (destruct Hk as [<- | Hk]; [repeat (destruct Hi as [Hi | Hi]; try discriminate Hi); auto |]).
    exact Hk. }
  assert (He_mk : forall s, Forall (fun k => ~ In k matcher_keys)
                              (keys (fst (evaluate_candidate_node s)))).
  { intros s. eapply keys_disjoint; [apply Hek |].
    intros k Hk Hi. simpl in Hk, Hi.
    repeat (destruct Hk as [<- | Hk]; [repeat (destruct Hi as [Hi | Hi]; try discriminate Hi); auto |]).
    exact Hk. }
  split; [apply Hmk |]. split; [apply Hek |].
  split; [apply apply_update_inputs, Hm_in |].
  split; [apply apply_update_inputs, He_in |].
  split; [apply apply_update_matcher_outputs, He_mk |].
  cbv zeta. unfold graph_invoke.
  set (state0 := initial_state_of K R jd).
  set (state1 := apply_update state0 (match_keywords_node state0)).
  pose proof (He_in state1) as Hin. pose proof (He_mk state1) as Hmo.
  destruct (evaluate_candidate_node state1) as [u calls]. simpl fst in *.
  assert (Hi : inputs_of (apply_update state1 u) = (K, R, jd)).
  { rewrite apply_update_inputs by exact Hin.
    subst state1. rewrite apply_update_inputs by apply Hm_in. reflexivity. }
  assert (Ho : matcher_outputs (apply_update state1 u) = matcher_outputs state1)
    by (apply apply_update_matcher_outputs; exact Hmo).
  split; [exact Hi |]. split; [exact Ho |].
  unfold matcher_outputs in Ho. injection Ho as Ho1 Ho2.
  unfold inputs_of in Hi. injection Hi as Hi1 Hi2 Hi3.
  simpl. now rewrite Ho1, Ho2, Hi1.
Qed.

(** * Further properties of the code *)

(** ** Keyword matcher: composition, case, processed forms *)

Section MatcherMore.
Context `{NLP}.

Lemma keywords_found_app pr K1 K2 f1 f2 :
  keywords_found pr K1 = Ok f1 -> keywords_found pr K2 = Ok f2 ->
  keywords_found pr (K1 ++ K2)%list = Ok (f1 ++ f2)%list.
Proof.
  revert f1. induction K1 as [|kw K1 IH]; intros f1 H1 H2.
  - injection H1 as <-. exact H2.
  - simpl in H1 |- *.
    apply bind_ok in H1 as (p & Hp & H1). apply bind_ok in H1 as (f & Hf & H1).
    injection H1 as <-. rewrite Hp. simpl. rewrite (IH f Hf H2). simpl.
    destruct (skipped p); [reflexivity |].
    destruct (PyStr.search_word p pr); reflexivity.
Qed.

Lemma is_space_lower_char c : PyStr.is_space (PyStr.lower_char c) = PyStr.is_space c.
Proof. destruct c as [[] [] [] [] [] [] [] []]; reflexivity. Qed.

Lemma lower_char_idem c : PyStr.lower_char (PyStr.lower_char c) = PyStr.lower_char c.
Proof. destruct c as [[] [] [] [] [] [] [] []]; reflexivity. Qed.

Lemma lower_idem s : PyStr.lower (PyStr.lower s) = PyStr.lower s.
Proof. induction s as [|c r IH]; simpl; [reflexivity | now rewrite lower_char_idem, IH]. Qed.

Lemma lower_snoc cur c :
  PyStr.lower (cur ++ String c EmptyString) = PyStr.lower cur ++ String (PyStr.lower_char c) EmptyString.
Proof.
  induction cur as [|a cur IH]; [reflexivity |].
  change (String (PyStr.lower_char a) (PyStr.lower (cur ++ String c EmptyString))
          = String (PyStr.lower_char a) (PyStr.lower cur ++ String (PyStr.lower_char c) EmptyString)).
  now rewrite IH.
Qed.

Lemma is_empty_lower s : PyStr.is_empty (PyStr.lower s) = PyStr.is_empty s.
Proof. destruct s; reflexivity. Qed.

(** Lowercasing commutes with splitting at whitespace. *)
Lemma split_from_lower s cur :
  PyStr.split_from (PyStr.lower cur) (PyStr.lower s) = map PyStr.lower (PyStr.split_from cur s).
Proof.
  revert cur. induction s as [|c r IH]; intros cur; simpl.
  - rewrite is_empty_lower. destruct (PyStr.is_empty cur); reflexivity.
  - rewrite is_space_lower_char. destruct (PyStr.is_space c).
    + rewrite is_empty_lower. change EmptyString with (PyStr.lower EmptyString) at 1 2.
      rewrite IH. destruct (PyStr.is_empty cur); reflexivity.
    + rewrite <- lower_snoc. apply IH.
Qed.

Lemma split_lower s : PyStr.split (PyStr.lower s) = map PyStr.lower (PyStr.split s).
Proof. apply (split_from_lower s EmptyString). Qed.

Lemma preprocess_text_lower text : preprocess_text (PyStr.lower text) = preprocess_text text.
Proof. unfold preprocess_text. now rewrite lower_idem. Qed.

Lemma processed_keyword_lower kw : processed_keyword (PyStr.lower kw) = processed_keyword kw.
Proof.
  unfold processed_keyword.
  rewrite split_lower, length_map, preprocess_text_lower, lower_idem. reflexivity.
Qed.

Lemma keywords_found_lower pr K :
  keywords_found pr (map PyStr.lower K)
  = match keywords_found pr K with
    | Ok found => Ok (map PyStr.lower found)
    | Raise e => Raise e
    end.
Proof.
  induction K as [|kw K IH]; [reflexivity |].
  simpl. rewrite processed_keyword_lower.
  destruct (processed_keyword kw) as [p | e]; [| reflexivity]. simpl.
  rewrite IH. destruct (keywords_found pr K) as [f | e]; [| reflexivity]. simpl.
  destruct (skipped p); [reflexivity |].
  destruct (PyStr.search_word p pr); reflexivity.
Qed.

Lemma rstrip_by_idem sp s : PyStr.rstrip_by sp (PyStr.rstrip_by sp s) = PyStr.rstrip_by sp s.
Proof.
  induction s as [|c r IH]; [reflexivity |]. simpl.
  destruct (sp c && PyStr.is_empty (PyStr.rstrip_by sp r)) eqn:Hc; [reflexivity |].
  simpl. rewrite IH, Hc. reflexivity.
Qed.

Lemma lstrip_by_head sp s :
  PyStr.lstrip_by sp s = EmptyString
  \/ exists c r, PyStr.lstrip_by sp s = String c r /\ sp c = false.
Proof.
  induction s as [|c r IH]; simpl; [now left |].
  destruct (sp c) eqn:Hc; [exact IH | right; now exists c, r].
Qed.

Lemma strip_by_idem sp s : PyStr.strip_by sp (PyStr.strip_by sp s) = PyStr.strip_by sp s.
Proof.
  unfold PyStr.strip_by.
  destruct (lstrip_by_head sp s) as [-> | (c & r & -> & Hc)]; [reflexivity |].
  simpl. rewrite Hc. simpl. rewrite Hc. simpl. rewrite Hc. simpl.
  now rewrite rstrip_by_idem.
Qed.

(** The stripped form of a string is empty or begins with a character
    outside the stripped class. *)
Lemma strip_by_head sp s :
  PyStr.strip_by sp s = EmptyString
  \/ exists c r, PyStr.strip_by sp s = String c r /\ sp c = false.
Proof.
  unfold PyStr.strip_by.
  destruct (lstrip_by_head sp s) as [-> | (c & r & -> & Hc)]; [now left |].
  right. simpl. rewrite Hc. simpl. now eexists _, _.
Qed.

End MatcherMore.

(** X1. Matching composes over concatenated keyword lists: the keywords
    matched in [K1 ++ K2] are those matched in [K1] followed by those matched
    in [K2] (a keyword listed twice is counted twice), and the verdict is the
    one of the summed counts. *)
Theorem match_keywords_app `{NLP} (R : string) (K1 K2 f1 f2 : list string) (d1 d2 : string) :
  match_keywords R K1 = Ok (f1, d1) ->
  match_keywords R K2 = Ok (f2, d2) ->
  match_keywords R (K1 ++ K2)%list
  = Ok ((f1 ++ f2)%list,
        initial_decision_of (length f1 + length f2) (length K1 + length K2)).
Proof.
  intros H1 H2.
  apply match_keywords_ok in H1 as (pr & Hpr & Hf1 & _).
  apply match_keywords_ok in H2 as (pr' & Hpr' & Hf2 & _).
  rewrite Hpr in Hpr'. injection Hpr' as <-.
  unfold match_keywords. rewrite Hpr. simpl.
  rewrite (keywords_found_app pr K1 K2 f1 f2 Hf1 Hf2). simpl.
  now rewrite !length_app.
Qed.

Lemma match_keywords_app_witness :
  @match_keywords Demo.nlp_words "Ran the tests in Java" (["java"; "rust"] ++ ["java"; "running tests"])%list
  = Ok (["java"; "java"; "running tests"], "STRONG - High keyword match rate").
Proof.
  rewrite (@match_keywords_app Demo.nlp_words "Ran the tests in Java"
             ["java"; "rust"] ["java"; "running tests"] ["java"] ["java"; "running tests"]
             "MODERATE - Moderate keyword match rate" "STRONG - High keyword match rate");
    vm_compute; reflexivity.
Defined.

(** X2. Matching ignores letter case on both sides: lowercasing the resume
    and every keyword changes neither the outcome nor the verdict, and the
    matched keywords are the same ones, lowercased. *)
Theorem match_keywords_ignores_case `{NLP} (R : string) (K : list string) :
  match_keywords (PyStr.lower R) (map PyStr.lower K)
  = match match_keywords R K with
    | Ok (found, dec) => Ok (map PyStr.lower found, dec)
    | Raise e => Raise e
    end.
Proof.
  unfold match_keywords. rewrite preprocess_text_lower.
  destruct (preprocess_text R) as [pr | e]; [| reflexivity]. simpl.
  rewrite keywords_found_lower.
  destruct (keywords_found pr K) as [f | e]; [| reflexivity]. simpl.
  now rewrite !length_map.
Qed.

(** X3. Processed forms are trimmed and the processed text is never empty:
    what [preprocess_text] returns is not the empty string and has no
    leading or trailing whitespace, and the processed form of a keyword has
    none either. *)
Theorem processed_forms_are_trimmed `{NLP} (text p : string) :
  (preprocess_text text = Ok p -> p <> EmptyString /\ PyStr.strip p = p)
  /\ (processed_keyword text = Ok p -> PyStr.strip p = p).
Proof.
  assert (Hpre : forall t q, preprocess_text t = Ok q -> q <> EmptyString /\ PyStr.strip q = q).
  { intros t q. unfold preprocess_text. intros Hq.
    apply bind_ok in Hq as (doc & _ & Hq). injection Hq as <-.
    destruct (PyStr.is_empty (PyStr.strip (PyStr.join " " (clean_tokens doc)))) eqn:He.
    - split; [discriminate | reflexivity].
    - split; [intros Hz; rewrite Hz in He; discriminate He | apply strip_by_idem]. }
  split; [apply Hpre |].
  unfold processed_keyword. destruct (Nat.ltb _ _).
  - intros Hq. now apply Hpre in Hq.
  - intros Hq. injection Hq as <-. apply strip_by_idem.
Qed.

Lemma processed_forms_are_trimmed_witness :
  PyStr.strip "run test" = "run test" /\ PyStr.strip "oauth2" = "oauth2".
Proof.
  split.
  - apply (proj1 (@processed_forms_are_trimmed Demo.nlp_words "  Running   the TESTS " "run test")).
    vm_compute. reflexivity.
  - apply (proj2 (@processed_forms_are_trimmed Demo.nlp_words " OAuth2 " "oauth2")).
    vm_compute. reflexivity.
Defined.

(** ** Keyword matcher: what the word-bounded search accepts *)

Section SearchFacts.

Lemma get_lt i t c : String.get i t = Some c -> i < String.length t.
Proof.
  revert i. induction t as [|a t IH]; intros i; simpl; [discriminate |].
  destruct i as [|i]; [lia |]. intros Hg. apply IH in Hg. lia.
Qed.

Lemma get_ge i t : String.length t <= i -> String.get i t = None.
Proof.
  revert i. induction t as [|a t IH]; intros i Hl; [reflexivity |].
  destruct i as [|i]; simpl in *; [lia | apply IH; lia].
Qed.

Lemma get_last p :
  p <> EmptyString -> String.get (String.length p - 1) p = last_char p.
Proof.
  induction p as [|a p IH]; [congruence |]. intros _.
  destruct p as [|b p]; [reflexivity |].
  replace (String.length (String a (String b p)) - 1)
    with (S (String.length (String b p) - 1)) by (simpl; lia).
  change (last_char (String a (String b p))) with (last_char (String b p)).
  simpl String.get. apply IH. discriminate.
Qed.

Lemma substring_length_le i n t : String.length (String.substring i n t) <= String.length t - i.
Proof.
  revert i n. induction t as [|a t IH]; intros i n.
  - destruct i, n; simpl; lia.
  - destruct i as [|i].
    + destruct n as [|n]; simpl; [lia |]. specialize (IH 0 n). lia.
    + simpl. apply IH.
Qed.

Lemma substring_full p : String.substring 0 (String.length p) p = p.
Proof. induction p as [|a p IH]; simpl; [reflexivity | now rewrite IH]. Qed.

Lemma xorb_true_negb a b : xorb a b = true <-> a = negb b.
Proof. destruct a, b; simpl; split; congruence. Qed.

(** At an occurrence of [p], the text holds the first and the last
    character of [p] at the two ends. *)
Lemma occurrence_ends p t i :
  p <> EmptyString -> String.substring i (String.length p) t = p ->
  PyStr.word_at t i = is_word_opt (first_char p)
  /\ PyStr.word_at t (i + String.length p - 1) = is_word_opt (last_char p)
  /\ i < String.length t.
Proof.
  intros Hp Hs.
  assert (Hlen : 0 < String.length p) by (destruct p; [congruence | simpl; lia]).
  assert (Hget : forall j, j < String.length p -> String.get (i + j) t = String.get j p).
  { intros j Hj.
    transitivity (String.get j (String.substring i (String.length p) t)); [| now rewrite Hs].
    rewrite String.substring_correct1 by exact Hj. f_equal. lia. }
  assert (H0 : String.get i t = first_char p).
  { replace i with (i + 0) by lia. rewrite (Hget 0 Hlen). destruct p; reflexivity. }
  assert (H1 : String.get (i + String.length p - 1) t = last_char p).
  { replace (i + String.length p - 1) with (i + (String.length p - 1)) by lia.
    rewrite Hget by lia. now apply get_last. }
  unfold PyStr.word_at. rewrite H0, H1. repeat split.
  destruct p as [|c p]; [congruence |]. simpl in H0. now apply get_lt in H0.
Qed.

(** The search succeeds exactly when [p] occurs somewhere with, on each
    side, a neighbour of the kind opposite to the end of [p] it touches. *)
Lemma search_word_iff p t :
  p <> EmptyString ->
  PyStr.search_word p t = true <->
  exists i, String.substring i (String.length p) t = p
            /\ word_before t i = negb (is_word_opt (first_char p))
            /\ PyStr.word_at t (i + String.length p) = negb (is_word_opt (last_char p)).
Proof.
  intros Hp.
  assert (Hlen : 0 < String.length p) by (destruct p; [congruence | simpl; lia]).
  assert (Hb : forall i, String.substring i (String.length p) t = p ->
             PyStr.boundary t i = true /\ PyStr.boundary t (i + String.length p) = true
             <-> word_before t i = negb (is_word_opt (first_char p))
                 /\ PyStr.word_at t (i + String.length p) = negb (is_word_opt (last_char p))).
  { intros i Hs. destruct (occurrence_ends p t i Hp Hs) as (H0 & H1 & _).
    unfold PyStr.boundary. fold (word_before t i).
    replace (i + String.length p) with (S (i + String.length p - 1)) at 1 by lia.
    rewrite H0, H1. rewrite !xorb_true_negb.
    split; intros [Ha Hc]; split; try exact Ha.
    - rewrite Hc. now rewrite negb_involutive.
    - rewrite Hc. now rewrite negb_involutive. }
  unfold PyStr.search_word. rewrite existsb_exists. split.
  - intros (i & _ & Hm). unfold PyStr.match_at in Hm.
    apply andb_prop in Hm as [Hm Hb2]. apply andb_prop in Hm as [Hb1 He].
    apply String.eqb_eq in He. exists i. split; [exact He |].
    now apply (Hb i He).
  - intros (i & Hs & Hn). exists i. split.
    + apply in_seq. destruct (occurrence_ends p t i Hp Hs) as (_ & _ & Hi). lia.
    + unfold PyStr.match_at. apply (Hb i Hs) in Hn as [Hb1 Hb2].
      rewrite Hb1, Hb2, Hs, String.eqb_refl. reflexivity.
Qed.

End SearchFacts.

(** X4. A hit is a whole-word occurrence only for a keyword that begins and
    ends with a word character: then the characters next to the occurrence
    are not word characters.  For a keyword that begins with another
    character (such as [.net]) the pattern asks for the opposite: every
    occurrence that counts is preceded by a word character, so the keyword is
    never found at the start of the text or after a space. *)
Theorem search_word_neighbours (p t : string) :
  p <> EmptyString ->
  PyStr.search_word p t = true ->
  exists i, String.substring i (String.length p) t = p
    /\ (is_word_opt (first_char p) = true -> word_before t i = false)
    /\ (is_word_opt (last_char p) = true -> PyStr.word_at t (i + String.length p) = false)
    /\ (is_word_opt (first_char p) = false -> exists j, i = S j /\ PyStr.word_at t j = true)
    /\ (is_word_opt (last_char p) = false -> PyStr.word_at t (i + String.length p) = true).
Proof.
  intros Hp Hs. apply (search_word_iff p t Hp) in Hs as (i & Hsub & Hb & Ha).
  exists i. split; [exact Hsub |].
  split; [intros Hf; now rewrite Hb, Hf |].
  split; [intros Hl; now rewrite Ha, Hl |].
  split; [| intros Hl; now rewrite Ha, Hl].
  intros Hf. rewrite Hf in Hb. simpl in Hb.
  destruct i as [|j]; [discriminate Hb | now exists j].
Qed.

Lemma search_word_neighbours_witness :
  exists i, String.substring i 4 "asp.net core" = ".net"
            /\ exists j, i = S j /\ PyStr.word_at "asp.net core" j = true.
Proof.
  destruct (search_word_neighbours ".net" "asp.net core" ltac:(discriminate) eq_refl)
    as (i & Hs & _ & _ & Hj & _).
  exists i. split; [exact Hs | apply Hj; reflexivity].
Defined.

(** X5. A keyword whose processed form is the whole processed text is found
    exactly when it begins and ends with a word character: forms such as
    [c++] or [.net] are not found in a text that consists of them alone. *)
Theorem search_word_self (p : string) :
  p <> EmptyString ->
  PyStr.search_word p p = true
  <-> is_word_opt (first_char p) = true /\ is_word_opt (last_char p) = true.
Proof.
  intros Hp.
  assert (Hlen : 0 < String.length p) by (destruct p; [congruence | simpl; lia]).
  assert (Hend : PyStr.word_at p (String.length p) = false)
    by (unfold PyStr.word_at; now rewrite get_ge).
  rewrite (search_word_iff p p Hp). split.
  - intros (i & Hs & Hb & Ha).
    assert (Hi : i = 0).
    { pose proof (substring_length_le i (String.length p) p) as Hl.
      rewrite Hs in Hl. lia. }
    subst i. simpl in Hb, Ha. rewrite Hend in Ha.
    split; [now destruct (is_word_opt (first_char p)) | now destruct (is_word_opt (last_char p))].
  - intros [Hf Hl]. exists 0. rewrite substring_full. simpl.
    rewrite Hend, Hf, Hl. auto.
Qed.

Lemma search_word_self_witness :
  PyStr.search_word "oauth2" "oauth2" = true.
Proof.
  apply (proj2 (search_word_self "oauth2" ltac:(discriminate))). split; reflexivity.
Defined.

(** ** Keyword matcher: the verdict as a function of the counts *)

(** The chain of float tests, on integers. *)
Lemma initial_decision_of_exact (found total : nat) :
  0 < found -> found <= total -> (Z.of_nat total <= 2 ^ 50)%Z ->
  initial_decision_of found total
  = if (10 * Z.of_nat found <? 3 * Z.of_nat total)%Z then verdict_string WEAK
    else if (3 * Z.of_nat total <=? 5 * Z.of_nat found)%Z then verdict_string STRONG
    else verdict_string MODERATE.
Proof.
  intros Hf Hle Hb. unfold initial_decision_of.
  destruct found as [|m]; [lia |]. simpl Nat.eqb. cbv iota.
  rewrite lt_three_tenths, ge_six_tenths by lia. reflexivity.
Qed.

(** X6. More matches never lower the verdict: for a keyword list of at most
    2^50 entries, the verdicts for [m <= m'] matches are verdicts of ranks in
    the same order, and matching every keyword of a non-empty list gives
    STRONG. *)
Theorem verdict_grows_with_matches (m m' n : nat) :
  m <= m' -> m' <= n -> (Z.of_nat n <= 2 ^ 50)%Z ->
  (exists v v', initial_decision_of m n = verdict_string v
                /\ initial_decision_of m' n = verdict_string v'
                /\ verdict_rank v <= verdict_rank v')
  /\ (0 < n -> initial_decision_of n n = verdict_string STRONG).
Proof.
  intros Hm Hn Hb. split.
  - destruct m as [|m].
    + exists FAIL. destruct m' as [|m'].
      * exists FAIL. repeat split. simpl. lia.
      * rewrite (initial_decision_of_exact (S m') n) by lia.
        destruct (_ <? _)%Z; [exists WEAK | destruct (_ <=? _)%Z; [exists STRONG | exists MODERATE]];
          repeat split; simpl; lia.
    + rewrite (initial_decision_of_exact (S m) n), (initial_decision_of_exact m' n) by lia.
      destruct (Z.ltb_spec (10 * Z.of_nat (S m)) (3 * Z.of_nat n));
        destruct (Z.ltb_spec (10 * Z.of_nat m') (3 * Z.of_nat n));
        destruct (Z.leb_spec (3 * Z.of_nat n) (5 * Z.of_nat (S m)));
        destruct (Z.leb_spec (3 * Z.of_nat n) (5 * Z.of_nat m'));
        try lia;
        first [ exists WEAK, WEAK; repeat split; simpl; lia
              | exists WEAK, MODERATE; repeat split; simpl; lia
              | exists WEAK, STRONG; repeat split; simpl; lia
              | exists MODERATE, MODERATE; repeat split; simpl; lia
              | exists MODERATE, STRONG; repeat split; simpl; lia
              | exists STRONG, STRONG; repeat split; simpl; lia ].
  - intros Hpos. rewrite (initial_decision_of_exact n n) by lia.
    destruct (Z.ltb_spec (10 * Z.of_nat n) (3 * Z.of_nat n)); [lia |].
    destruct (Z.leb_spec (3 * Z.of_nat n) (5 * Z.of_nat n)); [reflexivity | lia].
Qed.

Lemma verdict_grows_with_matches_witness :
  initial_decision_of 7 7 = verdict_string STRONG.
Proof.
  apply (proj2 (verdict_grows_with_matches 2 5 7 ltac:(lia) ltac:(lia)
                  ltac:(vm_compute; discriminate))). lia.
Defined.

(** ** Screener: what every run reports *)

Section RunFacts.
Context `{NLP} `{JSONDecoder} `{Model}.

Lemma match_node_keeps_inputs s :
  Forall (fun k => ~ In k input_keys) (keys (match_keywords_node s)).
Proof.
  eapply keys_disjoint; [apply match_keywords_node_keys |].
  intros k Hk Hi. simpl in Hk, Hi. intuition (subst; discriminate).
Qed.

Lemma evaluate_node_keeps_inputs s :
  Forall (fun k => ~ In k input_keys) (keys (fst (evaluate_candidate_node s))).
Proof.
  eapply keys_disjoint; [apply evaluate_candidate_node_keys |].
  intros k Hk Hi. simpl in Hk, Hi. intuition (subst; discriminate).
Qed.

Lemma evaluate_node_keeps_matcher_outputs s :
  Forall (fun k => ~ In k matcher_keys) (keys (fst (evaluate_candidate_node s))).
Proof.
  eapply keys_disjoint; [apply evaluate_candidate_node_keys |].
  intros k Hk Hi. simpl in Hk, Hi. intuition (subst; discriminate).
Qed.

Lemma graph_invoke_inputs K R jd :
  inputs_of (fst (graph_invoke (initial_state_of K R jd))) = (K, R, jd).
Proof.
  unfold graph_invoke.
  set (state1 := apply_update _ (match_keywords_node _)).
  pose proof (evaluate_node_keeps_inputs state1) as Hin.
  destruct (evaluate_candidate_node state1) as [u calls]. simpl fst in *.
  rewrite apply_update_inputs by exact Hin.
  subst state1. now rewrite apply_update_inputs by apply match_node_keeps_inputs.
Qed.

(** The state after the matcher stage when the matcher raised. *)
Lemma match_stage_failed K R jd e :
  match_keywords R K = Raise e ->
  apply_update (initial_state_of K R jd) (match_keywords_node (initial_state_of K R jd))
  = apply_entry (initial_state_of K R jd) (Set_error (exn_msg e)).
Proof. intros Hm. now rewrite (match_stage_raise K R jd e Hm). Qed.

(** The initial decision a run ends with is one of six strings. *)
Lemma initial_decision_of_cases m n :
  In (initial_decision_of m n)
    [verdict_string FAIL; verdict_string WEAK; verdict_string STRONG; verdict_string MODERATE].
Proof.
  unfold initial_decision_of.
  destruct (Nat.eqb m 0); [simpl; auto |].
  destruct (PyFloat.int_lt _ _); [simpl; auto |].
  destruct (PyFloat.int_ge _ _); simpl; auto.
Qed.

Lemma screen_initial_decision K R jd fn :
  In (r_initial_decision (screen K R jd fn))
    ["ERROR"; EmptyString; verdict_string FAIL; verdict_string WEAK;
     verdict_string STRONG; verdict_string MODERATE].
Proof.
  unfold screen, screen_run, graph_invoke.
  set (s0 := initial_state_of K R jd).
  set (state1 := apply_update s0 (match_keywords_node s0)).
  pose proof (evaluate_node_keeps_matcher_outputs state1) as Hmo.
  destruct (evaluate_candidate_node state1) as [u calls]. simpl fst in *.
  destruct (error_set (apply_update state1 u)); [simpl; auto |].
  simpl. apply apply_update_matcher_outputs with (s := state1) in Hmo.
  unfold matcher_outputs in Hmo. injection Hmo as _ ->.
  subst state1 s0. unfold match_keywords_node. simpl error_set. cbv iota.
  simpl resume_text. simpl all_keywords.
  destruct (match_keywords R K) as [[found dec] | e] eqn:Hm.
  - apply match_keywords_ok in Hm as (_ & _ & _ & ->). simpl.
    right; right. apply initial_decision_of_cases.
  - simpl. auto.
Qed.

End RunFacts.

(** X7. Every result of [screen], the Error record included, reports the
    number of keywords it was given and the file name it was given. *)
Theorem screen_reports_its_inputs `{NLP} `{JSONDecoder} `{Model}
    (K : list string) (R jd fn : string) :
  r_total_keywords (screen K R jd fn) = length K
  /\ r_resume_filename (screen K R jd fn) = fn.
Proof.
  unfold screen, screen_run.
  pose proof (graph_invoke_inputs K R jd) as Hin.
  destruct (graph_invoke (initial_state_of K R jd)) as [final calls]. simpl fst in *.
  destruct (error_set final); simpl; [auto |].
  unfold inputs_of in Hin. injection Hin as -> _ _. auto.
Qed.

(** X8. A run sends at most one prompt to the model; it sends none exactly
    when the matcher raised with a non-empty message; and a prompt that is
    sent carries the run's resume text, job description and keyword count. *)
Theorem model_called_at_most_once `{NLP} `{JSONDecoder} `{Model}
    (K : list string) (R jd fn : string) :
  length (snd (screen_run K R jd fn)) <= 1
  /\ (snd (screen_run K R jd fn) = []
      <-> exists e, match_keywords R K = Raise e /\ exn_msg e <> EmptyString)
  /\ (forall p, In p (snd (screen_run K R jd fn)) ->
        prompt_resume_text p = R /\ prompt_job_description_text p = jd
        /\ prompt_total_keywords p = length K).
Proof.
  unfold screen_run, graph_invoke.
  destruct (match_keywords R K) as [[found dec] | e] eqn:Hm.
  - rewrite (match_stage_ok K R jd found dec Hm).
    unfold evaluate_candidate_node. simpl error_set. cbv iota. simpl snd.
    split; [simpl; lia |]. split.
    + split; [discriminate | intros (e & He & _); discriminate He].
    + intros p [<- | []]. repeat split.
  - rewrite (match_stage_failed K R jd e Hm).
    unfold evaluate_candidate_node, error_set. simpl error.
    destruct (exn_msg e) as [|c msg] eqn:He; simpl.
    + split; [lia |]. split.
      * split; [discriminate |]. intros (e' & He' & Hne). injection He' as <-. congruence.
      * intros p [<- | []]. repeat split.
    + split; [lia |]. split.
      * split; [| reflexivity]. intros _. exists e. rewrite He. split; [reflexivity | discriminate].
      * intros p [].
Qed.

(** ** Screener: runs that end in the Error record *)

Section ErrorRuns.
Context `{NLP} `{JSONDecoder} `{Model}.

(** A run whose evaluation raises [e] with a non-empty message. *)
Lemma screen_run_read_error K R jd fn found dec text e c msg :
  match_keywords R K = Ok (found, dec) ->
  generate_content (evaluation_prompt (matched_state K R jd found dec)) = Ok text ->
  read_evaluation text = Raise e ->
  exn_msg e = String c msg ->
  screen_run K R jd fn
  = (error_result (exn_msg e) K fn, [evaluation_prompt (matched_state K R jd found dec)]).
Proof.
  intros Hm Hg Hr He.
  assert (Hnode : evaluate_candidate_node (matched_state K R jd found dec)
                  = ([Set_error (exn_msg e)], [evaluation_prompt (matched_state K R jd found dec)])).
  { unfold evaluate_candidate_node. simpl error_set. cbv iota.
    rewrite Hg. simpl bind. now rewrite Hr. }
  rewrite (screen_run_evaluation_error K R jd fn found dec (exn_msg e) Hm)
    by (now rewrite Hnode).
  rewrite Hnode, He. reflexivity.
Qed.

End ErrorRuns.

(** X9. When the model call raises an exception whose message is not empty,
    [screen] returns the Error record: decision "Error", null score, and the
    exception's message as the summary. *)
Theorem transport_failure_gives_error_record `{NLP} `{JSONDecoder} `{Model}
    (K : list string) (R jd fn : string) (found : list string) (dec : string) (e : exn) :
  match_keywords R K = Ok (found, dec) ->
  generate_content (evaluation_prompt (matched_state K R jd found dec)) = Raise e ->
  exn_msg e <> EmptyString ->
  screen_run K R jd fn
  = (error_result (exn_msg e) K fn, [evaluation_prompt (matched_state K R jd found dec)]).
Proof.
  intros Hm Hg Hne.
  assert (Hnode : evaluate_candidate_node (matched_state K R jd found dec)
                  = ([Set_error (exn_msg e)], [evaluation_prompt (matched_state K R jd found dec)])).
  { unfold evaluate_candidate_node. simpl error_set. cbv iota. now rewrite Hg. }
  rewrite (screen_run_evaluation_error K R jd fn found dec (exn_msg e) Hm)
    by (now rewrite Hnode).
  rewrite Hnode. destruct (exn_msg e); [contradiction | reflexivity].
Qed.

Lemma transport_failure_gives_error_record_witness :
  @screen Demo.nlp_words Demo.loads_table
    (Demo.model_raising (Exn OtherException "503 service unavailable"))
    ["java"] "Java developer" "Java role" "cv.pdf"
  = error_result "503 service unavailable" ["java"] "cv.pdf".
Proof.
  unfold screen.
  rewrite (@transport_failure_gives_error_record Demo.nlp_words Demo.loads_table
             (Demo.model_raising (Exn OtherException "503 service unavailable"))
             ["java"] "Java developer" "Java role" "cv.pdf"
             ["java"] "STRONG - High keyword match rate"
             (Exn OtherException "503 service unavailable"));
    [reflexivity | vm_compute; reflexivity | reflexivity | discriminate].
Defined.

(** X10. A response that parses as JSON but is not an object (a list, a
    string, a number, [null]) does not reach the fallback: the [.get] call
    raises and the run ends in the Error record, whose summary names the
    type of the value. *)
Theorem non_object_response_gives_error_record `{NLP} `{JSONDecoder} `{Model}
    (K : list string) (R jd fn : string) (found : list string) (dec text : string) (v : json) :
  match_keywords R K = Ok (found, dec) ->
  generate_content (evaluation_prompt (matched_state K R jd found dec)) = Ok text ->
  json_loads text = Ok v ->
  (forall kv, v <> JObj kv) ->
  screen_run K R jd fn
  = (error_result ("'" ++ PyVal.type_name v ++ "' object has no attribute 'get'") K fn,
     [evaluation_prompt (matched_state K R jd found dec)]).
Proof.
  intros Hm Hg Hj Hv.
  apply (screen_run_read_error K R jd fn found dec text
           (Exn AttributeError ("'" ++ PyVal.type_name v ++ "' object has no attribute 'get'"))
           "'" (PyVal.type_name v ++ "' object has no attribute 'get'") Hm Hg);
    [| reflexivity].
  unfold read_evaluation, parse_evaluation. rewrite Hj.
  destruct v; try reflexivity. now elim (Hv kv).
Qed.

Lemma non_object_response_gives_error_record_witness :
  @screen (Demo.nlp_words) (DemoMore.loads_of [("[]", JList [])]) (Demo.model_answering "[]")
    ["java"] "Java developer" "Java role" "cv.pdf"
  = error_result "'list' object has no attribute 'get'" ["java"] "cv.pdf".
Proof.
  unfold screen.
  rewrite (@non_object_response_gives_error_record Demo.nlp_words
             (DemoMore.loads_of [("[]", JList [])]) (Demo.model_answering "[]")
             ["java"] "Java developer" "Java role" "cv.pdf"
             ["java"] "STRONG - High keyword match rate" "[]" (JList []));
    [reflexivity | vm_compute; reflexivity | reflexivity | reflexivity | discriminate].
Defined.

(** X11. A response object whose [criteria_breakdown] is present but is not
    itself an object ends the run in the Error record as well, whatever the
    decision it carries. *)
Theorem bad_criteria_breakdown_gives_error_record `{NLP} `{JSONDecoder} `{Model}
    (K : list string) (R jd fn : string) (found : list string) (dec text : string)
    (kv : list (string * json)) (cb : json) :
  match_keywords R K = Ok (found, dec) ->
  generate_content (evaluation_prompt (matched_state K R jd found dec)) = Ok text ->
  json_loads text = Ok (JObj kv) ->
  PyVal.lookup kv "criteria_breakdown" = Some cb ->
  (forall items, cb <> JObj items) ->
  screen_run K R jd fn
  = (error_result ("'" ++ PyVal.type_name cb ++ "' object has no attribute 'get'") K fn,
     [evaluation_prompt (matched_state K R jd found dec)]).
Proof.
  intros Hm Hg Hj Hc Hv.
  apply (screen_run_read_error K R jd fn found dec text
           (Exn AttributeError ("'" ++ PyVal.type_name cb ++ "' object has no attribute 'get'"))
           "'" (PyVal.type_name cb ++ "' object has no attribute 'get'") Hm Hg);
    [| reflexivity].
  unfold read_evaluation, parse_evaluation. rewrite Hj. cbn [PyVal.get bind].
  unfold PyVal.dict_get. rewrite Hc.
  destruct cb; try reflexivity. now elim (Hv kv0).
Qed.

Lemma bad_criteria_breakdown_gives_error_record_witness :
  @screen (Demo.nlp_words)
    (DemoMore.loads_of [("r", JObj [("decision", JStr "Shortlisted");
                                    ("criteria_breakdown", JStr "all met")])])
    (Demo.model_answering "r")
    ["java"] "Java developer" "Java role" "cv.pdf"
  = error_result "'str' object has no attribute 'get'" ["java"] "cv.pdf".
Proof.
  unfold screen.
  rewrite (@bad_criteria_breakdown_gives_error_record Demo.nlp_words
             (DemoMore.loads_of [("r", JObj [("decision", JStr "Shortlisted");
                                             ("criteria_breakdown", JStr "all met")])])
             (Demo.model_answering "r")
             ["java"] "Java developer" "Java role" "cv.pdf"
             ["java"] "STRONG - High keyword match rate" "r"
             [("decision", JStr "Shortlisted"); ("criteria_breakdown", JStr "all met")]
             (JStr "all met"));
    [reflexivity | vm_compute; reflexivity | reflexivity | reflexivity | reflexivity
     | discriminate].
Defined.

(** X12. An infinite [overall_score] is not coerced to null: [int] raises
    [OverflowError], which the handler of the coercion does not catch, and
    the run ends in the Error record although the rest of the response is
    well formed. *)
Theorem infinite_score_gives_error_record `{NLP} `{JSONDecoder} `{Model}
    (K : list string) (R jd fn : string) (found : list string) (dec text : string)
    (kv cb : list (string * json)) (sign : bool) :
  match_keywords R K = Ok (found, dec) ->
  generate_content (evaluation_prompt (matched_state K R jd found dec)) = Ok text ->
  json_loads text = Ok (JObj kv) ->
  PyVal.dict_get kv "criteria_breakdown" (JObj []) = JObj cb ->
  PyVal.lookup kv "overall_score" = Some (JFloat (S754_infinity sign)) ->
  screen_run K R jd fn
  = (error_result "cannot convert float infinity to integer" K fn,
     [evaluation_prompt (matched_state K R jd found dec)]).
Proof.
  intros Hm Hg Hj Hc Hs.
  apply (screen_run_read_error K R jd fn found dec text
           (Exn OverflowError "cannot convert float infinity to integer")
           "c" "annot convert float infinity to integer" Hm Hg);
    [| reflexivity].
  unfold read_evaluation, parse_evaluation. rewrite Hj. simpl. rewrite Hc. simpl.
  unfold PyVal.dict_get. rewrite Hs. reflexivity.
Qed.

Lemma infinite_score_gives_error_record_witness :
  @screen Demo.nlp_words Demo.loads_table (Demo.model_answering (Demo.text_score "Infinity"))
    ["java"] "Java developer" "Java role" "cv.pdf"
  = error_result "cannot convert float infinity to integer" ["java"] "cv.pdf".
Proof.
  unfold screen.
  rewrite (@infinite_score_gives_error_record Demo.nlp_words Demo.loads_table
             (Demo.model_answering (Demo.text_score "Infinity"))
             ["java"] "Java developer" "Java role" "cv.pdf"
             ["java"] "STRONG - High keyword match rate" (Demo.text_score "Infinity")
             [("decision", JStr "Shortlisted"); ("overall_score", JFloat (S754_infinity false))]
             [] false);
    [reflexivity | vm_compute; reflexivity | reflexivity | vm_compute; reflexivity
     | reflexivity | reflexivity].
Defined.

(** X13. A failure of the matcher whose message is empty does not stop the
    run: the evaluation stage still sends its prompt to the model, with no
    matched keyword and an empty initial decision. *)
Theorem silent_matcher_failure_reaches_the_model `{NLP} `{JSONDecoder} `{Model}
    (K : list string) (R jd fn : string) (e : exn) :
  match_keywords R K = Raise e ->
  exn_msg e = EmptyString ->
  snd (screen_run K R jd fn)
  = [{| prompt_total_keywords := length K; prompt_matching_keywords := [];
        prompt_initial_decision := EmptyString;
        prompt_resume_text := R; prompt_job_description_text := jd |}].
Proof.
  intros Hm He. unfold screen_run, graph_invoke.
  rewrite (match_stage_failed K R jd e Hm), He.
  unfold evaluate_candidate_node. reflexivity.
Qed.

Lemma silent_matcher_failure_reaches_the_model_witness :
  snd (@screen_run (Demo.nlp_raising (Exn OtherException EmptyString)) Demo.loads_table
         (Demo.model_answering Demo.text_shortlisted)
         ["java"] "Java developer" "Java role" "cv.pdf")
  = [{| prompt_total_keywords := 1; prompt_matching_keywords := [];
        prompt_initial_decision := EmptyString;
        prompt_resume_text := "Java developer"; prompt_job_description_text := "Java role" |}].
Proof.
  apply (@silent_matcher_failure_reaches_the_model
           (Demo.nlp_raising (Exn OtherException EmptyString)) Demo.loads_table
           (Demo.model_answering Demo.text_shortlisted)
           ["java"] "Java developer" "Java role" "cv.pdf" (Exn OtherException EmptyString));
    reflexivity.
Defined.

(** ** app.py: the keyword field and the screening guard *)

Section KeywordField.

Lemma has_char_lstrip c sp s : has_char c s = false -> has_char c (PyStr.lstrip_by sp s) = false.
Proof.
  induction s as [|a r IH]; simpl; [auto |]. intros Hs.
  destruct (sp a); [| exact Hs]. apply IH. now apply orb_false_elim in Hs as [_ ?].
Qed.

Lemma has_char_rstrip c sp s : has_char c s = false -> has_char c (PyStr.rstrip_by sp s) = false.
Proof.
  induction s as [|a r IH]; simpl; [auto |]. intros Hs.
  apply orb_false_elim in Hs as [Ha Hr].
  destruct (sp a && PyStr.is_empty (PyStr.rstrip_by sp r)); [reflexivity |].
  simpl. now rewrite Ha, IH.
Qed.

Lemma has_char_strip c s : has_char c s = false -> has_char c (PyStr.strip s) = false.
Proof. intros Hs. now apply has_char_rstrip, has_char_lstrip. Qed.

Lemma has_char_snoc c cur a :
  has_char c (cur ++ String a EmptyString) = has_char c cur || Ascii.eqb a c.
Proof.
  induction cur as [|b cur IH].
  - simpl. now rewrite orb_false_r.
  - change (Ascii.eqb b c || has_char c (cur ++ String a EmptyString)
            = (Ascii.eqb b c || has_char c cur) || Ascii.eqb a c).
    rewrite IH. now rewrite orb_assoc.
Qed.

(** No piece of a split holds the separator. *)
Lemma split_sep_from_pieces sep s cur :
  has_char sep cur = false ->
  Forall (fun piece => has_char sep piece = false) (PySeq.split_sep_from sep cur s).
Proof.
  revert cur. induction s as [|a r IH]; intros cur Hc; simpl.
  - constructor; [exact Hc | constructor].
  - destruct (Ascii.eqb a sep) eqn:Ha.
    + constructor; [exact Hc | now apply IH].
    + apply IH. now rewrite has_char_snoc, Hc, Ha.
Qed.

Lemma append_snoc cur a r : (cur ++ String a EmptyString) ++ r = cur ++ String a r.
Proof.
  induction cur as [|b cur IH]; [reflexivity |].
  change (String b ((cur ++ String a EmptyString) ++ r) = String b (cur ++ String a r)).
  now rewrite IH.
Qed.

(** A string without the separator is a single piece. *)
Lemma split_sep_from_whole sep s cur :
  has_char sep s = false -> PySeq.split_sep_from sep cur s = [cur ++ s].
Proof.
  revert cur. induction s as [|a r IH]; intros cur Hs; simpl.
  - f_equal. induction cur as [|b cur IHc]; [reflexivity |].
    change (String b cur = String b (cur ++ EmptyString)). now rewrite <- IHc.
  - simpl in Hs. apply orb_false_elim in Hs as [Ha Hr].
    rewrite Ha, (IH _ Hr), append_snoc. reflexivity.
Qed.

(** The piece before the first separator, then the pieces of the rest. *)
Lemma split_sep_from_app sep k rest cur :
  has_char sep k = false ->
  PySeq.split_sep_from sep cur (k ++ String sep rest)
  = (cur ++ k) :: PySeq.split_sep_from sep EmptyString rest.
Proof.
  revert cur. induction k as [|a k IH]; intros cur Hk.
  - change (EmptyString ++ String sep rest) with (String sep rest). simpl.
    rewrite Ascii.eqb_refl. f_equal.
    induction cur as [|b cur IHc]; [reflexivity |].
    change (String b cur = String b (cur ++ EmptyString)). now rewrite <- IHc.
  - simpl in Hk. apply orb_false_elim in Hk as [Ha Hk].
    change (String a k ++ String sep rest) with (String a (k ++ String sep rest)).
    simpl. rewrite Ha, (IH _ Hk), append_snoc. reflexivity.
Qed.

(** A string that strips to nothing holds whitespace only: no comma. *)
Lemma lstrip_empty_no_comma s :
  PyStr.lstrip_by PyStr.is_space s = EmptyString -> has_char "," s = false.
Proof.
  induction s as [|a r IH]; simpl; [auto |].
  destruct (PyStr.is_space a) eqn:Ha; [| discriminate].
  intros Hr. rewrite (IH Hr), orb_false_r.
  destruct (Ascii.eqb_spec a ","); [subst a; discriminate Ha | reflexivity].
Qed.

Lemma strip_empty_no_comma s : PyStr.strip s = EmptyString -> has_char "," s = false.
Proof.
  unfold PyStr.strip, PyStr.strip_by. intros Hs. apply lstrip_empty_no_comma.
  destruct (lstrip_by_head PyStr.is_space s) as [-> | (c & r & Hl & Hc)]; [reflexivity |].
  rewrite Hl in Hs. simpl in Hs. rewrite Hc in Hs. discriminate Hs.
Qed.

(** The list comprehension of the block, without the guard around it. *)
Lemma parse_user_keywords_unguarded input :
  parse_user_keywords input
  = map PyStr.strip
      (List.filter (fun kw => negb (PyStr.is_empty (PyStr.strip kw)))
         (PySeq.split_sep "," input)).
Proof.
  unfold parse_user_keywords.
  destruct (PyStr.is_empty (PyStr.strip input)) eqn:He; [| reflexivity].
  simpl. unfold PySeq.split_sep.
  assert (Hs : PyStr.strip input = EmptyString) by (destruct (PyStr.strip input); [reflexivity | discriminate]).
  rewrite (split_sep_from_whole "," input EmptyString (strip_empty_no_comma input Hs)).
  change (EmptyString ++ input) with input. simpl. now rewrite He.
Qed.

Lemma join_cons2 sep k k' r :
  PyStr.join sep (k :: k' :: r) = k ++ sep ++ PyStr.join sep (k' :: r).
Proof. reflexivity. Qed.

Lemma append_assoc_str (a b c : string) : (a ++ b) ++ c = a ++ (b ++ c).
Proof.
  induction a as [|x a IH]; [reflexivity |].
  change (String x ((a ++ b) ++ c) = String x (a ++ (b ++ c))). now rewrite IH.
Qed.

Lemma comprehension_of_joined kws cur :
  kws <> [] -> Forall clean_keyword kws -> cur = EmptyString \/ cur = " " ->
  map PyStr.strip
    (List.filter (fun kw => negb (PyStr.is_empty (PyStr.strip kw)))
       (PySeq.split_sep_from "," cur (PyStr.join ", " kws)))
  = kws.
Proof.
  intros Hne Hk. revert cur. induction Hk as [|k r (Hk1 & Hk2 & Hk3) Hr IH]; [congruence |].
  intros cur Hcur.
  assert (Hstrip : PyStr.strip (cur ++ k) = k).
  { destruct Hcur as [-> | ->]; [exact Hk2 |].
    change (" " ++ k) with (String " " k). exact Hk2. }
  assert (Hnonempty : PyStr.is_empty k = false) by (destruct k; [congruence | reflexivity]).
  destruct r as [|k' r].
  - simpl PyStr.join. rewrite (split_sep_from_whole "," k cur Hk3).
    simpl. rewrite Hstrip, Hnonempty. simpl. now rewrite Hstrip.
  - rewrite join_cons2.
    change (", " ++ PyStr.join ", " (k' :: r)) with (String "," (String " " (PyStr.join ", " (k' :: r)))).
    rewrite (split_sep_from_app "," k _ cur Hk3).
    change (PySeq.split_sep_from "," EmptyString (String " " (PyStr.join ", " (k' :: r))))
      with (PySeq.split_sep_from "," " " (PyStr.join ", " (k' :: r))).
    simpl List.filter. rewrite Hstrip, Hnonempty. simpl.
    rewrite Hstrip. f_equal. apply IH; [discriminate | now right].
Qed.

End KeywordField.

(** X14. The keywords read from the comma-separated field are clean: none
    is empty, none has leading or trailing whitespace, none holds a comma;
    and the guard on a blank field is redundant, the list comprehension alone
    returns the same list. *)
Theorem parse_user_keywords_clean (input : string) :
  Forall clean_keyword (parse_user_keywords input)
  /\ parse_user_keywords input
     = map PyStr.strip
         (List.filter (fun kw => negb (PyStr.is_empty (PyStr.strip kw)))
            (PySeq.split_sep "," input)).
Proof.
  split; [| apply parse_user_keywords_unguarded].
  rewrite parse_user_keywords_unguarded.
  pose proof (split_sep_from_pieces "," input EmptyString eq_refl) as Hp.
  fold (PySeq.split_sep "," input) in Hp.
  induction Hp as [|piece pieces Hpiece _ IH]; [constructor |].
  simpl. destruct (PyStr.is_empty (PyStr.strip piece)) eqn:He; [exact IH |].
  simpl. constructor; [| exact IH].
  split; [intros Hz; rewrite Hz in He; discriminate He |].
  split; [apply strip_by_idem | now apply has_char_strip].
Qed.

(** X15. Writing clean keywords into the field, separated by a comma and a
    space, and reading the field back returns the same keywords. *)
Theorem parse_user_keywords_of_joined (kws : list string) :
  Forall clean_keyword kws ->
  parse_user_keywords (PyStr.join ", " kws) = kws.
Proof.
  intros Hk. rewrite parse_user_keywords_unguarded.
  destruct kws as [|k r]; [reflexivity |].
  apply comprehension_of_joined; [discriminate | exact Hk | now left].
Qed.

Lemma parse_user_keywords_of_joined_witness :
  parse_user_keywords "Python, Machine Learning, 5+ years" = ["Python"; "Machine Learning"; "5+ years"].
Proof.
  apply (parse_user_keywords_of_joined ["Python"; "Machine Learning"; "5+ years"]).
  repeat constructor; discriminate.
Defined.

(** X16. When the screening guard holds, the job description is not
    blank, a file is uploaded, and every keyword list the run can build from
    the two keyword sources (a duplicate-free list of their elements) is not
    empty and no longer than the two sources together. *)
Theorem can_screen_gives_keywords (job_description : string) (uploaded : nat)
    (screener_ready : bool) (ai user all_keywords : list string) :
  can_screen job_description uploaded screener_ready ai user = true ->
  list_of_set (user ++ ai)%list all_keywords ->
  all_keywords <> []
  /\ length all_keywords <= length user + length ai
  /\ PyStr.strip job_description <> EmptyString
  /\ 0 < uploaded /\ screener_ready = true.
Proof.
  unfold can_screen. intros Hc [Hnd Hin].
  apply andb_prop in Hc as [Hc Hk]. apply andb_prop in Hc as [Hc Hr].
  apply andb_prop in Hc as [Hj Hu].
  split; [| split; [| split; [| split]]].
  - intros ->.
    assert (Hex : exists x, In x (user ++ ai)%list).
    { destruct user as [|x user]; [| exists x; now left].
      destruct ai as [|x ai]; [discriminate Hk | exists x; now left]. }
    destruct Hex as [x Hx]. now apply Hin in Hx.
  - rewrite <- length_app. apply NoDup_incl_length; [now apply NoDup_ListNoDup |].
    intros x Hx. now apply Hin.
  - intros Hz. rewrite Hz in Hj. discriminate Hj.
  - destruct uploaded; [discriminate Hu | lia].
  - exact Hr.
Qed.

Lemma can_screen_gives_keywords_witness :
  ["python"; "aws"] <> [] /\ length ["python"; "aws"] <= 2 + 1.
Proof.
  destruct (can_screen_gives_keywords "Backend role" 2 true ["aws"] ["python"; "aws"]
              ["python"; "aws"] eq_refl) as (Hne & Hlen & _).
  - split.
    + apply NoDup_ListNoDup.
      constructor; [simpl; intuition discriminate | constructor; [simpl; tauto | constructor]].
    + intros x. simpl. tauto.
  - split; [exact Hne | exact Hlen].
Defined.

(** ** app.py: the loop over the uploaded files *)

Section Batch.
Context `{NLP} `{JSONDecoder} `{Model} `{Extraction}.

Lemma screen_run_fields K R jd fn :
  r_total_keywords (fst (screen_run K R jd fn)) = length K
  /\ r_resume_filename (fst (screen_run K R jd fn)) = fn
  /\ length (snd (screen_run K R jd fn)) <= 1.
Proof.
  unfold screen_run.
  pose proof (graph_invoke_inputs K R jd) as Hin.
  assert (Hcalls : length (snd (graph_invoke (initial_state_of K R jd))) <= 1).
  { unfold graph_invoke.
    destruct (evaluate_candidate_node _) as [u calls] eqn:He. simpl.
    unfold evaluate_candidate_node in He.
    destruct (error_set _); injection He as _ <-; simpl; lia. }
  destruct (graph_invoke (initial_state_of K R jd)) as [final calls]. simpl fst in *. simpl snd in *.
  split; [| split; [| exact Hcalls]].
  - destruct (error_set final); simpl; [reflexivity |].
    unfold inputs_of in Hin. now injection Hin as -> _ _.
  - destruct (error_set final); reflexivity.
Qed.

(** One turn of the loop. *)
Lemma screen_file_accounts K jd stats f result stats' calls :
  screen_file K jd stats f = (result, stats', calls) ->
  r_resume_filename result = file_name f
  /\ r_total_keywords result = length K
  /\ shortlisted stats' = shortlisted stats + (if is_shortlisted result then 1 else 0)
  /\ total_screened stats <= total_screened stats' <= total_screened stats + 1
  /\ shortlisted stats' + total_screened stats <= total_screened stats' + shortlisted stats
  /\ length calls <= 1.
Proof.
  unfold screen_file. destruct (resume_text_of f) as [text | e].
  - pose proof (screen_run_fields K text jd (file_name f)) as (Ht & Hn & Hc).
    destruct (screen_run K text jd (file_name f)) as [r c]. simpl fst in *. simpl snd in *.
    intros Heq. injection Heq as <- <- <-. unfold is_shortlisted. simpl.
    destruct (PySeq.eq_str (r_decision r) "Shortlisted"); repeat split; auto; lia.
  - intros Heq. injection Heq as <- <- <-. simpl. repeat split; lia.
Qed.





End Batch.

(** X17. The loop over the uploaded files appends one result per file, in
    order, under the file's name and with the keyword count of the batch; the
    shortlisted counter grows by exactly the number of results whose decision
    is "Shortlisted"; the screened counter grows by at most one per file and
    by at least as much as the shortlisted counter; and at most one prompt
    per file is sent to the model. *)
Theorem screen_files_accounts `{NLP} `{JSONDecoder} `{Model} `{Extraction}
    (K : list string) (jd : string) (files : list UploadedFile)
    (stats stats' : ScreeningStats) (results : list ScreeningResult) (calls : list Prompt) :
  screen_files K jd stats files = (results, stats', calls) ->
  map r_resume_filename results = map file_name files
  /\ Forall (fun r => r_total_keywords r = length K) results
  /\ shortlisted stats' = shortlisted stats + shortlisted_count results
  /\ total_screened stats <= total_screened stats' <= total_screened stats + length files
  /\ shortlisted stats' + total_screened stats <= total_screened stats' + shortlisted stats
  /\ length calls <= length files.
Proof.
  revert stats stats' results calls.
  induction files as [|f files IH]; intros stats stats' results calls Hs.
  - simpl in Hs. injection Hs as <- <- <-. unfold shortlisted_count. simpl.
    repeat split; try lia. constructor.
  - simpl in Hs.
    destruct (screen_file K jd stats f) as [[r s1] c1] eqn:Hf.
    destruct (screen_files K jd s1 files) as [[rs s2] c2] eqn:Hr.
    injection Hs as <- <- <-.
    apply screen_file_accounts in Hf as (Hn & Ht & Hsh & Htot & Hinv & Hc).
    apply IH in Hr as (Hns & Hts & Hshs & Htots & Hinvs & Hcs).
    unfold shortlisted_count in *. simpl. rewrite length_app.
    split; [now rewrite Hn, Hns |]. split; [now constructor |].
    destruct (is_shortlisted r); simpl; repeat split; lia.
Qed.

Lemma screen_files_accounts_witness :
  @screen_files Demo.nlp_words Demo.loads_table (Demo.model_answering Demo.text_shortlisted)
    (DemoMore.extraction_of ["Java developer"; "Five years"])
    ["java"] "Java role" {| total_screened := 3; shortlisted := 1 |}
    [{| file_name := "a.PDF"; file_bytes := "%PDF" |}; {| file_name := "notes.txt"; file_bytes := "x" |}]
  = ([{| r_decision := JStr "Shortlisted"; r_matching_keywords := ["java"];
         r_evaluation_summary := JStr "Good fit";
         r_requirements_met := JList []; r_requirements_missing := JList [];
         r_overall_score := Some 85%Z;
         r_initial_decision := "STRONG - High keyword match rate";
         r_total_keywords := 1; r_resume_filename := "a.PDF" |};
      error_result "Error processing file: Unsupported file format: txt" ["java"] "notes.txt"],
     {| total_screened := 4; shortlisted := 2 |},
     [{| prompt_total_keywords := 1; prompt_matching_keywords := ["java"];
         prompt_initial_decision := "STRONG - High keyword match rate";
         prompt_resume_text := "Java developer" ++ newline ++ "Five years" ++ newline;
         prompt_job_description_text := "Java role" |}])
  /\ 2 = 1 + 1.
Proof.
  assert (Hrun : @screen_files Demo.nlp_words Demo.loads_table
            (Demo.model_answering Demo.text_shortlisted)
            (DemoMore.extraction_of ["Java developer"; "Five years"])
            ["java"] "Java role" {| total_screened := 3; shortlisted := 1 |}
            [{| file_name := "a.PDF"; file_bytes := "%PDF" |};
             {| file_name := "notes.txt"; file_bytes := "x" |}]
          = ([{| r_decision := JStr "Shortlisted"; r_matching_keywords := ["java"];
                 r_evaluation_summary := JStr "Good fit";
                 r_requirements_met := JList []; r_requirements_missing := JList [];
                 r_overall_score := Some 85%Z;
                 r_initial_decision := "STRONG - High keyword match rate";
                 r_total_keywords := 1; r_resume_filename := "a.PDF" |};
              error_result "Error processing file: Unsupported file format: txt" ["java"] "notes.txt"],
             {| total_screened := 4; shortlisted := 2 |},
             [{| prompt_total_keywords := 1; prompt_matching_keywords := ["java"];
                 prompt_initial_decision := "STRONG - High keyword match rate";
                 prompt_resume_text := "Java developer" ++ newline ++ "Five years" ++ newline;
                 prompt_job_description_text := "Java role" |}]))
    by (vm_compute; reflexivity).
  split; [exact Hrun |].
  exact (proj1 (proj2 (proj2 (screen_files_accounts _ _ _ _ _ _ _ Hrun)))).
Defined.



(** ** app.py: the order and the colours of the displayed results *)

Section Ordering.
Context {A : Type} (key : A -> Z * Z).

Lemma pair_le_refl x : PySeq.pair_le x x = true.
Proof.
  unfold PySeq.pair_le. rewrite Z.eqb_refl, Z.leb_refl. now rewrite orb_true_r.
Qed.

Lemma pair_le_total x y : PySeq.pair_le x y = false -> PySeq.pair_le y x = true.
Proof.
  unfold PySeq.pair_le. intros Hxy.
  apply orb_false_elim in Hxy as [Hlt Hand]. apply Z.ltb_ge in Hlt.
  destruct (Z.ltb_spec (fst y) (fst x)); [reflexivity |].
  assert (Heq : fst x = fst y) by lia.
  rewrite Heq, Z.eqb_refl in Hand. simpl in Hand. apply Z.leb_gt in Hand.
  rewrite Heq, Z.eqb_refl. simpl. apply Z.leb_le. lia.
Qed.

Lemma pair_le_trans x y z :
  PySeq.pair_le x y = true -> PySeq.pair_le y z = true -> PySeq.pair_le x z = true.
Proof.
  unfold PySeq.pair_le. intros Hxy Hyz.
  apply orb_prop in Hxy. apply orb_prop in Hyz. apply orb_true_iff.
  destruct Hxy as [Hxy | Hxy]; destruct Hyz as [Hyz | Hyz];
    rewrite ?Z.ltb_lt, ?andb_true_iff, ?Z.eqb_eq, ?Z.leb_le in *; lia.
Qed.

Lemma insert_by_perm x l : Permutation (PySeq.insert_by key x l) (x :: l).
Proof.
  induction l as [|y l IH]; simpl; [reflexivity |].
  destruct (PySeq.pair_le (key x) (key y)); [reflexivity |].
  rewrite IH. apply perm_swap.
Qed.

Lemma insert_by_sorted x l :
  StronglySorted (key_le key) l -> StronglySorted (key_le key) (PySeq.insert_by key x l).
Proof.
  induction 1 as [|y l Hs IH Hy]; simpl; [repeat constructor |].
  destruct (PySeq.pair_le (key x) (key y)) eqn:Hxy.
  - constructor; [now constructor |].
    constructor; [exact Hxy |].
    eapply Forall_impl; [exact Hy |]. intros z Hz. unfold key_le in *.
    eapply pair_le_trans; eassumption.
  - constructor; [exact IH |].
    apply pair_le_total in Hxy.
    assert (Hall : Forall (key_le key y) (x :: l)) by (constructor; assumption).
    eapply Permutation_Forall; [symmetry; apply insert_by_perm | exact Hall].
Qed.

Lemma sort_by_perm l : Permutation (PySeq.sort_by key l) l.
Proof.
  induction l as [|x l IH]; simpl; [reflexivity |].
  rewrite insert_by_perm. now constructor.
Qed.

Lemma sort_by_sorted l : StronglySorted (key_le key) (PySeq.sort_by key l).
Proof.
  induction l as [|x l IH]; simpl; [constructor | now apply insert_by_sorted].
Qed.

Lemma with_key_le k a b : with_key key k a = true -> with_key key k b = true -> key_le key a b.
Proof.
  unfold with_key, key_le. intros Ha Hb.
  apply andb_prop in Ha as [Ha1 Ha2]. apply andb_prop in Hb as [Hb1 Hb2].
  apply Z.eqb_eq in Ha1, Ha2, Hb1, Hb2.
  unfold PySeq.pair_le. rewrite Ha1, Hb1, Ha2, Hb2, Z.eqb_refl, Z.leb_refl.
  now rewrite orb_true_r.
Qed.

Lemma insert_by_stable k x l :
  List.filter (with_key key k) (PySeq.insert_by key x l)
  = List.filter (with_key key k) (x :: l).
Proof.
  induction l as [|y l IH]; [reflexivity |].
  simpl PySeq.insert_by. destruct (PySeq.pair_le (key x) (key y)) eqn:Hxy; [reflexivity |].
  simpl. simpl in IH. rewrite IH.
  destruct (with_key key k x) eqn:Hx; [| reflexivity].
  destruct (with_key key k y) eqn:Hy; [| reflexivity].
  pose proof (with_key_le k x y Hx Hy) as Hle. unfold key_le in Hle. congruence.
Qed.

Lemma sort_by_stable k l :
  List.filter (with_key key k) (PySeq.sort_by key l) = List.filter (with_key key k) l.
Proof.
  induction l as [|x l IH]; [reflexivity |].
  simpl PySeq.sort_by. rewrite insert_by_stable. simpl. now rewrite IH.
Qed.

End Ordering.

(** X19. The displayed list is a rearrangement of the results in which a
    shortlisted result never comes after one that is not, and, within each
    of the two groups, a higher score never comes after a lower one (a null
    score counting as 0); results with the same group and the same score
    keep the order in which they were screened. *)
Theorem sort_results_order (results : list ScreeningResult) :
  Permutation (sort_results results) results
  /\ StronglySorted
       (fun a b => (is_shortlisted b = true -> is_shortlisted a = true)
                   /\ (is_shortlisted a = is_shortlisted b ->
                       (score_or_zero b <= score_or_zero a)%Z))
       (sort_results results)
  /\ (forall k, List.filter (with_key display_key k) (sort_results results)
                = List.filter (with_key display_key k) results).
Proof.
  split; [apply sort_by_perm |]. split; [| intros k; apply sort_by_stable].
  pose proof (sort_by_sorted display_key results) as Hs.
  fold (sort_results results) in Hs.
  induction Hs as [|a l Hs IH Ha]; constructor; [exact IH |].
  eapply Forall_impl; [exact Ha |]. intros b Hab.
  unfold key_le, PySeq.pair_le, display_key in Hab. simpl in Hab.
  destruct (is_shortlisted a), (is_shortlisted b); simpl in Hab;
    rewrite ?Z.leb_le in Hab; split; intros; try congruence; try lia.
Qed.

(** X20. The card of a result never shows the green or the yellow of a
    STRONG or WEAK initial decision: the decisions that reach it are the long
    verdict strings, "ERROR" or the empty string, none of which equals
    "STRONG" or "WEAK", so the colour is the red of the last branch for every
    result of [screen] and for every result of the loop over the files. *)
Theorem initial_color_is_always_red `{NLP} `{JSONDecoder} `{Model} `{Extraction}
    (K : list string) (R jd fn : string) (stats : ScreeningStats) (files : list UploadedFile) :
  initial_color (screen K R jd fn) = "#dc3545"
  /\ Forall (fun r => initial_color r = "#dc3545")
       (fst (fst (screen_files K jd stats files))).
Proof.
  assert (Hscreen : forall K' R' fn', initial_color (screen K' R' jd fn') = "#dc3545").
  { intros K' R' fn'. unfold initial_color.
    pose proof (screen_initial_decision K' R' jd fn') as Hin. simpl in Hin.
    repeat (destruct Hin as [<- | Hin]; [reflexivity |]). destruct Hin. }
  split; [apply Hscreen |].
  revert stats. induction files as [|f files IH]; intros stats; [constructor |].
  simpl.
  destruct (screen_file K jd stats f) as [[r s1] c1] eqn:Hf.
  specialize (IH s1).
  destruct (screen_files K jd s1 files) as [[rs s2] c2]. simpl in *.
  constructor; [| exact IH].
  unfold screen_file in Hf. destruct (resume_text_of f) as [text | e].
  - specialize (Hscreen K text (file_name f)). unfold screen in Hscreen.
    destruct (screen_run K text jd (file_name f)) as [r' c']. simpl in Hscreen.
    now injection Hf as <- _ _.
  - now injection Hf as <- _ _.
Qed.

(** ** parser.py: the text of a PDF *)

Section PdfText.
Context `{Extraction}.

Lemma fold_pages acc pages :
  fold_left (fun text page => text ++ page ++ newline) pages acc = acc ++ pages_text pages.
Proof.
  revert acc. induction pages as [|page rest IH]; intros acc; simpl.
  - induction acc as [|c acc IHa]; [reflexivity |].
    change (String c acc = String c (acc ++ EmptyString)). now rewrite <- IHa.
  - rewrite IH. now rewrite !append_assoc_str.
Qed.

End PdfText.

(** X21. The text extracted from a PDF is made of the texts of its pages
    in order, each followed by a newline, so the text of a document is the
    text of its first pages followed by the text of the others; it is empty
    exactly when the PDF has no page; and a failure of the reader is passed
    on unchanged. *)
Theorem extract_text_from_pdf_pages `{Extraction} (f : string) :
  extract_text_from_pdf f
  = match pdf_page_texts f with
    | Ok pages => Ok (pages_text pages)
    | Raise e => Raise e
    end
  /\ (forall ps1 ps2, pages_text (ps1 ++ ps2)%list = pages_text ps1 ++ pages_text ps2)
  /\ (extract_text_from_pdf f = Ok EmptyString <-> pdf_page_texts f = Ok []).
Proof.
  assert (Hx : extract_text_from_pdf f
               = match pdf_page_texts f with
                 | Ok pages => Ok (pages_text pages)
                 | Raise e => Raise e
                 end).
  { unfold extract_text_from_pdf. destruct (pdf_page_texts f) as [pages | e]; [| reflexivity].
    simpl. now rewrite fold_pages. }
  split; [exact Hx |]. split.
  - intros ps1 ps2. induction ps1 as [|page ps1 IH]; [reflexivity |].
    simpl. now rewrite IH, !append_assoc_str.
  - rewrite Hx. destruct (pdf_page_texts f) as [[|page rest] | e].
    + split; reflexivity.
    + split; intros Hz; [| discriminate Hz].
      injection Hz as Hz. exfalso.
      change (page ++ String (ascii_of_nat 10) (pages_text rest) = EmptyString) in Hz.
      destruct page; discriminate Hz.
    + split; discriminate.
Qed.

(** ** Checks of the added primitives against CPython *)

Example split_sep_ex :
  map (PySeq.split_sep ",") [EmptyString; "a,,b"; " , "] = [[EmptyString]; ["a"; EmptyString; "b"]; [" "; " "]].
Proof. reflexivity. Qed.

Example parse_user_keywords_ex :
  map parse_user_keywords [" ,, a ,b,"; "   "] = [["a"; "b"]; []].
Proof. vm_compute. reflexivity. Qed.

Example parse_user_keywords_latin1_ex :
  parse_user_keywords
    ("java," ++ Demo.no_break_space ++ "rust" ++ Demo.no_break_space ++ ", "
     ++ String (ascii_of_nat 133) EmptyString)
  = ["java"; "rust"].
Proof. vm_compute. reflexivity. Qed.

Example search_word_self_ex :
  map (fun p => PyStr.search_word p p) ["c++"; ".net"; "oauth2"; "c#"; "node.js"]
  = [false; false; true; false; true].
Proof. vm_compute. reflexivity. Qed.

Example sort_results_ex :
  let r name d s :=
    {| r_decision := JStr d; r_matching_keywords := []; r_evaluation_summary := JStr EmptyString;
       r_requirements_met := JList []; r_requirements_missing := JList [];
       r_overall_score := s; r_initial_decision := "ERROR"; r_total_keywords := 0;
       r_resume_filename := name |} in
  map r_resume_filename
    (sort_results [r "a" "Not Shortlisted" (Some 40%Z); r "b" "Shortlisted" None;
                   r "c" "Error" None; r "d" "Shortlisted" (Some 85%Z);
                   r "e" "Not Shortlisted" (Some 40%Z); r "f" "Shortlisted" (Some 0%Z);
                   r "g" "Not Shortlisted" (Some (-5)%Z); r "h" "Shortlisted" (Some 85%Z)])
  = ["d"; "h"; "b"; "f"; "a"; "e"; "c"; "g"].
Proof. vm_compute. reflexivity. Qed.
